(** * Bot lifecycle controller, heartbeat reconciler and metrics aggregator

    A shallow embedding of the server side of the repository and of the
    client code that feeds it:

    - [supabase/migrations/*.sql]: the tables [bots], [bot_env_vars],
      [bot_logs], [resource_history], the row-level-security policies, the
      triggers [check_bot_limit], [validate_resource_limits] and
      [update_updated_at_column], and the sign-up trigger
      [handle_new_user] with [has_role];
    - [supabase/functions/bot-manager/index.ts]: the request handler with
      the actions deploy, start, stop, restart, delete and status;
    - [supabase/functions/bot-heartbeat/index.ts]: the sweep over the
      bots in status online, and the bot-logs function;
    - the resource-metrics function: hourly aggregation of the samples;
    - the [useBots] hook (the realtime callback and the optimistic
      updates) and the deploy form.

    Conventions of the embedding.  A handler is a function from the world
    (the database tables, the identity provider's sessions and the
    process-local [containerStates] map) and the request to the new world
    and the response.  Everything the handlers draw from outside
    ([Math.random], [crypto.randomUUID], the clock, errors reported by the
    storage layer) is passed in as an explicit oracle.  SQL [REAL] and
    the numbers of bot-manager and bot-heartbeat are rationals ([Q]); the
    arithmetic of resource-metrics, which sums and divides what it reads,
    is IEEE 754 binary64 as in JavaScript ([Number.t]); timestamps are
    milliseconds since the epoch ([Z]); uuids and texts are strings, held
    as UTF-8.  One run reads the
    clock once.  The handlers look at the error of some statements only
    (the insert, update and delete on [bots], the history query); those
    errors are in the oracle, and the statements whose result is never
    looked at (the inserts of log entries, samples and env vars) are taken
    to succeed. *)

From Stdlib Require Import ZArith QArith Qround Lia Lqa SpecFloat.
From stdpp Require Import base decidable option list sorting gmap strings pretty.

Local Open Scope string_scope.
Local Open Scope list_scope.
Local Open Scope Z_scope.

(** ** Data model (migration 20251224200442) *)

Inductive bot_platform := telegram | discord.
Inductive bot_runtime := python | nodejs | php.
Inductive bot_status := online | offline | deploying | error | stopped.

Global Instance bot_platform_eq_dec : EqDecision bot_platform.
Proof. solve_decision. Defined.
Global Instance bot_runtime_eq_dec : EqDecision bot_runtime.
Proof. solve_decision. Defined.
Global Instance bot_status_eq_dec : EqDecision bot_status.
Proof. solve_decision. Defined.

(** A row of [public.bots].  Nullable columns are options. *)
Record BotRow := mkBot {
  b_id : string;
  b_user_id : string;
  b_name : string;
  b_platform : bot_platform;
  b_runtime : bot_runtime;
  b_status : bot_status;
  b_container_id : option string;
  b_script_content : option string;
  b_cpu_usage : option Q;
  b_memory_usage : option Q;
  b_uptime_seconds : option Z;
  b_last_started_at : option Z;
  b_created_at : Z;
  b_updated_at : Z
}.

(** Rows of [bot_env_vars], [bot_logs] and [resource_history]; their own
    [id] columns are generated and never read, and are left out. *)
Record EnvVarRow := mkEnvVar {
  ev_bot_id : string;
  ev_key : string;
  ev_value : string;
  ev_created_at : Z
}.

Record LogRow := mkLog {
  l_bot_id : string;
  l_level : string;
  l_message : string;
  l_created_at : Z
}.

Record SampleRow := mkSample {
  rh_bot_id : string;
  rh_cpu_usage : Q;
  rh_memory_usage : Q;
  rh_recorded_at : Z
}.

(** The user object returned by [supabase.auth.getUser()]. *)
Record User := mkUser {
  u_id : string;
  email_confirmed_at : option Z
}.

(** An entry of the in-memory [containerStates] map of bot-manager. *)
Record ContainerState := mkContainerState {
  cs_containerId : string;
  cs_status : string;
  cs_startedAt : Z;
  cs_cpuUsage : Q;
  cs_memoryUsage : Q
}.

Record World := mkWorld {
  sessions : gmap string User;      (* Authorization header |-> user *)
  bots : list BotRow;
  bot_env_vars : list EnvVarRow;
  bot_logs : list LogRow;
  resource_history : list SampleRow;
  containerStates : gmap string ContainerState
}.

Definition set_bots (w : World) (t : list BotRow) : World :=
  mkWorld (sessions w) t (bot_env_vars w) (bot_logs w) (resource_history w)
          (containerStates w).
Definition set_bot_env_vars (w : World) (t : list EnvVarRow) : World :=
  mkWorld (sessions w) (bots w) t (bot_logs w) (resource_history w)
          (containerStates w).
Definition set_bot_logs (w : World) (t : list LogRow) : World :=
  mkWorld (sessions w) (bots w) (bot_env_vars w) t (resource_history w)
          (containerStates w).
Definition set_resource_history (w : World) (t : list SampleRow) : World :=
  mkWorld (sessions w) (bots w) (bot_env_vars w) (bot_logs w) t
          (containerStates w).
Definition set_containerStates (w : World) (m : gmap string ContainerState)
  : World :=
  mkWorld (sessions w) (bots w) (bot_env_vars w) (bot_logs w)
          (resource_history w) m.

(** ** Numbers *)

(** [Math.round]: the nearest integer, halves rounded up. *)
Definition Math_round (x : Q) : Z := Qfloor (x + (1 # 2)).

(** [a > b] on numbers, as a boolean. *)
Definition Qgtb (a b : Q) : bool := negb (Qle_bool a b).

(** JavaScript's conversion of a number to a string, for numbers with at
    most one decimal digit (the only ones the handlers format). *)
Definition Number_toString (q : Q) : string :=
  let n := Qfloor (q * 10) in
  let a := Z.abs n in
  (if n <? 0 then "-" else "") +:+ pretty (a / 10) +:+
  (if a mod 10 =? 0 then "" else "." +:+ pretty (a mod 10)).

(** JavaScript's Number type where the handlers do arithmetic on what they
    read: IEEE 754 binary64, with the operations of the Standard Library's
    specification of floating-point arithmetic (round to nearest, ties to
    even). *)
Module Number.

Definition t : Type := spec_float.

Definition prec : Z := 53.
Definition emax : Z := 1024.

Definition zero : t := S754_zero false.

Definition add : t → t → t := SFadd prec emax.
Definition mul : t → t → t := SFmul prec emax.
Definition div : t → t → t := SFdiv prec emax.

(** The Number nearest to an integer. *)
Definition of_Z (n : Z) : t := binary_normalize prec emax n 0 false.

(** The Number a decimal literal or a JSON number denotes: the one nearest
    to its value (the correctly rounded quotient of numerator and
    denominator). *)
Definition of_Q (q : Q) : t :=
  match Qnum q with
  | 0 => zero
  | Zpos n => div (S754_finite false n 0) (S754_finite false (Qden q) 0)
  | Zneg n => div (S754_finite true n 0) (S754_finite false (Qden q) 0)
  end.

(** [x || d] for a Number [x]: 0, -0 and NaN are falsy. *)
Definition or_else (x d : t) : t :=
  match x with
  | S754_zero _ | S754_nan => d
  | _ => x
  end.

(** [Math.round]: the nearest integer, halves rounded up; a result of
    zero keeps the sign of the argument. *)
Definition Math_round (x : t) : t :=
  match x with
  | S754_finite s m e =>
      let sm := cond_Zopp s (Zpos m) in
      let n := if 0 <=? e then sm * 2 ^ e
               else (2 * sm + 2 ^ (- e)) / 2 ^ (1 - e) in
      if n =? 0 then S754_zero s else of_Z n
  | _ => x
  end.

(** The value of a Number that is finite. *)
Definition value (x : t) : option Q :=
  match x with
  | S754_zero _ => Some 0%Q
  | S754_finite s m e =>
      Some match e with
           | Zneg p => Qmake (cond_Zopp s (Zpos m)) (2 ^ p)
           | _ => inject_Z (cond_Zopp s (Zpos m) * 2 ^ e)
           end
  | _ => None
  end.

End Number.

(** ** Triggers (migration 20251225151009) *)

Inductive trigger_result :=
| Return (NEW : BotRow)
| Raise (msg : string).

Definition count_user_bots (tbl : list BotRow) (uid : string) : Z :=
  Z.of_nat (length (filter (λ b, b_user_id b = uid) tbl)).

(** [check_bot_limit()], BEFORE INSERT ON bots. *)
Definition check_bot_limit (tbl : list BotRow) (NEW : BotRow)
  : trigger_result :=
  let bot_count := count_user_bots tbl (b_user_id NEW) in
  let max_bots := 3 in
  if bool_decide (bot_count >= max_bots)
  then Raise "Bot limit exceeded. Maximum 3 bots allowed per user."
  else Return NEW.

Definition clamp_above (limit : Q) (v : option Q) : option Q :=
  match v with
  | Some x => if Qgtb x limit then Some limit else Some x
  | None => None
  end.

(** [validate_resource_limits()], BEFORE INSERT OR UPDATE ON bots. *)
Definition validate_resource_limits (NEW : BotRow) : trigger_result :=
  Return (mkBot (b_id NEW) (b_user_id NEW) (b_name NEW) (b_platform NEW)
                (b_runtime NEW) (b_status NEW) (b_container_id NEW)
                (b_script_content NEW)
                (clamp_above 10 (b_cpu_usage NEW))
                (clamp_above 50 (b_memory_usage NEW))
                (b_uptime_seconds NEW) (b_last_started_at NEW)
                (b_created_at NEW) (b_updated_at NEW)).

(** [update_updated_at_column()], BEFORE UPDATE ON bots. *)
Definition update_updated_at_column (now : Z) (NEW : BotRow)
  : trigger_result :=
  Return (mkBot (b_id NEW) (b_user_id NEW) (b_name NEW) (b_platform NEW)
                (b_runtime NEW) (b_status NEW) (b_container_id NEW)
                (b_script_content NEW) (b_cpu_usage NEW) (b_memory_usage NEW)
                (b_uptime_seconds NEW) (b_last_started_at NEW)
                (b_created_at NEW) now).

Definition trigger_bind (r : trigger_result) (k : BotRow → trigger_result)
  : trigger_result :=
  match r with
  | Return NEW => k NEW
  | Raise msg => Raise msg
  end.

(** Triggers of one event fire in the order of their names:
    [enforce_bot_limit], [enforce_resource_limits], then
    [update_bots_updated_at]. *)
Definition before_insert (tbl : list BotRow) (NEW : BotRow) : trigger_result :=
  trigger_bind (check_bot_limit tbl NEW) validate_resource_limits.

Definition before_update (now : Z) (NEW : BotRow) : trigger_result :=
  trigger_bind (validate_resource_limits NEW) (update_updated_at_column now).

(** ** Storage operations *)

(** Which client issues a statement: the user's client is subject to the
    row-level-security policies, the service-role client bypasses them. *)
Inductive client :=
| as_user (uid : string)
| service_role.

(** The policies on [bots] (select, update, delete): [auth.uid() = user_id]. *)
Definition bot_visible (c : client) (b : BotRow) : bool :=
  match c with
  | as_user uid => bool_decide (b_user_id b = uid)
  | service_role => true
  end.

Definition select_bots (c : client) (tbl : list BotRow) : list BotRow :=
  filter (λ b, bot_visible c b) tbl.

(** [.single()]: the row when exactly one is returned, otherwise no data. *)
Definition single {A} (rows : list A) : option A :=
  match rows with
  | [r] => Some r
  | _ => None
  end.

Definition dquote : string := String (Ascii.ascii_of_nat 34) EmptyString.

Definition policy_violation : string :=
  "new row violates row-level security policy for table " +:+
  dquote +:+ "bots" +:+ dquote.

(** [insert(...).select().single()] on [bots]: either the error message or
    the new table and the inserted row.  [failure] is an error of the
    storage layer itself, if any; the BEFORE INSERT triggers run first,
    then the insert policy ([auth.uid() = user_id]) is checked. *)
Definition insert_bot (c : client) (failure : option string)
  (tbl : list BotRow) (NEW : BotRow) : string + (list BotRow * BotRow) :=
  match failure with
  | Some msg => inl msg
  | None =>
      match before_insert tbl NEW with
      | Raise msg => inl msg
      | Return row =>
          if bot_visible c row then inr (tbl ++ [row], row)
          else inl policy_violation
      end
  end.

(** The columns an [update] statement sets. *)
Record BotPatch := mkPatch {
  p_status : option bot_status;
  p_container_id : option string;
  p_last_started_at : option Z;
  p_cpu_usage : option Q;
  p_memory_usage : option Q;
  p_uptime_seconds : option Z
}.

Definition apply_patch (p : BotPatch) (b : BotRow) : BotRow :=
  mkBot (b_id b) (b_user_id b) (b_name b) (b_platform b) (b_runtime b)
        (default (b_status b) (p_status p))
        (match p_container_id p with Some c => Some c | None => b_container_id b end)
        (b_script_content b)
        (match p_cpu_usage p with Some c => Some c | None => b_cpu_usage b end)
        (match p_memory_usage p with Some c => Some c | None => b_memory_usage b end)
        (match p_uptime_seconds p with Some c => Some c | None => b_uptime_seconds b end)
        (match p_last_started_at p with Some c => Some c | None => b_last_started_at b end)
        (b_created_at b) (b_updated_at b).

Definition update_row (now : Z) (p : BotPatch) (b : BotRow) : BotRow :=
  match before_update now (apply_patch p b) with
  | Return row => row
  | Raise _ => b
  end.

(** [from("bots").update(p).eq("id", botId)]: the error, or the new table. *)
Definition update_bots (c : client) (now : Z) (failure : option string)
  (botId : string) (p : BotPatch) (tbl : list BotRow)
  : string + list BotRow :=
  match failure with
  | Some msg => inl msg
  | None =>
      inr (map (λ b, if bot_visible c b && bool_decide (b_id b = botId)
                     then update_row now p b else b) tbl)
  end.

(** [from("bots").delete().eq("id", botId)]; the foreign keys of the three
    dependent tables are ON DELETE CASCADE. *)
Definition bot_deleted (c : client) (botId : string) (b : BotRow) : bool :=
  bot_visible c b && bool_decide (b_id b = botId).

Definition delete_bots (c : client) (failure : option string)
  (botId : string) (w : World) : string + World :=
  match failure with
  | Some msg => inl msg
  | None =>
      let gone := filter (λ b, bot_deleted c botId b) (bots w) in
      let dead := λ id : string, id ∈ map b_id gone in
      inr (mkWorld (sessions w)
             (filter (λ b, ¬ bot_deleted c botId b) (bots w))
             (filter (λ e, ¬ dead (ev_bot_id e)) (bot_env_vars w))
             (filter (λ l, ¬ dead (l_bot_id l)) (bot_logs w))
             (filter (λ s, ¬ dead (rh_bot_id s)) (resource_history w))
             (containerStates w))
  end.

(** ** bot-manager *)

(** The JSON body of a request ([interface BotAction]). *)
Record BotAction := mkAction {
  action : string;
  botId : option string;
  name : option string;
  platform : option bot_platform;
  runtime : option bot_runtime;
  scriptContent : option string;
  envVars : option (list (string * string))
}.

(** A request: its method, its Authorization header and its body, [None]
    when the body is not JSON ([req.json()] throws). *)
Record Request := mkRequest {
  method : string;
  authorization : option string;
  json : option BotAction
}.

(** What one run of the handler draws from outside. *)
Record Oracle := mkOracle {
  random_cpu : Q;                (* first Math.random() *)
  random_memory : Q;             (* second Math.random() *)
  randomUUID : string;           (* crypto.randomUUID() *)
  gen_random_uuid : string;      (* id default of an inserted bots row *)
  now : Z;                       (* the clock *)
  count_error : bool;            (* the count query fails: count is null *)
  write_error : option string    (* error of the checked write on bots *)
}.

Record Resources := mkResources { cpu : Q; memory : Q }.

(** The JSON bodies the handler answers with. *)
Inductive Body :=
| BNull
| BError (error : string)
| BErrorMessage (error message : string)
| BDeployed (bot : BotRow) (message : string)
| BRunning (status containerId : string) (resources : Resources)
| BStopped (status : string)
| BDeleted (message : string)
| BStatus (bot : option BotRow).

Record Response := mkResponse { status_code : Z; body : Body }.

Definition ok (b : Body) : Response := mkResponse 200 b.

(** A JavaScript string used as a condition: absent and empty are falsy. *)
Definition truthy (s : option string) : option string :=
  match s with
  | Some v => if bool_decide (v = "") then None else Some v
  | None => None
  end.

Definition generateContainerId (uuid : string) : string :=
  "nexus-" +:+ String.substring 0 12 uuid.

Definition simulateResourceUsage (r1 r2 : Q) : Resources :=
  {| cpu := inject_Z (Math_round ((r1 * 8 + 1) * 10)) / 10;
     memory := inject_Z (Math_round ((r2 * 35 + 5) * 10)) / 10 |}.

Definition getUser (w : World) (authHeader : string) : option User :=
  sessions w !! authHeader.

Definition verifyBotOwnership (w : World) (user : User) (id : string) : bool :=
  match single (filter (λ b, b_id b = id)
                  (select_bots (as_user (u_id user)) (bots w))) with
  | Some bot => bool_decide (b_user_id bot = u_id user)
  | None => false
  end.

Definition addLog (t : Z) (id level message : string) (w : World) : World :=
  set_bot_logs w (bot_logs w ++ [mkLog id level message t]).

Definition recordResources (t : Z) (id : string) (c m : Q) (w : World)
  : World :=
  set_resource_history w (resource_history w ++ [mkSample id c m t]).

Definition runtime_name (r : bot_runtime) : string :=
  match r with python => "python" | nodejs => "nodejs" | php => "php" end.
Definition platform_name (p : bot_platform) : string :=
  match p with telegram => "telegram" | discord => "discord" end.

Definition missing_botId : Response :=
  mkResponse 400 (BError "Missing botId").
Definition access_denied : Response :=
  mkResponse 403 (BError "Bot not found or access denied").
Definition not_verified : Response :=
  mkResponse 403 (BErrorMessage "Email not verified"
    "Please verify your email before deploying or managing bots.").
Definition bot_limit_reached : Response :=
  mkResponse 400 (BErrorMessage "Bot limit reached"
    "Maximum 3 bots allowed per user.").

(** [case "deploy"]. *)
Definition deploy (w : World) (o : Oracle) (user : User) (body : BotAction)
  : World * Response :=
  match truthy (name body), platform body, runtime body with
  | Some name, Some platform, Some runtime =>
      let count :=
        if count_error o then None
        else Some (Z.of_nat (length (filter (λ b, b_user_id b = u_id user)
                     (select_bots (as_user (u_id user)) (bots w))))) in
      if match count with Some n => bool_decide (n >= 3) | None => false end
      then (w, bot_limit_reached)
      else
        let containerId := generateContainerId (randomUUID o) in
        match insert_bot (as_user (u_id user)) (write_error o) (bots w)
                (mkBot (gen_random_uuid o) (u_id user) name platform runtime
                       offline (Some containerId) (scriptContent body)
                       (Some 0%Q) (Some 0%Q) (Some 0) None (now o) (now o)) with
        | inl msg => (w, mkResponse 400 (BError msg))
        | inr (tbl, bot) =>
            let w1 := set_bots w tbl in
            let w2 :=
              match envVars body with
              | Some evs =>
                  if bool_decide (0 < length evs)%nat then
                    let envVarsToInsert :=
                      map (λ ev, mkEnvVar (b_id bot) ev.1 ev.2 (now o))
                          (filter (λ ev : string * string,
                                     ev.1 ≠ "" ∧ ev.2 ≠ "") evs) in
                    if bool_decide (0 < length envVarsToInsert)%nat
                    then set_bot_env_vars w1
                           (bot_env_vars w1 ++ envVarsToInsert)
                    else w1
                  else w1
              | None => w1
              end in
            let w3 := addLog (now o) (b_id bot) "info"
                        ("Bot " +:+ dquote +:+ name +:+ dquote +:+
                         " created with container " +:+ containerId) w2 in
            let w4 := addLog (now o) (b_id bot) "info"
                        ("Runtime: " +:+ runtime_name runtime +:+
                         ", Platform: " +:+ platform_name platform) w3 in
            (w4, ok (BDeployed bot
                       ("Bot " +:+ dquote +:+ name +:+ dquote +:+
                        " deployed successfully")))
        end
  | _, _, _ =>
      (w, mkResponse 400
            (BError "Missing required fields: name, platform, runtime"))
  end.

(** [case "start"]. *)
Definition start (w : World) (o : Oracle) (user : User) (body : BotAction)
  : World * Response :=
  match truthy (botId body) with
  | None => (w, missing_botId)
  | Some botId =>
      if negb (verifyBotOwnership w user botId) then (w, access_denied)
      else
        let resources := simulateResourceUsage (random_cpu o) (random_memory o) in
        let containerId := generateContainerId (randomUUID o) in
        let w1 := set_containerStates w
                    (<[botId := mkContainerState containerId "running" (now o)
                                  (cpu resources) (memory resources)]>
                       (containerStates w)) in
        match update_bots (as_user (u_id user)) (now o) (write_error o) botId
                (mkPatch (Some online) (Some containerId) (Some (now o))
                         (Some (cpu resources)) (Some (memory resources)) None)
                (bots w1) with
        | inl msg => (w1, mkResponse 500 (BError msg))
        | inr tbl =>
            let w2 := set_bots w1 tbl in
            let w3 := addLog (now o) botId "info" "Bot started successfully" w2 in
            let w4 := addLog (now o) botId "info"
                        ("Container " +:+ containerId +:+ " is running") w3 in
            let w5 := addLog (now o) botId "debug"
                        ("Resources allocated: " +:+
                         Number_toString (cpu resources) +:+ "% CPU, " +:+
                         Number_toString (memory resources) +:+ "MB RAM") w4 in
            let w6 := recordResources (now o) botId (cpu resources)
                        (memory resources) w5 in
            (w6, ok (BRunning "online" containerId resources))
        end
  end.

(** [case "stop"]. *)
Definition stop (w : World) (o : Oracle) (user : User) (body : BotAction)
  : World * Response :=
  match truthy (botId body) with
  | None => (w, missing_botId)
  | Some botId =>
      if negb (verifyBotOwnership w user botId) then (w, access_denied)
      else
        let w1 := set_containerStates w (delete botId (containerStates w)) in
        match update_bots (as_user (u_id user)) (now o) (write_error o) botId
                (mkPatch (Some stopped) None None (Some 0%Q) (Some 0%Q) None)
                (bots w1) with
        | inl msg => (w1, mkResponse 500 (BError msg))
        | inr tbl =>
            let w2 := set_bots w1 tbl in
            let w3 := addLog (now o) botId "info" "Bot stopped" w2 in
            let w4 := addLog (now o) botId "info"
                        "Container terminated gracefully" w3 in
            (w4, ok (BStopped "stopped"))
        end
  end.

(** [case "restart"]. *)
Definition restart (w : World) (o : Oracle) (user : User) (body : BotAction)
  : World * Response :=
  match truthy (botId body) with
  | None => (w, missing_botId)
  | Some botId =>
      if negb (verifyBotOwnership w user botId) then (w, access_denied)
      else
        let w1 := addLog (now o) botId "info" "Restarting bot..." w in
        let resources := simulateResourceUsage (random_cpu o) (random_memory o) in
        let newContainerId := generateContainerId (randomUUID o) in
        match update_bots (as_user (u_id user)) (now o) (write_error o) botId
                (mkPatch (Some online) (Some newContainerId) (Some (now o))
                         (Some (cpu resources)) (Some (memory resources)) None)
                (bots w1) with
        | inl msg => (w1, mkResponse 500 (BError msg))
        | inr tbl =>
            let w2 := set_bots w1 tbl in
            let w3 := addLog (now o) botId "info"
                        "Bot restarted successfully" w2 in
            let w4 := addLog (now o) botId "info"
                        ("New container " +:+ newContainerId +:+ " is running")
                        w3 in
            let w5 := recordResources (now o) botId (cpu resources)
                        (memory resources) w4 in
            (w5, ok (BRunning "online" newContainerId resources))
        end
  end.

(** [case "delete"]. *)
Definition delete_bot (w : World) (o : Oracle) (user : User) (body : BotAction)
  : World * Response :=
  match truthy (botId body) with
  | None => (w, missing_botId)
  | Some botId =>
      if negb (verifyBotOwnership w user botId) then (w, access_denied)
      else
        let w1 := set_containerStates w (delete botId (containerStates w)) in
        match delete_bots (as_user (u_id user)) (write_error o) botId w1 with
        | inl msg => (w1, mkResponse 500 (BError msg))
        | inr w2 => (w2, ok (BDeleted "Bot deleted successfully"))
        end
  end.

(** [case "status"].  The error of its update is not looked at. *)
Definition status (w : World) (o : Oracle) (user : User) (body : BotAction)
  : World * Response :=
  match truthy (botId body) with
  | None => (w, missing_botId)
  | Some botId =>
      if negb (verifyBotOwnership w user botId) then (w, access_denied)
      else
        let bot := single (filter (λ b, b_id b = botId)
                             (select_bots (as_user (u_id user)) (bots w))) in
        match bot with
        | Some b =>
            if bool_decide (b_status b = online) then
              let resources :=
                simulateResourceUsage (random_cpu o) (random_memory o) in
              let patch := mkPatch None None None (Some (cpu resources))
                             (Some (memory resources)) None in
              let tbl :=
                match update_bots (as_user (u_id user)) (now o) (write_error o)
                        botId patch (bots w) with
                | inl _ => bots w
                | inr tbl => tbl
                end in
              let w1 := set_bots w tbl in
              let w2 := recordResources (now o) botId (cpu resources)
                          (memory resources) w1 in
              (w2, ok (BStatus (Some
                     (mkBot (b_id b) (b_user_id b) (b_name b) (b_platform b)
                            (b_runtime b) (b_status b) (b_container_id b)
                            (b_script_content b) (Some (cpu resources))
                            (Some (memory resources)) (b_uptime_seconds b)
                            (b_last_started_at b) (b_created_at b)
                            (b_updated_at b)))))
            else (w, ok (BStatus bot))
        | None => (w, ok (BStatus bot))
        end
  end.

(** The [switch (action)] of the handler. *)
Definition dispatch (w : World) (o : Oracle) (user : User) (body : BotAction)
  : World * Response :=
  if String.eqb (action body) "deploy" then deploy w o user body
  else if String.eqb (action body) "start" then start w o user body
  else if String.eqb (action body) "stop" then stop w o user body
  else if String.eqb (action body) "restart" then restart w o user body
  else if String.eqb (action body) "delete" then delete_bot w o user body
  else if String.eqb (action body) "status" then status w o user body
  else (w, mkResponse 400 (BError "Invalid action")).

(** The handler passed to [serve] in bot-manager/index.ts. *)
Definition bot_manager (w : World) (o : Oracle) (req : Request)
  : World * Response :=
  if String.eqb (method req) "OPTIONS" then (w, ok BNull)
  else
    match truthy (authorization req) with
    | None => (w, mkResponse 401 (BError "Missing authorization header"))
    | Some authHeader =>
        match getUser w authHeader with
        | None => (w, mkResponse 401 (BError "Invalid or expired token"))
        | Some user =>
            match email_confirmed_at user with
            | None => (w, not_verified)
            | Some _ =>
                match json req with
                | None => (w, mkResponse 500 (BError "Internal server error"))
                | Some body => dispatch w o user body
                end
            end
        end
    end.

(** ** bot-heartbeat *)

(** What the sweep draws for one bot. *)
Record Beat := mkBeat {
  beat_cpu : Q;                  (* Math.random() of cpuUsage *)
  beat_memory : Q;               (* Math.random() of memoryUsage *)
  beat_update_error : option string;   (* updateError *)
  beat_log : Q;                  (* Math.random() > 0.7 *)
  beat_pick : Q                  (* Math.random() selecting the message *)
}.

Record Update := mkUpdate {
  upd_botId : string;
  upd_botName : string;
  upd_cpu : Q;
  upd_memory : Q;
  upd_uptime : Z
}.

Inductive HeartbeatBody :=
| HNull
| HError (error : string)
| HSwept (botsUpdated : Z) (updates : list Update).

Record HeartbeatResponse := mkHeartbeatResponse {
  hb_status_code : Z;
  hb_body : HeartbeatBody
}.

Definition logMessages (memoryUsage : Q) : list (string * string) :=
  [ ("info", "Processing incoming message...");
    ("debug", "Heartbeat check passed");
    ("info", "Webhook delivered successfully");
    ("info", "User command processed");
    ("debug", "Memory usage: " +:+ Number_toString memoryUsage +:+ "MB") ].

(** The body of the [for (const bot of runningBots)] loop. *)
Definition beat_one (t : Z) (draw : string → Beat)
  (acc : World * list Update) (bot : BotRow) : World * list Update :=
  let '(w, updates) := acc in
  let d := draw (b_id bot) in
  let cpuUsage := (inject_Z (Math_round ((beat_cpu d * 8 + 1) * 10)) / 10)%Q in
  let memoryUsage :=
    (inject_Z (Math_round ((beat_memory d * 35 + 5) * 10)) / 10)%Q in
  let startedAt := default t (b_last_started_at bot) in
  let uptimeSeconds := (t - startedAt) / 1000 in
  let '(w1, updates1) :=
    match update_bots service_role t (beat_update_error d) (b_id bot)
            (mkPatch None None None (Some cpuUsage) (Some memoryUsage)
                     (Some uptimeSeconds)) (bots w) with
    | inr tbl =>
        (set_resource_history (set_bots w tbl)
           (resource_history w ++ [mkSample (b_id bot) cpuUsage memoryUsage t]),
         updates ++ [mkUpdate (b_id bot) (b_name bot) cpuUsage memoryUsage
                              uptimeSeconds])
    | inl _ => (w, updates)
    end in
  let w2 :=
    if Qgtb (beat_log d) (7 # 10) then
      match logMessages memoryUsage
              !! Z.to_nat (Qfloor (beat_pick d * 5)) with
      | Some randomLog =>
          set_bot_logs w1 (bot_logs w1 ++
            [mkLog (b_id bot) randomLog.1 randomLog.2 t])
      | None => w1      (* no such index: not reached for a draw in [0, 1) *)
      end
    else w1 in
  (w2, updates1).

(** The handler passed to [serve] in bot-heartbeat/index.ts.  [fetch_error]
    is the error of the first query, which is thrown and answered with 500. *)
Definition bot_heartbeat (w : World) (t : Z) (fetch_error : bool)
  (draw : string → Beat) (req : Request) : World * HeartbeatResponse :=
  if String.eqb (method req) "OPTIONS" then (w, mkHeartbeatResponse 200 HNull)
  else if fetch_error
  then (w, mkHeartbeatResponse 500 (HError "Internal server error"))
  else
    let runningBots :=
      filter (λ b, b_status b = online) (select_bots service_role (bots w)) in
    let '(w', updates) := foldl (beat_one t draw) (w, []) runningBots in
    (w', mkHeartbeatResponse 200
           (HSwept (Z.of_nat (length updates)) updates)).

(** ** resource-metrics *)

(** What [parseInt] makes of a text: NaN when the text does not start with
    an integer, otherwise the integer read. *)
Inductive parseInt_result :=
| not_a_number
| integer (n : Z).

Record MetricsRequest := mkMetricsRequest {
  m_method : string;
  m_authorization : option string;
  q_botId : option string;       (* url.searchParams.get("botId") *)
  q_hours : option parseInt_result
    (* parseInt of the "hours" parameter, when present and not empty *)
}.

Record MetricsOracle := mkMetricsOracle {
  Date_now : Z;
  userBots_error : bool;         (* the first query on bots fails *)
  history_error : option string; (* historyError *)
  currentBots_error : bool       (* the second query on bots fails *)
}.

Record ChartPoint := mkPoint {
  time : string;
  pt_cpu : Number.t;
  pt_memory : Number.t
}.

Record Stats := mkStats {
  totalBots : Z;
  runningBots : Z;
  totalCpu : Number.t;
  totalMemory : Number.t;
  maxBots : Z;
  maxCpuPerBot : Z;
  maxMemoryPerBot : Z
}.

Inductive MetricsBody :=
| MNull
| MError (error : string)
| MMetrics (metrics : list ChartPoint)
| MData (chartData : list ChartPoint) (stats : Stats)
        (bots : option (list BotRow)).

Record MetricsResponse := mkMetricsResponse {
  m_status_code : Z;
  m_body : MetricsBody
}.

(** The properties a client reads off a parsed body; [None] is undefined. *)
Definition success_of (b : MetricsBody) : option bool :=
  match b with
  | MMetrics _ | MData _ _ _ => Some true
  | _ => None
  end.
Definition chartData_of (b : MetricsBody) : option (list ChartPoint) :=
  match b with MData c _ _ => Some c | _ => None end.
Definition stats_of (b : MetricsBody) : option Stats :=
  match b with MData _ s _ => Some s | _ => None end.
Definition error_of (b : MetricsBody) : option string :=
  match b with MError e => Some e | _ => None end.

(** The select policy on [resource_history]: the sample's bot is one of
    the caller's. *)
Definition sample_visible (c : client) (tbl : list BotRow) (s : SampleRow)
  : bool :=
  match c with
  | as_user uid =>
      bool_decide (Exists (λ b, b_id b = rh_bot_id s ∧ b_user_id b = uid) tbl)
  | service_role => true
  end.

Definition recorded_le (a b : SampleRow) : Prop :=
  rh_recorded_at a ≤ rh_recorded_at b.

Global Instance recorded_le_dec : RelDecision recorded_le.
Proof. intros a b. unfold recorded_le. apply _. Defined.

(** [from("resource_history").select("*").in("bot_id", botIds)
    .gte("recorded_at", cutoffTime).order("recorded_at", ascending)]. *)
Definition select_history (c : client) (w : World) (botIds : list string)
  (cutoffTime : Z) : list SampleRow :=
  merge_sort recorded_le
    (filter (λ s, rh_bot_id s ∈ botIds ∧ cutoffTime ≤ rh_recorded_at s)
       (filter (λ s, sample_visible c (bots w) s) (resource_history w))).

(** [new Date(recorded_at).toISOString().slice(0, 13)]: the first thirteen
    characters, YYYY-MM-DDTHH, name the UTC hour the instant falls in; the
    key is that hour, counted from the epoch. *)
Definition hour_key (recorded_at : Z) : Z := recorded_at / 3600000.

(** [new Date(hour + ":00:00Z")], in milliseconds. *)
Definition Date_of_hour (hour : Z) : Z := hour * 3600000.

Definition two_digit (n : Z) : string :=
  if n <? 10 then "0" +:+ pretty n else pretty n.

(** [toLocaleTimeString("en-US", {hour: "2-digit", minute: "2-digit",
    hour12: false})] where the runtime's zone is UTC, as on the edge
    runtime: hour from 00 to 23, a colon, the minute. *)
Definition toLocaleTimeString (t : Z) : string :=
  two_digit ((t / 3600000) mod 24) +:+ ":" +:+ two_digit ((t / 60000) mod 60).

Record Bucket := mkBucket {
  bk_cpu : list Number.t;
  bk_memory : list Number.t;
  bk_count : Z
}.

(** One round of the aggregation loop on [hourlyMetrics]; the object keeps
    its keys in the order they were first set. *)
Fixpoint push_record (hour : Z) (c m : Number.t)
  (hourlyMetrics : list (Z * Bucket))
  : list (Z * Bucket) :=
  match hourlyMetrics with
  | [] => [(hour, mkBucket [c] [m] 1)]
  | (h, data) :: rest =>
      if bool_decide (h = hour)
      then (h, mkBucket (bk_cpu data ++ [c]) (bk_memory data ++ [m])
                        (bk_count data + 1)) :: rest
      else (h, data) :: push_record hour c m rest
  end.

(** The rows reach the handler as JSON: [record.cpu_usage] and
    [record.memory_usage] are the Numbers the stored values denote. *)
Definition aggregate (history : list SampleRow) : list (Z * Bucket) :=
  foldl (λ hm record,
           push_record (hour_key (rh_recorded_at record))
                       (Number.of_Q (rh_cpu_usage record))
                       (Number.of_Q (rh_memory_usage record)) hm)
        [] history.

(** [xs.reduce((a, b) => a + b, 0)]. *)
Definition reduce_sum (xs : list Number.t) : Number.t :=
  foldl Number.add Number.zero xs.

(** [Math.round(sum / count * 10) / 10]. *)
Definition rounded_mean (sum : Number.t) (count : Z) : Number.t :=
  Number.div
    (Number.Math_round
       (Number.mul (Number.div sum (Number.of_Z count)) (Number.of_Z 10)))
    (Number.of_Z 10).

Definition point_of (entry : Z * Bucket) : ChartPoint :=
  let '(hour, data) := entry in
  {| time := toLocaleTimeString (Date_of_hour hour);
     pt_cpu := rounded_mean (reduce_sum (bk_cpu data)) (bk_count data);
     pt_memory := rounded_mean (reduce_sum (bk_memory data)) (bk_count data) |}.

Definition chartData (history : list SampleRow) : list ChartPoint :=
  map point_of (aggregate history).

(** [b.cpu_usage || 0]: the column is nullable. *)
Definition usage_or_zero (v : option Q) : Number.t :=
  match v with
  | Some q => Number.or_else (Number.of_Q q) Number.zero
  | None => Number.zero
  end.

Definition current_stats (currentBots : option (list BotRow)) : Stats :=
  let rows := default [] currentBots in
  {| totalBots := Z.of_nat (length rows);
     runningBots := Z.of_nat (length (filter (λ b, b_status b = online) rows));
     totalCpu :=
       Number.or_else
         (foldl (λ sum b, Number.add sum (usage_or_zero (b_cpu_usage b)))
                Number.zero rows) Number.zero;
     totalMemory :=
       Number.or_else
         (foldl (λ sum b, Number.add sum (usage_or_zero (b_memory_usage b)))
                Number.zero rows) Number.zero;
     maxBots := 3;
     maxCpuPerBot := 10;
     maxMemoryPerBot := 50 |}.

(** [new Date(Date.now() - hours * 60 * 60 * 1000).toISOString()], as a
    time value.  A date is invalid when its argument is NaN or lies more
    than 8.64e15 milliseconds from the epoch, and [toISOString] then throws
    a RangeError ([None]).  For a clock reading that is a time value, the
    products and the difference are integers that binary64 holds exactly
    whenever the result is in the valid range, and out of it the rounded
    result is out of range too, so the arithmetic is written on
    integers. *)
Definition cutoffTime_of (now : Z) (hours : parseInt_result) : option Z :=
  match hours with
  | not_a_number => None
  | integer n =>
      let t := now - n * 60 * 60 * 1000 in
      if bool_decide (Z.abs t ≤ 8640000000000000) then Some t else None
  end.

(** The handler passed to [serve] in the resource-metrics function.  It
    only reads, so it returns the response alone.  What is thrown inside
    is caught and answered 500. *)
Definition resource_metrics (w : World) (o : MetricsOracle)
  (req : MetricsRequest) : MetricsResponse :=
  if String.eqb (m_method req) "OPTIONS" then mkMetricsResponse 200 MNull
  else
    match truthy (m_authorization req) with
    | None => mkMetricsResponse 401 (MError "Missing authorization header")
    | Some authHeader =>
        match getUser w authHeader with
        | None => mkMetricsResponse 401 (MError "Invalid or expired token")
        | Some user =>
            let botId := truthy (q_botId req) in
            let hours := default (integer 24) (q_hours req) in
            let userBots :=
              if userBots_error o then None
              else Some (filter (λ b, b_user_id b = u_id user)
                           (select_bots (as_user (u_id user)) (bots w))) in
            match userBots with
            | None | Some [] => mkMetricsResponse 200 (MMetrics [])
            | Some userBots =>
                let botIds :=
                  match botId with
                  | Some id => [id]
                  | None => map b_id userBots
                  end in
                if match botId with
                   | Some id => negb (bool_decide (id ∈ map b_id userBots))
                   | None => false
                   end
                then mkMetricsResponse 403
                       (MError "Bot not found or access denied")
                else
                  match cutoffTime_of (Date_now o) hours with
                  | None =>
                      mkMetricsResponse 500 (MError "Internal server error")
                  | Some cutoffTime =>
                      match history_error o with
                      | Some msg => mkMetricsResponse 500 (MError msg)
                      | None =>
                          let history :=
                            select_history (as_user (u_id user)) w botIds
                                           cutoffTime in
                          let currentBots :=
                            if currentBots_error o then None
                            else Some (filter (λ b, b_id b ∈ botIds)
                                         (select_bots (as_user (u_id user))
                                                      (bots w))) in
                          mkMetricsResponse 200
                            (MData (chartData history)
                                   (current_stats currentBots) currentBots)
                      end
                  end
            end
        end
    end.

(** ** bot-logs *)

Record LogsRequest := mkLogsRequest {
  lr_method : string;
  lr_authorization : option string;
  lq_botId : option string;      (* url.searchParams.get("botId") *)
  lq_limit : option nat;         (* the "limit" parameter, when present *)
  lq_level : option string       (* url.searchParams.get("level") *)
}.

Record LogsOracle := mkLogsOracle {
  logs_userBots_error : bool;    (* the query on bots fails *)
  logsError : option string      (* logsError *)
}.

(** A log as it is returned: the row and, in the answer over all bots,
    the name of its bot. *)
Record LogEntry := mkLogEntry {
  entry : LogRow;
  bot_name : option string
}.

Inductive LogsBody :=
| LNull
| LError (error : string)
| LLogs (logs : list LogEntry).

Record LogsResponse := mkLogsResponse {
  lr_status_code : Z;
  lr_body : LogsBody
}.

(** The select policy on [bot_logs]: the log's bot is one of the
    caller's. *)
Definition log_visible (c : client) (tbl : list BotRow) (l : LogRow) : bool :=
  match c with
  | as_user uid =>
      bool_decide (Exists (λ b, b_id b = l_bot_id l ∧ b_user_id b = uid) tbl)
  | service_role => true
  end.

Definition newer_first (a b : LogRow) : Prop := l_created_at b ≤ l_created_at a.

Global Instance newer_first_dec : RelDecision newer_first.
Proof. intros a b. unfold newer_first. apply _. Defined.

(** [query.eq("level", level)], applied only when a level is given. *)
Definition level_matches (level : option string) (l : LogRow) : bool :=
  match level with
  | Some lv => bool_decide (l_level l = lv)
  | None => true
  end.

(** [from("bot_logs").select("*")] with the filter on [bot_id], the
    optional filter on the level, [.order("created_at", descending)] and
    [.limit(limit)]. *)
Definition select_logs (c : client) (w : World) (wanted : string → bool)
  (level : option string) (limit : nat) : list LogRow :=
  take limit
    (merge_sort newer_first
       (filter (λ l, wanted (l_bot_id l) ∧ level_matches level l)
          (filter (λ l, log_visible c (bots w) l) (bot_logs w)))).

(** [Object.fromEntries]: a later pair replaces an earlier one with the
    same key. *)
Definition fromEntries (pairs : list (string * string)) : gmap string string :=
  foldl (λ m kv, <[kv.1 := kv.2]> m) ∅ pairs.

(** [botNameMap[log.bot_id] || "Unknown"]. *)
Definition name_or_unknown (botNameMap : gmap string string) (id : string)
  : string :=
  match botNameMap !! id with
  | Some n => if bool_decide (n = "") then "Unknown" else n
  | None => "Unknown"
  end.

(** The handler passed to [serve] in the bot-logs function.  It only
    reads. *)
Definition bot_logs_handler (w : World) (o : LogsOracle) (req : LogsRequest)
  : LogsResponse :=
  if String.eqb (lr_method req) "OPTIONS" then mkLogsResponse 200 LNull
  else
    match truthy (lr_authorization req) with
    | None => mkLogsResponse 401 (LError "Missing authorization header")
    | Some authHeader =>
        match getUser w authHeader with
        | None => mkLogsResponse 401 (LError "Invalid or expired token")
        | Some user =>
            let limit := default 50%nat (lq_limit req) in
            let level := truthy (lq_level req) in
            match truthy (lq_botId req) with
            | Some botId =>
                let bot := single (filter (λ b, b_id b = botId)
                             (select_bots (as_user (u_id user)) (bots w))) in
                if match bot with
                   | Some b => negb (bool_decide (b_user_id b = u_id user))
                   | None => true
                   end
                then mkLogsResponse 403
                       (LError "Bot not found or access denied")
                else
                  match logsError o with
                  | Some msg => mkLogsResponse 500 (LError msg)
                  | None =>
                      mkLogsResponse 200
                        (LLogs (map (λ l, mkLogEntry l None)
                                  (select_logs (as_user (u_id user)) w
                                     (λ id, bool_decide (id = botId)) level limit)))
                  end
            | None =>
                let userBots :=
                  if logs_userBots_error o then None
                  else Some (filter (λ b, b_user_id b = u_id user)
                               (select_bots (as_user (u_id user)) (bots w))) in
                match userBots with
                | None | Some [] => mkLogsResponse 200 (LLogs [])
                | Some userBots =>
                    let botIds := map b_id userBots in
                    let botNameMap :=
                      fromEntries (map (λ b, (b_id b, b_name b)) userBots) in
                    match logsError o with
                    | Some msg => mkLogsResponse 500 (LError msg)
                    | None =>
                        let logs :=
                          select_logs (as_user (u_id user)) w
                                      (λ id, bool_decide (id ∈ botIds)) level limit in
                        mkLogsResponse 200
                          (LLogs (map (λ log,
                                    mkLogEntry log
                                      (Some (name_or_unknown botNameMap
                                               (l_bot_id log)))) logs))
                    end
                end
            end
        end
    end.

(** ** The dashboard's list of bots ([useBots]) *)

(** A change of [bots] as the realtime channel delivers it: the event type
    with [payload.new], or with [payload.old.id] for a delete. *)
Inductive postgres_change :=
| INSERT (new : BotRow)
| UPDATE (new : BotRow)
| DELETE (old_id : string).

(** The callback of the [postgres_changes] subscription, as the function
    from the previous list to the next one. *)
Definition on_postgres_change (payload : postgres_change)
  (prev : list BotRow) : list BotRow :=
  match payload with
  | INSERT new => new :: prev
  | UPDATE new =>
      map (λ bot, if bool_decide (b_id bot = b_id new) then new else bot) prev
  | DELETE old_id => filter (λ bot, b_id bot ≠ old_id) prev
  end.

(** [{ ...bot, status }]. *)
Definition with_status (s : bot_status) (bot : BotRow) : BotRow :=
  mkBot (b_id bot) (b_user_id bot) (b_name bot) (b_platform bot)
        (b_runtime bot) s (b_container_id bot) (b_script_content bot)
        (b_cpu_usage bot) (b_memory_usage bot) (b_uptime_seconds bot)
        (b_last_started_at bot) (b_created_at bot) (b_updated_at bot).

(** The optimistic update of [startBot] and [restartBot]. *)
Definition optimistic_update (botId : string) (prev : list BotRow)
  : list BotRow :=
  map (λ bot, if bool_decide (b_id bot = botId)
              then with_status deploying bot else bot) prev.

(** ** The deploy form ([DeployForm.tsx]) *)







(** ** Sign-up (first migration) *)

Module Signup.

Inductive app_role := admin | user.

#[global] Instance app_role_eq_dec : EqDecision app_role.
Proof. solve_decision. Defined.

(** The columns of [auth.users] the trigger reads; of
    [raw_user_meta_data], the text of each top-level key ([->>]). *)
Record AuthUser := mkAuthUser {
  id : string;
  email : option string;
  raw_user_meta_data : gmap string string
}.

Record ProfileRow := mkProfile {
  pr_id : string;
  pr_email : option string;
  pr_full_name : option string;
  pr_avatar_url : option string;
  pr_created_at : Z;
  pr_updated_at : Z;
  pr_email_confirmed_at : option Z
}.

Record UserRoleRow := mkUserRole {
  ur_user_id : string;
  ur_role : app_role
}.

Record Accounts := mkAccounts {
  profiles : list ProfileRow;
  user_roles : list UserRoleRow
}.

(** [has_role(_user_id, _role)]. *)
Definition has_role (tbl : list UserRoleRow) (_user_id : string)
  (_role : app_role) : bool :=
  bool_decide (Exists (λ r, ur_user_id r = _user_id ∧ ur_role r = _role) tbl).

Definition COALESCE {A} (a b : option A) : option A :=
  match a with
  | Some x => Some x
  | None => b
  end.

(** [handle_new_user()], AFTER INSERT ON auth.users: the error of the
    first violated key ([profiles.id] is the primary key, [(user_id,
    role)] is unique in [user_roles]), or the two tables after the
    inserts. *)
Definition handle_new_user (now : Z) (db : Accounts) (NEW : AuthUser)
  : string + Accounts :=
  if bool_decide (Exists (λ p, pr_id p = id NEW) (profiles db))
  then inl "duplicate key value violates unique constraint profiles_pkey"
  else if has_role (user_roles db) (id NEW) user
  then inl "duplicate key value violates unique constraint user_roles_user_id_role_key"
  else
    inr (mkAccounts
           (profiles db ++
            [ mkProfile (id NEW) (email NEW)
                (COALESCE (raw_user_meta_data NEW !! "full_name")
                          (raw_user_meta_data NEW !! "name"))
                (raw_user_meta_data NEW !! "avatar_url")
                now now None ])
           (user_roles db ++ [ mkUserRole (id NEW) user ])).

End Signup.

(** * Vocabulary of the properties *)

(** ** Limits *)

(** The contract of [Math.random()]: a number in [0, 1). *)
Definition Math_random (r : Q) : Prop := (0 <= r)%Q ∧ (r < 1)%Q.

Definition within (lo hi : Q) (v : option Q) : Prop :=
  ∃ x, v = Some x ∧ (lo <= x)%Q ∧ (x <= hi)%Q.

(** [cpu_usage] in [0,10] and [memory_usage] in [0,50]. *)
Definition resource_ok (b : BotRow) : Prop :=
  within 0 10 (b_cpu_usage b) ∧ within 0 50 (b_memory_usage b).

(** Each row of the new table was already there or is inside the limits. *)
Definition rows_ok (w w' : World) : Prop :=
  ∀ b', b' ∈ bots w' → b' ∈ bots w ∨ resource_ok b'.

(** ** Example data *)

Definition alice : User := mkUser "alice" (Some 1766600000000).
Definition bob : User := mkUser "bob" None.
Definition carol : User := mkUser "carol" (Some 1766600000000).

Definition example_bot (id uid : string) (s : bot_status) (c m : Q) : BotRow :=
  mkBot id uid ("bot " +:+ id) telegram python s (Some "nexus-000000000000")
        None (Some c) (Some m) (Some 0) (Some 1766700000000)
        1766600000000 1766600000000.

(** alice owns three bots, bob (not verified) owns one, carol owns none. *)
Definition example_world : World :=
  mkWorld
    (<["Bearer alice" := alice]>
       (<["Bearer bob" := bob]> (<["Bearer carol" := carol]> ∅)))
    [ example_bot "a1" "alice" online (21 # 10) (123 # 10);
      example_bot "a2" "alice" stopped 0 0;
      example_bot "b1" "bob" online (5 # 1) (20 # 1);
      example_bot "a3" "alice" offline 0 0 ]
    []
    []
    [ mkSample "a1" (20 # 10) (100 # 10) 1766703600000;
      mkSample "b1" (50 # 10) (200 # 10) 1766705000000;
      mkSample "a1" (31 # 10) (110 # 10) 1766706000000;
      mkSample "a1" (40 # 10) (150 # 10) 1766707300000 ]
    ∅.

Definition example_oracle : Oracle :=
  mkOracle (1 # 2) (1 # 3) "0123456789abcdef0123" "c1" 1766710000000 false None.

Definition request_of (token : string) (act : string) (id : option string)
  : Request :=
  mkRequest "POST" (Some token)
            (Some (mkAction act id None None None None None)).

Definition deploy_request (token : string) : Request :=
  mkRequest "POST" (Some token)
            (Some (mkAction "deploy" None (Some "Echo") (Some telegram)
                            (Some python) None None)).

Definition example_beat (id : string) : Beat :=
  mkBeat (1 # 10) (9 # 10)
         (if bool_decide (id = "b1") then Some "write failed" else None)
         (1 # 2) (1 # 2).

(** ** Runs and callers *)

(** One run of bot-manager or of the heartbeat sweep, with [Math.random]
    inside its range. *)
Inductive operation_step : World → World → Prop :=
| manager_step w o req :
    Math_random (random_cpu o) → Math_random (random_memory o) →
    operation_step w (bot_manager w o req).1
| heartbeat_step w t fetch_error draw req :
    (∀ id, Math_random (beat_cpu (draw id)) ∧
           Math_random (beat_memory (draw id))) →
    operation_step w (bot_heartbeat w t fetch_error draw req).1.

Definition authenticated (w : World) (auth : option string) (user : User)
  : Prop :=
  ∃ authHeader, truthy auth = Some authHeader ∧ getUser w authHeader = Some user.

(** The request reaches the [switch] with [user] and [body]. *)
Definition verified_call (w : World) (req : Request) (user : User)
  (body : BotAction) : Prop :=
  String.eqb (method req) "OPTIONS" = false ∧
  authenticated w (authorization req) user ∧
  is_Some (email_confirmed_at user) ∧
  json req = Some body.

Definition bot_limit_exceeded : string :=
  "Bot limit exceeded. Maximum 3 bots allowed per user.".

(** The rows with the id [id] that the user's client sees. *)
Definition own_rows (w : World) (user : User) (id : string) : list BotRow :=
  filter (λ b, b_id b = id) (select_bots (as_user (u_id user)) (bots w)).

(** The actions that take a bot id. *)
Definition bot_id_actions : list string :=
  ["start"; "stop"; "restart"; "delete"; "status"].

Definition example_world_without_b1 : World :=
  set_bots example_world
    [ example_bot "a1" "alice" online (21 # 10) (123 # 10);
      example_bot "a2" "alice" stopped 0 0;
      example_bot "a3" "alice" offline 0 0 ].

(** ** The heartbeat sweep *)

(** The usage the sweep draws for a bot, its uptime, the sample it appends
    and the entry it reports. *)
Definition beat_cpuUsage (d : Beat) : Q :=
  inject_Z (Math_round ((beat_cpu d * 8 + 1) * 10)) / 10.
Definition beat_memoryUsage (d : Beat) : Q :=
  inject_Z (Math_round ((beat_memory d * 35 + 5) * 10)) / 10.
Definition beat_uptime (t : Z) (bot : BotRow) : Z :=
  (t - default t (b_last_started_at bot)) / 1000.
Definition beat_sample (t : Z) (draw : string → Beat) (bot : BotRow)
  : SampleRow :=
  mkSample (b_id bot) (beat_cpuUsage (draw (b_id bot)))
           (beat_memoryUsage (draw (b_id bot))) t.
Definition beat_update (t : Z) (draw : string → Beat) (bot : BotRow)
  : Update :=
  mkUpdate (b_id bot) (b_name bot) (beat_cpuUsage (draw (b_id bot)))
           (beat_memoryUsage (draw (b_id bot))) (beat_uptime t bot).

(** The update of the bot's row was accepted. *)
Definition update_succeeded (draw : string → Beat) (bot : BotRow) : Prop :=
  beat_update_error (draw (b_id bot)) = None.

Global Instance update_succeeded_dec draw bot :
  Decision (update_succeeded draw bot).
Proof. unfold update_succeeded. apply _. Defined.

Definition example_metrics_oracle : MetricsOracle :=
  mkMetricsOracle 1766710000000 false None false.

(** ** The aggregation loop, closed form *)

Definition record_hour (s : SampleRow) : Z := hour_key (rh_recorded_at s).

(** The bucket the loop builds for an hour out of the history [l]. *)
Definition bucket_of (h : Z) (l : list SampleRow) : Bucket :=
  let b := filter (λ s, record_hour s = h) l in
  mkBucket (map (λ s, Number.of_Q (rh_cpu_usage s)) b)
           (map (λ s, Number.of_Q (rh_memory_usage s)) b)
           (Z.of_nat (length b)).

(** The keys of [hourlyMetrics], in the order they were first set. *)
Definition hours_seen (l : list SampleRow) : list Z :=
  foldl (λ ks s, if decide (record_hour s ∈ ks) then ks
                 else ks ++ [record_hour s]) [] l.

(** ** The aggregation in the words of the specification (section 4.4) *)

(** The selected bots: the one asked for, or all bots of the caller. *)
Definition spec_selected_bots (w : World) (user : User)
  (botId : option string) : list string :=
  match botId with
  | Some id => [id]
  | None => map b_id (filter (λ b, b_user_id b = u_id user) (bots w))
  end.












(** A Number that is finite and whose value lies between two integers. *)
Definition Number_within (lo hi : Z) (x : Number.t) : Prop :=
  ∃ v, Number.value x = Some v ∧ (inject_Z lo <= v)%Q ∧ (v <= inject_Z hi)%Q.

(** [x] is zero or a positive Number of value at most the integer [B]. *)
Definition at_most (x : Number.t) (B : Z) : Prop :=
  x = S754_zero false ∨
  ∃ m e, x = S754_finite false m e ∧ e ≤ 0 ∧ Zpos m ≤ B * 2 ^ (- e).

(** Something was shifted out of the mantissa. *)
Definition inexact (mrs : shr_record) : bool := shr_r mrs || shr_s mrs.


(** ** How one request changes the table of bots *)

(** The ways a request of the user [uid] changes [bots]: not at all, by an
    update or a delete issued through the user's client for one id, or by
    the insert of one row of that user, accepted by the quota trigger. *)
Inductive bots_change (uid : string) (tbl tbl' : list BotRow) : Prop :=
| change_none : tbl' = tbl → bots_change uid tbl tbl'
| change_update id t p :
    tbl' = map (λ b, if bot_visible (as_user uid) b && bool_decide (b_id b = id)
                     then update_row t p b else b) tbl →
    bots_change uid tbl tbl'
| change_delete id :
    tbl' = filter (λ b, ¬ bot_deleted (as_user uid) id b) tbl →
    bots_change uid tbl tbl'
| change_insert row :
    b_user_id row = uid → count_user_bots tbl uid < 3 →
    tbl' = tbl ++ [row] →
    bots_change uid tbl tbl'.

(** No user owns more than three bots. *)
Definition quota_ok (w : World) : Prop :=
  ∀ uid, count_user_bots (bots w) uid ≤ 3.

(** The primary key of [bots]. *)
Definition unique_ids (w : World) : Prop := NoDup (map b_id (bots w)).

(** The columns of a bot that say which bot it is and what state it is
    in; the others are usage, uptime and the update stamp. *)
Definition identity_of (b : BotRow) :=
  (b_id b, b_user_id b, b_name b, b_platform b, b_runtime b, b_status b,
   b_container_id b, b_script_content b, b_last_started_at b, b_created_at b).

(** ** Logs *)

(** The log's bot is a bot of the user [uid]. *)
Definition log_of_user (w : World) (uid : string) (l : LogRow) : Prop :=
  ∃ b, b ∈ bots w ∧ b_id b = l_bot_id l ∧ b_user_id b = uid.

(** The log passes the filters of the request. *)
Definition log_wanted (req : LogsRequest) (l : LogRow) : Prop :=
  (∀ id, truthy (lq_botId req) = Some id → l_bot_id l = id) ∧
  (∀ lv, truthy (lq_level req) = Some lv → l_level l = lv).

Definition example_world_with_logs : World :=
  set_bot_logs example_world
    [ mkLog "a1" "info" "Bot started successfully" 1766700000000;
      mkLog "b1" "info" "Bot started successfully" 1766700000500;
      mkLog "a1" "debug" "Heartbeat check passed" 1766700030000;
      mkLog "a2" "info" "Bot stopped" 1766700040000;
      mkLog "a1" "info" "User command processed" 1766700060000 ].

Definition example_logs_oracle : LogsOracle := mkLogsOracle false None.


Definition example_accounts : Signup.Accounts :=
  Signup.mkAccounts
    [ Signup.mkProfile "alice" (Some "alice@example.org") (Some "Alice") None
                       1766600000000 1766600000000 None ]
    [ Signup.mkUserRole "alice" Signup.user;
      Signup.mkUserRole "alice" Signup.admin ].

Definition example_signup : Signup.AuthUser :=
  Signup.mkAuthUser "dave" (Some "dave@example.org")
                    (<["name" := "Dave"]> ∅).

(** * Properties *)

(** ** The simulated usage stays inside the limits *)

Lemma Math_round_between (x : Q) (lo hi : Z) :
  (inject_Z lo <= x)%Q → (x <= inject_Z hi)%Q →
  lo ≤ Math_round x ≤ hi.
Proof.
  intros Hlo Hhi. unfold Math_round. split.
  - rewrite <- (Qfloor_Z lo). apply Qfloor_resp_le.
    apply Qle_trans with x; [exact Hlo|].
    rewrite <- (Qplus_0_r x) at 1. apply Qplus_le_r. discriminate.
  - assert (Hlt : (inject_Z (Qfloor (x + (1 # 2))) < inject_Z (hi + 1))%Q).
    { apply Qle_lt_trans with (x + (1 # 2))%Q; [apply Qfloor_le|].
      rewrite inject_Z_plus.
      apply Qle_lt_trans with (inject_Z hi + (1 # 2))%Q.
      - apply Qplus_le_l. exact Hhi.
      - apply Qplus_lt_r. reflexivity. }
    rewrite <- Zlt_Qlt in Hlt. lia.
Qed.

Lemma tenths_between (n lo hi : Z) :
  lo * 10 ≤ n ≤ hi * 10 →
  (inject_Z lo <= inject_Z n / 10)%Q ∧ (inject_Z n / 10 <= inject_Z hi)%Q.
Proof.
  intros [Hlo Hhi]. unfold Qle, Qdiv, Qmult, Qinv, inject_Z. simpl. lia.
Qed.

Lemma simulated_cpu_range (r : Q) :
  Math_random r →
  (1 <= inject_Z (Math_round ((r * 8 + 1) * 10)) / 10)%Q ∧
  (inject_Z (Math_round ((r * 8 + 1) * 10)) / 10 <= 9)%Q.
Proof.
  intros [H0 H1]. apply (tenths_between _ 1 9).
  apply Math_round_between.
  - unfold Qle, Qlt, Qmult, Qplus, inject_Z in *. simpl in *. nia.
  - unfold Qle, Qlt, Qmult, Qplus, inject_Z in *. simpl in *. nia.
Qed.

Lemma simulated_memory_range (r : Q) :
  Math_random r →
  (5 <= inject_Z (Math_round ((r * 35 + 5) * 10)) / 10)%Q ∧
  (inject_Z (Math_round ((r * 35 + 5) * 10)) / 10 <= 40)%Q.
Proof.
  intros [H0 H1]. apply (tenths_between _ 5 40).
  apply Math_round_between.
  - unfold Qle, Qlt, Qmult, Qplus, inject_Z in *. simpl in *. nia.
  - unfold Qle, Qlt, Qmult, Qplus, inject_Z in *. simpl in *. nia.
Qed.

Lemma simulateResourceUsage_range (r1 r2 : Q) :
  Math_random r1 → Math_random r2 →
  ((1 <= cpu (simulateResourceUsage r1 r2))%Q ∧
   (cpu (simulateResourceUsage r1 r2) <= 9)%Q) ∧
  ((5 <= memory (simulateResourceUsage r1 r2))%Q ∧
   (memory (simulateResourceUsage r1 r2) <= 40)%Q).
Proof.
  intros H1 H2. split; simpl.
  - apply simulated_cpu_range, H1.
  - apply simulated_memory_range, H2.
Qed.

(** ** Limits of a stored row *)

Lemma Qgtb_true (x y : Q) : Qgtb x y = true ↔ (y < x)%Q.
Proof.
  unfold Qgtb. rewrite negb_true_iff, <- not_true_iff_false, Qle_bool_iff.
  split; [apply Qnot_le_lt | apply Qlt_not_le].
Qed.

Lemma Qgtb_false (x y : Q) : Qgtb x y = false ↔ (x <= y)%Q.
Proof.
  unfold Qgtb. rewrite negb_false_iff. apply Qle_bool_iff.
Qed.

Lemma clamp_above_within (limit x : Q) :
  (0 <= x)%Q → (0 <= limit)%Q → within 0 limit (clamp_above limit (Some x)).
Proof.
  intros Hx Hl. unfold clamp_above.
  destruct (Qgtb x limit) eqn:E.
  - exists limit. split; [done|]. split; [done | apply Qle_refl].
  - exists x. split; [done|]. split; [done | by apply Qgtb_false].
Qed.

Lemma clamp_above_over (limit x : Q) :
  (limit < x)%Q → clamp_above limit (Some x) = Some limit.
Proof. intros H. unfold clamp_above. by rewrite (proj2 (Qgtb_true _ _) H). Qed.

Lemma clamp_above_under (limit x : Q) :
  (x <= limit)%Q → clamp_above limit (Some x) = Some x.
Proof. intros H. unfold clamp_above. by rewrite (proj2 (Qgtb_false _ _) H). Qed.

Lemma update_row_fields (t : Z) (p : BotPatch) (b : BotRow) :
  update_row t p b =
  mkBot (b_id b) (b_user_id b) (b_name b) (b_platform b) (b_runtime b)
        (default (b_status b) (p_status p))
        (b_container_id (apply_patch p b)) (b_script_content b)
        (clamp_above 10 (b_cpu_usage (apply_patch p b)))
        (clamp_above 50 (b_memory_usage (apply_patch p b)))
        (b_uptime_seconds (apply_patch p b))
        (b_last_started_at (apply_patch p b))
        (b_created_at b) t.
Proof. reflexivity. Qed.

Lemma update_row_ok (t : Z) (p : BotPatch) (b : BotRow) (c m : Q) :
  p_cpu_usage p = Some c → p_memory_usage p = Some m →
  (0 <= c)%Q → (0 <= m)%Q → resource_ok (update_row t p b).
Proof.
  intros Hc Hm H0c H0m. rewrite update_row_fields. unfold resource_ok.
  simpl. rewrite Hc, Hm. split; by apply clamp_above_within.
Qed.

Lemma update_bots_rows c t failure id p tbl tbl' :
  update_bots c t failure id p tbl = inr tbl' →
  ∀ b', b' ∈ tbl' → b' ∈ tbl ∨ ∃ b, b ∈ tbl ∧ b' = update_row t p b.
Proof.
  unfold update_bots. destruct failure; [done|]. intros [= <-] b' Hb'.
  apply list_elem_of_fmap in Hb' as (b & -> & Hb).
  destruct (bot_visible c b && bool_decide (b_id b = id)); eauto.
Qed.

Lemma update_bots_ok c t failure id p tbl tbl' (cv mv : Q) :
  update_bots c t failure id p tbl = inr tbl' →
  p_cpu_usage p = Some cv → p_memory_usage p = Some mv →
  (0 <= cv)%Q → (0 <= mv)%Q →
  ∀ b', b' ∈ tbl' → b' ∈ tbl ∨ resource_ok b'.
Proof.
  intros Hu Hc Hm H0c H0m b' Hb'.
  destruct (update_bots_rows _ _ _ _ _ _ _ Hu b' Hb') as [?|(b & _ & ->)];
    [by left | right]. by eapply update_row_ok.
Qed.

(** ** Every operation leaves the rows it writes inside the limits *)

Lemma rows_ok_same (w w' : World) : bots w' = bots w → rows_ok w w'.
Proof. intros E b' Hb'. left. by rewrite <- E. Qed.

Lemma simulated_nonneg (r1 r2 : Q) :
  Math_random r1 → Math_random r2 →
  (0 <= cpu (simulateResourceUsage r1 r2))%Q ∧
  (0 <= memory (simulateResourceUsage r1 r2))%Q.
Proof.
  intros H1 H2.
  destruct (simulateResourceUsage_range r1 r2 H1 H2) as [[Hc _] [Hm _]].
  split; (eapply Qle_trans; [|eassumption]); discriminate.
Qed.

Lemma validate_resource_limits_inv NEW row :
  validate_resource_limits NEW = Return row →
  b_cpu_usage row = clamp_above 10 (b_cpu_usage NEW) ∧
  b_memory_usage row = clamp_above 50 (b_memory_usage NEW).
Proof. by intros [= <-]. Qed.

Lemma insert_bot_inv c failure tbl NEW tbl' row :
  insert_bot c failure tbl NEW = inr (tbl', row) →
  failure = None ∧ count_user_bots tbl (b_user_id NEW) < 3 ∧
  tbl' = tbl ++ [row] ∧ validate_resource_limits NEW = Return row.
Proof.
  unfold insert_bot, before_insert, check_bot_limit.
  destruct failure; [done|]. case_bool_decide as Hc; simpl; [done|].
  destruct (bot_visible c _); [|done].
  intros [= <- <-]. split; [done|]. split; [lia|]. done.
Qed.

Lemma deploy_rows_ok w o user body : rows_ok w (deploy w o user body).1.
Proof.
  unfold deploy.
  destruct (truthy (name body)) as [n|]; [|by apply rows_ok_same].
  destruct (platform body) as [pf|]; [|by apply rows_ok_same].
  destruct (runtime body) as [rt|]; [|by apply rows_ok_same].
  cbv zeta. destruct (match _ with Some n0 => _ | None => false end);
    [by apply rows_ok_same|].
  destruct (insert_bot _ _ _ _) as [msg|[tbl bot]] eqn:E;
    [by apply rows_ok_same|].
  apply insert_bot_inv in E as (_ & _ & -> & Hrow).
  apply validate_resource_limits_inv in Hrow as [Hc Hm]. simpl in Hc, Hm.
  assert (Hok : resource_ok bot).
  { split; [rewrite Hc | rewrite Hm]; exists 0%Q; by repeat split. }
  intros b' Hb'.
  assert (Hin : b' ∈ bots w ++ [bot]).
  { revert Hb'. destruct (envVars body) as [evs|]; simpl; [|done].
    repeat case_bool_decide; simpl; done. }
  apply elem_of_app in Hin as [?|Hin]; [by left|].
  apply list_elem_of_singleton in Hin as ->. by right.
Qed.

Lemma start_rows_ok w o user body :
  Math_random (random_cpu o) → Math_random (random_memory o) →
  rows_ok w (start w o user body).1.
Proof.
  intros H1 H2. destruct (simulated_nonneg _ _ H1 H2) as [Hc Hm].
  unfold start. destruct (truthy (botId body)); [|by apply rows_ok_same].
  destruct (negb _); [by apply rows_ok_same|]. cbv zeta.
  destruct (update_bots _ _ _ _ _ _) as [msg|tbl] eqn:E;
    [by apply rows_ok_same|].
  intros b' Hb'. simpl in Hb'.
  exact (update_bots_ok _ _ _ _ _ _ _ _ _ E eq_refl eq_refl Hc Hm b' Hb').
Qed.

Lemma stop_rows_ok w o user body : rows_ok w (stop w o user body).1.
Proof.
  unfold stop. destruct (truthy (botId body)); [|by apply rows_ok_same].
  destruct (negb _); [by apply rows_ok_same|]. cbv zeta.
  destruct (update_bots _ _ _ _ _ _) as [msg|tbl] eqn:E;
    [by apply rows_ok_same|].
  intros b' Hb'. simpl in Hb'.
  by refine (update_bots_ok _ _ _ _ _ _ _ 0%Q 0%Q E eq_refl eq_refl _ _ b' Hb').
Qed.

Lemma restart_rows_ok w o user body :
  Math_random (random_cpu o) → Math_random (random_memory o) →
  rows_ok w (restart w o user body).1.
Proof.
  intros H1 H2. destruct (simulated_nonneg _ _ H1 H2) as [Hc Hm].
  unfold restart. destruct (truthy (botId body)); [|by apply rows_ok_same].
  destruct (negb _); [by apply rows_ok_same|]. cbv zeta.
  destruct (update_bots _ _ _ _ _ _) as [msg|tbl] eqn:E;
    [by apply rows_ok_same|].
  intros b' Hb'. simpl in Hb'.
  exact (update_bots_ok _ _ _ _ _ _ _ _ _ E eq_refl eq_refl Hc Hm b' Hb').
Qed.

Lemma delete_bot_rows_ok w o user body : rows_ok w (delete_bot w o user body).1.
Proof.
  unfold delete_bot. destruct (truthy (botId body)); [|by apply rows_ok_same].
  destruct (negb _); [by apply rows_ok_same|]. cbv zeta.
  unfold delete_bots. destruct (write_error o); [by apply rows_ok_same|].
  intros b' Hb'. left. simpl in Hb'.
  by apply list_elem_of_filter in Hb' as [_ ?].
Qed.

Lemma status_rows_ok w o user body :
  Math_random (random_cpu o) → Math_random (random_memory o) →
  rows_ok w (status w o user body).1.
Proof.
  intros H1 H2. destruct (simulated_nonneg _ _ H1 H2) as [Hc Hm].
  unfold status. destruct (truthy (botId body)); [|by apply rows_ok_same].
  destruct (negb _); [by apply rows_ok_same|].
  destruct (single _) as [b|]; [|by apply rows_ok_same].
  case_bool_decide; [|by apply rows_ok_same]. cbv zeta.
  destruct (update_bots _ _ _ _ _ _) as [msg|tbl] eqn:E;
    [by apply rows_ok_same|].
  intros b' Hb'. simpl in Hb'.
  exact (update_bots_ok _ _ _ _ _ _ _ _ _ E eq_refl eq_refl Hc Hm b' Hb').
Qed.

Create HintDb rows_ok.
#[local] Hint Resolve deploy_rows_ok start_rows_ok stop_rows_ok
  restart_rows_ok delete_bot_rows_ok status_rows_ok : rows_ok.

Lemma bot_manager_rows_ok w o req :
  Math_random (random_cpu o) → Math_random (random_memory o) →
  rows_ok w (bot_manager w o req).1.
Proof.
  intros H1 H2. unfold bot_manager.
  destruct (String.eqb _ _); [by apply rows_ok_same|].
  destruct (truthy _); [|by apply rows_ok_same].
  destruct (getUser _ _) as [user|]; [|by apply rows_ok_same].
  destruct (email_confirmed_at user); [|by apply rows_ok_same].
  destruct (json req) as [body|]; [|by apply rows_ok_same].
  unfold dispatch.
  repeat (destruct (String.eqb (action body) _); [auto with rows_ok|]).
  by apply rows_ok_same.
Qed.

(** The sweep: the invariant of the loop. *)
Lemma beat_one_rows_ok t draw w acc bot :
  Math_random (beat_cpu (draw (b_id bot))) →
  Math_random (beat_memory (draw (b_id bot))) →
  rows_ok w acc.1 → rows_ok w (beat_one t draw acc bot).1.
Proof.
  intros H1 H2 Hacc. destruct acc as [w0 ups]. unfold beat_one.
  destruct (simulated_cpu_range _ H1) as [Hc _].
  destruct (simulated_memory_range _ H2) as [Hm _].
  assert (Hc0 : (0 <= inject_Z (Math_round
            ((beat_cpu (draw (b_id bot)) * 8 + 1) * 10)) / 10)%Q)
    by (eapply Qle_trans; [|exact Hc]; done).
  assert (Hm0 : (0 <= inject_Z (Math_round
            ((beat_memory (draw (b_id bot)) * 35 + 5) * 10)) / 10)%Q)
    by (eapply Qle_trans; [|exact Hm]; done).
  cbv zeta.
  destruct (update_bots _ _ _ _ _ _) as [msg|tbl] eqn:E.
  - assert (Hk : ∀ w1 : World, bots w1 = bots w0 → rows_ok w w1).
    { intros w1 E1 b' Hb'. rewrite E1 in Hb'. by apply Hacc. }
    apply Hk. destruct (Qgtb _ _); [|done]. by destruct (_ !! _).
  - assert (Hk : ∀ w1 : World, bots w1 = tbl → rows_ok w w1).
    { intros w1 E1 b' Hb'. rewrite E1 in Hb'.
      destruct (update_bots_ok _ _ _ _ _ _ _ _ _ E eq_refl eq_refl Hc0 Hm0
                  b' Hb') as [?|?]; [by apply Hacc | by right]. }
    apply Hk. destruct (Qgtb _ _); [|done]. by destruct (_ !! _).
Qed.

Lemma sweep_rows_ok t draw w l acc :
  (∀ id, Math_random (beat_cpu (draw id)) ∧ Math_random (beat_memory (draw id))) →
  rows_ok w acc.1 → rows_ok w (foldl (beat_one t draw) acc l).1.
Proof.
  intros Hd. revert acc. induction l as [|bot l IH]; intros acc Hacc; [done|].
  simpl. apply IH. apply beat_one_rows_ok; [apply Hd..|done].
Qed.

Lemma bot_heartbeat_rows_ok w t fetch_error draw req :
  (∀ id, Math_random (beat_cpu (draw id)) ∧ Math_random (beat_memory (draw id))) →
  rows_ok w (bot_heartbeat w t fetch_error draw req).1.
Proof.
  intros Hd. unfold bot_heartbeat.
  destruct (String.eqb _ _); [by apply rows_ok_same|].
  destruct fetch_error; [by apply rows_ok_same|]. cbv zeta.
  pose proof (sweep_rows_ok t draw w
    (filter (λ b, b_status b = online) (select_bots service_role (bots w)))
    (w, []) Hd (rows_ok_same w w eq_refl)) as H.
  by destruct (foldl _ _ _).
Qed.

(** ** C1: usage limits *)

(** C1.  After a run of any operation of bot-manager (deploy, start, stop,
    restart, delete, status) or of the heartbeat sweep, every row of [bots]
    that the run wrote has [cpu_usage] in [0,10] and [memory_usage] in
    [0,50]; and the trigger on insert and update never rejects a row: a
    value above the ceiling is stored as the ceiling (10, respectively 50),
    a value up to the ceiling is stored as it is; so an update that sets a
    usage above the ceiling goes through and leaves the ceiling in the
    row. *)
Theorem usage_within_limits_after_write (w w' : World) :
  operation_step w w' →
  (∀ b', b' ∈ bots w' → b' ∈ bots w ∨ resource_ok b') ∧
  (∀ NEW, ∃ row,
     validate_resource_limits NEW = Return row ∧
     (∀ x, b_cpu_usage NEW = Some x → (10 < x)%Q → b_cpu_usage row = Some 10%Q) ∧
     (∀ x, b_cpu_usage NEW = Some x → (x <= 10)%Q → b_cpu_usage row = Some x) ∧
     (∀ x, b_memory_usage NEW = Some x → (50 < x)%Q →
           b_memory_usage row = Some 50%Q) ∧
     (∀ x, b_memory_usage NEW = Some x → (x <= 50)%Q →
           b_memory_usage row = Some x)) ∧
  (∀ t p b,
     (∀ x, p_cpu_usage p = Some x → (10 < x)%Q →
           b_cpu_usage (update_row t p b) = Some 10%Q) ∧
     (∀ x, p_memory_usage p = Some x → (50 < x)%Q →
           b_memory_usage (update_row t p b) = Some 50%Q)).
Proof.
  intros Hstep. split; [|split].
  - destruct Hstep as [w o req H1 H2 | w t fe draw req Hd].
    + by apply bot_manager_rows_ok.
    + by apply bot_heartbeat_rows_ok.
  - intros NEW. eexists. split; [reflexivity|]. simpl.
    repeat split; intros x -> Hx;
      (by apply clamp_above_over) || (by apply clamp_above_under).
  - intros t p b. rewrite update_row_fields. simpl.
    split; intros x -> Hx; by apply clamp_above_over.
Qed.

Lemma usage_within_limits_after_write_witness :
  operation_step example_world
    (bot_manager example_world example_oracle
       (request_of "Bearer alice" "start" (Some "a2"))).1 ∧
  ∀ b', b' ∈ bots (bot_manager example_world example_oracle
                     (request_of "Bearer alice" "start" (Some "a2"))).1 →
        b' ∈ bots example_world ∨ resource_ok b'.
Proof.
  assert (H : operation_step example_world
    (bot_manager example_world example_oracle
       (request_of "Bearer alice" "start" (Some "a2"))).1).
  { apply manager_step; split; simpl; unfold Qle, Qlt; simpl; lia. }
  split; [exact H|].
  exact (proj1 (usage_within_limits_after_write _ _ H)).
Defined.

(** ** Requests of an authenticated, verified caller *)

Lemma bot_manager_verified w o req user body :
  verified_call w req user body →
  bot_manager w o req = dispatch w o user body.
Proof.
  intros (Hm & (h & Ha & Hu) & [t Ht] & Hj). unfold bot_manager.
  by rewrite Hm, Ha, Hu, Ht, Hj.
Qed.

Lemma select_own_bots (uid : string) (tbl : list BotRow) :
  filter (λ b, b_user_id b = uid) (select_bots (as_user uid) tbl) =
  filter (λ b, b_user_id b = uid) tbl.
Proof.
  unfold select_bots. rewrite list_filter_filter. apply list_filter_iff.
  intros b. simpl. rewrite bool_decide_spec. tauto.
Qed.

Lemma alice_verified_call (w : World) (act : string) (id : option string) :
  sessions w = sessions example_world →
  verified_call w (request_of "Bearer alice" act id) alice
                (mkAction act id None None None None None).
Proof.
  intros Hs. split; [reflexivity|].
  split; [|split; [by eexists | reflexivity]].
  exists "Bearer alice". split; [reflexivity|].
  unfold getUser. by rewrite Hs.
Qed.

(** ** C2: the quota of three bots *)

(** C2.  For a verified caller sending a deploy request with its required
    fields: when the caller already owns 3 bots (or more) the request
    fails with status 400 and writes nothing, in particular no row of
    [bots]; the answer is the controller's "Bot limit reached" whenever the
    count query answers, and when it does not the insert is stopped by the
    trigger [check_bot_limit], which raises for every new row of that
    owner.  A deploy that succeeds therefore found strictly fewer than 3
    bots, and adds exactly the returned row. *)
Theorem deploy_quota_exceeded w o req user body :
  verified_call w req user body →
  action body = "deploy" →
  is_Some (truthy (name body)) → is_Some (platform body) →
  is_Some (runtime body) →
  (3 ≤ count_user_bots (bots w) (u_id user) →
     (bot_manager w o req).1 = w ∧
     status_code (bot_manager w o req).2 = 400 ∧
     (count_error o = false → (bot_manager w o req).2 = bot_limit_reached) ∧
     (count_error o = true → write_error o = None →
        (bot_manager w o req).2 = mkResponse 400 (BError bot_limit_exceeded)) ∧
     (∀ NEW, b_user_id NEW = u_id user →
        check_bot_limit (bots w) NEW = Raise bot_limit_exceeded)) ∧
  (∀ bot message,
     (bot_manager w o req).2 = ok (BDeployed bot message) →
     count_user_bots (bots w) (u_id user) < 3 ∧
     bots (bot_manager w o req).1 = bots w ++ [bot]).
Proof.
  intros Hv Ha [n Hn] [pf Hpf] [rt Hrt].
  rewrite (bot_manager_verified _ _ _ _ _ Hv). unfold dispatch.
  rewrite Ha. simpl. unfold deploy. rewrite Hn, Hpf, Hrt. cbv zeta.
  rewrite select_own_bots. fold (count_user_bots (bots w) (u_id user)).
  assert (Htrig : 3 ≤ count_user_bots (bots w) (u_id user) →
            ∀ NEW, b_user_id NEW = u_id user →
                   check_bot_limit (bots w) NEW = Raise bot_limit_exceeded).
  { intros Hc NEW E. unfold check_bot_limit. rewrite E.
    rewrite bool_decide_true by lia. done. }
  split.
  - intros Hc. destruct (count_error o) eqn:Ec.
    + unfold insert_bot, before_insert.
      destruct (write_error o) as [msg|] eqn:Ew.
      * repeat split; try done. by apply Htrig.
      * rewrite (Htrig Hc) by reflexivity. simpl.
        repeat split; try done. by apply Htrig.
    + rewrite bool_decide_true by lia. simpl.
      repeat split; try done. by apply Htrig.
  - intros bot message.
    destruct (match (if count_error o then None else _) with
              | Some n0 => _ | None => false end) eqn:Eq; [done|].
    destruct (insert_bot _ _ _ _) as [msg|[tbl row]] eqn:Ei; [done|].
    apply insert_bot_inv in Ei as (_ & Hlt & -> & _). simpl in Hlt.
    intros [= -> _]. split; [done|].
    destruct (envVars body) as [evs|]; simpl; [|done].
    repeat case_bool_decide; done.
Qed.

Lemma deploy_quota_exceeded_witness :
  (bot_manager example_world example_oracle (deploy_request "Bearer alice")).1
    = example_world ∧
  (bot_manager example_world example_oracle (deploy_request "Bearer alice")).2
    = bot_limit_reached.
Proof.
  assert (Hv : verified_call example_world (deploy_request "Bearer alice") alice
                 (mkAction "deploy" None (Some "Echo") (Some telegram)
                           (Some python) None None)).
  { split; [reflexivity|]. split; [|split; [by eexists | reflexivity]].
    exists "Bearer alice". split; reflexivity. }
  destruct (deploy_quota_exceeded example_world example_oracle _ _ _ Hv
              eq_refl (mk_is_Some _ _ eq_refl) (mk_is_Some _ _ eq_refl)
              (mk_is_Some _ _ eq_refl)) as [H _].
  assert (Hc : 3 ≤ count_user_bots (bots example_world) (u_id alice))
    by (vm_compute; discriminate).
  destruct (H Hc) as (H1 & _ & H2 & _).
  split; [exact H1 | exact (H2 eq_refl)].
Defined.

(** ** C3: the verified-email check *)

(** C3, as the handler has it.  Once the caller is authenticated, the
    check of [email_confirmed_at] comes before the body is even parsed:
    a caller whose email is not verified is answered "Email not verified"
    (403) and nothing is written, whatever the action, the read-only
    status included. *)
Theorem not_verified_before_any_action w o req user :
  String.eqb (method req) "OPTIONS" = false →
  authenticated w (authorization req) user →
  email_confirmed_at user = None →
  bot_manager w o req = (w, not_verified).
Proof.
  intros Hm (h & Ha & Hu) He. unfold bot_manager.
  by rewrite Hm, Ha, Hu, He.
Qed.

Lemma not_verified_before_any_action_witness :
  bot_manager example_world example_oracle
    (request_of "Bearer bob" "stop" (Some "b1"))
  = (example_world, not_verified).
Proof.
  apply (not_verified_before_any_action example_world example_oracle
           (request_of "Bearer bob" "stop" (Some "b1")) bob).
  - reflexivity.
  - exists "Bearer bob". split; reflexivity.
  - reflexivity.
Defined.

(** bob is authenticated, owns the bot b1 and has no verified email: his
    status request on b1 is refused with "Email not verified" instead of
    being answered with the bot. *)
Lemma status_of_unverified_owner_refused :
  authenticated example_world (Some "Bearer bob") bob ∧
  email_confirmed_at bob = None ∧
  verifyBotOwnership example_world bob "b1" = true ∧
  bot_manager example_world example_oracle
    (request_of "Bearer bob" "status" (Some "b1"))
  = (example_world, not_verified) ∧
  ∀ bot, (bot_manager example_world example_oracle
            (request_of "Bearer bob" "status" (Some "b1"))).2
         ≠ ok (BStatus bot).
Proof.
  split; [exists "Bearer bob"; split; reflexivity|].
  split; [reflexivity|]. split; [reflexivity|]. split; [reflexivity|].
  intros bot. discriminate.
Qed.

(** ** Ownership *)

Lemma elem_of_own_rows w user id b :
  b ∈ own_rows w user id ↔
  b ∈ bots w ∧ b_id b = id ∧ b_user_id b = u_id user.
Proof.
  unfold own_rows, select_bots.
  rewrite !list_elem_of_filter. simpl. rewrite bool_decide_spec. tauto.
Qed.

Lemma verifyBotOwnership_true w user id :
  verifyBotOwnership w user id = true → ∃ b, own_rows w user id = [b].
Proof.
  unfold verifyBotOwnership. fold (own_rows w user id).
  destruct (own_rows w user id) as [|b [|b2 l]]; simpl; try done. eauto.
Qed.

Lemma verifyBotOwnership_single w user id b :
  own_rows w user id = [b] → verifyBotOwnership w user id = true.
Proof.
  intros E. unfold verifyBotOwnership. fold (own_rows w user id).
  rewrite E. simpl. apply bool_decide_eq_true.
  assert (H : b ∈ own_rows w user id) by (rewrite E; apply list_elem_of_here).
  by apply elem_of_own_rows in H as (_ & _ & ?).
Qed.

Lemma verifyBotOwnership_false w user id :
  (∀ b, b ∈ bots w → b_id b = id → b_user_id b ≠ u_id user) →
  verifyBotOwnership w user id = false.
Proof.
  intros Hno. unfold verifyBotOwnership. fold (own_rows w user id).
  destruct (own_rows w user id) as [|b l] eqn:E; [done|].
  assert (H : b ∈ own_rows w user id) by (rewrite E; apply list_elem_of_here).
  apply elem_of_own_rows in H as (Hb & Hid & Hu). by destruct (Hno b).
Qed.

(** An update keeps the key and the owner of every row. *)
Lemma update_row_id t p b : b_id (update_row t p b) = b_id b.
Proof. reflexivity. Qed.
Lemma update_row_user_id t p b : b_user_id (update_row t p b) = b_user_id b.
Proof. reflexivity. Qed.

Lemma own_rows_fmap (f : BotRow → BotRow) w user id tbl :
  (∀ b, b_id (f b) = b_id b) → (∀ b, b_user_id (f b) = b_user_id b) →
  own_rows (set_bots w (f <$> tbl)) user id = f <$> own_rows (set_bots w tbl) user id.
Proof.
  intros Hid Hu. unfold own_rows, select_bots. simpl.
  induction tbl as [|b tbl IH]; [done|]. rewrite fmap_cons, !filter_cons.
  simpl. rewrite Hu. destruct (decide _) as [Hv|Hv]; [|done].
  rewrite !filter_cons, Hid. destruct (decide _); [|done].
  rewrite fmap_cons. by f_equal.
Qed.

Lemma update_bots_own_rows w user t id p tbl b :
  update_bots (as_user (u_id user)) t None id p (bots w) = inr tbl →
  own_rows w user id = [b] →
  own_rows (set_bots w tbl) user id = [update_row t p b].
Proof.
  unfold update_bots. intros [= <-] Hb.
  rewrite own_rows_fmap.
  - assert (E : set_bots w (bots w) = w) by by destruct w.
    rewrite E, Hb. simpl.
    assert (H : b ∈ own_rows w user id) by (rewrite Hb; apply list_elem_of_here).
    apply elem_of_own_rows in H as (_ & Hid & Hu).
    by rewrite (bool_decide_eq_true_2 _ Hu), (bool_decide_eq_true_2 _ Hid).
  - intros b0. by destruct (_ && _).
  - intros b0. by destruct (_ && _).
Qed.

Lemma update_bots_owned_row w user t id p tbl b' :
  update_bots (as_user (u_id user)) t None id p (bots w) = inr tbl →
  b' ∈ tbl → b_id b' = id → b_user_id b' = u_id user →
  ∃ b, b ∈ bots w ∧ b' = update_row t p b.
Proof.
  unfold update_bots. intros [= <-] Hb' Hid Hu.
  apply list_elem_of_fmap in Hb' as (b & -> & Hb). exists b. split; [done|].
  simpl in *.
  destruct (bool_decide (b_user_id b = u_id user)) eqn:E1;
    destruct (bool_decide (b_id b = id)) eqn:E2; simpl in *; try done.
  - by apply bool_decide_eq_false in E2.
  - by apply bool_decide_eq_false in E1.
  - by apply bool_decide_eq_false in E1.
Qed.

(** ** C8: a non-owner learns nothing about an id *)

Lemma not_owner_denied w o user body id :
  action body ∈ bot_id_actions →
  truthy (botId body) = Some id →
  verifyBotOwnership w user id = false →
  dispatch w o user body = (w, access_denied).
Proof.
  intros Ha Hid Hno. unfold dispatch, bot_id_actions in *.
  repeat (apply elem_of_cons in Ha as [->|Ha]);
    [..|by apply elem_of_nil in Ha]; simpl;
    unfold start, stop, restart, delete_bot, status; by rewrite Hid, Hno.
Qed.

(** C8.  The same request of a verified caller for a bot id, by any of
    start, stop, restart, delete and status, sent in a world where the id
    exists and belongs to someone else and in a world where it does not
    exist, gets the same answer, "Bot not found or access denied" (403),
    and writes nothing in either. *)
Theorem access_denied_hides_existence w1 w2 o1 o2 req user body id :
  verified_call w1 req user body →
  verified_call w2 req user body →
  action body ∈ bot_id_actions →
  truthy (botId body) = Some id →
  (∃ b, b ∈ bots w1 ∧ b_id b = id) →
  (∀ b, b ∈ bots w1 → b_id b = id → b_user_id b ≠ u_id user) →
  (∀ b, b ∈ bots w2 → b_id b ≠ id) →
  bot_manager w1 o1 req = (w1, access_denied) ∧
  bot_manager w2 o2 req = (w2, access_denied) ∧
  (bot_manager w1 o1 req).2 = (bot_manager w2 o2 req).2.
Proof.
  intros Hv1 Hv2 Ha Hid _ Hother Hnone.
  assert (E1 : bot_manager w1 o1 req = (w1, access_denied)).
  { rewrite (bot_manager_verified _ _ _ _ _ Hv1).
    apply (not_owner_denied _ _ _ _ id); [done..|].
    by apply verifyBotOwnership_false. }
  assert (E2 : bot_manager w2 o2 req = (w2, access_denied)).
  { rewrite (bot_manager_verified _ _ _ _ _ Hv2).
    apply (not_owner_denied _ _ _ _ id); [done..|].
    apply verifyBotOwnership_false. intros b Hb Hbid. by destruct (Hnone b). }
  by rewrite E1, E2.
Qed.

Lemma access_denied_hides_existence_witness :
  bot_manager example_world example_oracle
    (request_of "Bearer alice" "delete" (Some "b1"))
  = (example_world, access_denied) ∧
  bot_manager example_world_without_b1 example_oracle
    (request_of "Bearer alice" "delete" (Some "b1"))
  = (example_world_without_b1, access_denied).
Proof.
  pose proof (λ w, alice_verified_call w "delete" (Some "b1")) as Hv.
  destruct (access_denied_hides_existence example_world
              example_world_without_b1 example_oracle example_oracle
              (request_of "Bearer alice" "delete" (Some "b1")) alice
              (mkAction "delete" (Some "b1") None None None None None) "b1"
              (Hv _ eq_refl) (Hv _ eq_refl)) as (H1 & H2 & _).
  - unfold bot_id_actions. set_solver.
  - reflexivity.
  - exists (example_bot "b1" "bob" online (5 # 1) (20 # 1)).
    split; [|reflexivity]. simpl. set_solver.
  - refine (proj1 (Forall_forall
               (λ b, b_id b = "b1" → b_user_id b ≠ u_id alice) _) _).
    simpl. repeat constructor; simpl; congruence.
  - refine (proj1 (Forall_forall (λ b, b_id b ≠ "b1") _) _).
    simpl. repeat constructor; simpl; congruence.
  - split; [exact H1 | exact H2].
Defined.

(** ** C5: restart *)

(** C5, as the handler has it.  For the owner of the bot, whatever its
    status, a restart whose update is accepted by the storage layer:
    answers online with the freshly generated container id and the
    sampled resources; appends exactly three log entries, all of level
    info ("Restarting bot...", "Bot restarted successfully", "New
    container ... is running") and none of level debug; appends exactly
    one resource sample; sets status online, the new container id and the
    last-started timestamp on the row; and leaves [containerStates] as it
    was. *)
Theorem restart_effects w o req user body id :
  verified_call w req user body →
  action body = "restart" →
  truthy (botId body) = Some id →
  verifyBotOwnership w user id = true →
  write_error o = None →
  let w' := (bot_manager w o req).1 in
  let resources := simulateResourceUsage (random_cpu o) (random_memory o) in
  let newContainerId := generateContainerId (randomUUID o) in
  (bot_manager w o req).2 = ok (BRunning "online" newContainerId resources) ∧
  bot_logs w' =
    bot_logs w ++
    [ mkLog id "info" "Restarting bot..." (now o);
      mkLog id "info" "Bot restarted successfully" (now o);
      mkLog id "info" ("New container " +:+ newContainerId +:+ " is running")
            (now o) ] ∧
  resource_history w' =
    resource_history w ++
    [ mkSample id (cpu resources) (memory resources) (now o) ] ∧
  (∃ b', b' ∈ bots w' ∧ b_id b' = id ∧ b_user_id b' = u_id user) ∧
  (∀ b', b' ∈ bots w' → b_id b' = id → b_user_id b' = u_id user →
         b_status b' = online ∧
         b_container_id b' = Some newContainerId ∧
         b_last_started_at b' = Some (now o)) ∧
  containerStates w' = containerStates w.
Proof.
  intros Hv Ha Hid Hown Hw. cbv zeta.
  rewrite (bot_manager_verified _ _ _ _ _ Hv). unfold dispatch.
  rewrite Ha. simpl. unfold restart. rewrite Hid, Hown. simpl.
  destruct (update_bots _ _ _ _ _ _) as [msg|tbl] eqn:E;
    [by rewrite Hw in E|].
  rewrite Hw in E. simpl.
  split; [done|]. split; [by rewrite <- !app_assoc|]. split; [done|].
  destruct (verifyBotOwnership_true _ _ _ Hown) as [b Hb].
  split; [|split; [|done]].
  - exists (update_row (now o)
              (mkPatch (Some online) (Some (generateContainerId (randomUUID o)))
                 (Some (now o))
                 (Some (cpu (simulateResourceUsage (random_cpu o)
                                                   (random_memory o))))
                 (Some (memory (simulateResourceUsage (random_cpu o)
                                                      (random_memory o))))
                 None) b).
    pose proof (update_bots_own_rows
                  (addLog (now o) id "info" "Restarting bot..." w)
                  user _ _ _ _ b E Hb) as Hrows.
    assert (Hin : update_row (now o)
              (mkPatch (Some online) (Some (generateContainerId (randomUUID o)))
                 (Some (now o))
                 (Some (cpu (simulateResourceUsage (random_cpu o)
                                                   (random_memory o))))
                 (Some (memory (simulateResourceUsage (random_cpu o)
                                                      (random_memory o))))
                 None) b
            ∈ own_rows (set_bots (addLog (now o) id "info"
                          "Restarting bot..." w) tbl) user id)
      by (rewrite Hrows; apply list_elem_of_here).
    apply elem_of_own_rows in Hin as (Hin & Hi & Hu). done.
  - intros b' Hb' Hi Hu.
    destruct (update_bots_owned_row
                (addLog (now o) id "info" "Restarting bot..." w)
                user _ _ _ _ b' E Hb' Hi Hu) as (b0 & _ & ->).
    done.
Qed.

Lemma restart_effects_witness :
  map l_level
    (bot_logs (bot_manager example_world example_oracle
                 (request_of "Bearer alice" "restart" (Some "a2"))).1)
  = ["info"; "info"; "info"] ∧
  length (resource_history
            (bot_manager example_world example_oracle
               (request_of "Bearer alice" "restart" (Some "a2"))).1)
  = S (length (resource_history example_world)).
Proof.
  pose proof (alice_verified_call example_world "restart" (Some "a2")
                eq_refl) as Hv.
  destruct (restart_effects example_world example_oracle _ alice _ "a2" Hv
              eq_refl eq_refl eq_refl eq_refl) as (_ & Hl & Hr & _).
  rewrite Hl, Hr. split; [reflexivity|].
  rewrite length_app. simpl. lia.
Defined.

(** alice restarts her online bot a1: three log entries are appended, all
    of level info, where start appends info, info, debug.  A restart that
    replayed the entries of start after its "restarting" entry would
    append four, one of them of level debug. *)
Lemma restart_appends_no_debug_log :
  verifyBotOwnership example_world alice "a1" = true ∧
  bot_logs example_world = [] ∧
  map l_level
    (bot_logs (bot_manager example_world example_oracle
                 (request_of "Bearer alice" "restart" (Some "a1"))).1)
  = ["info"; "info"; "info"] ∧
  map l_level
    (bot_logs (bot_manager example_world example_oracle
                 (request_of "Bearer alice" "start" (Some "a1"))).1)
  = ["info"; "info"; "debug"] ∧
  (bot_manager example_world example_oracle
     (request_of "Bearer alice" "restart" (Some "a1"))).2
  = ok (BRunning "online" "nexus-0123456789ab"
          (simulateResourceUsage (1 # 2) (1 # 3))).
Proof. repeat split; vm_compute; reflexivity. Qed.

(** ** C6: stop, then status *)

Lemma verified_call_sessions w w' req user body :
  sessions w' = sessions w →
  verified_call w req user body → verified_call w' req user body.
Proof.
  intros Hs (Hm & (h & Ha & Hu) & He & Hj).
  split; [done|]. split; [|done]. exists h. split; [done|].
  unfold getUser in *. by rewrite Hs.
Qed.

(** C6.  For the owner of the bot, a stop whose update is accepted by the
    storage layer answers stopped and leaves the row with status stopped
    and [cpu_usage] and [memory_usage] at 0; a status request on the same
    bot right after it answers with that row, usage 0 and 0, and writes
    nothing: no resampling, no resource sample. *)
Theorem stop_then_status w o1 o2 req1 req2 user body1 body2 id :
  verified_call w req1 user body1 →
  action body1 = "stop" → truthy (botId body1) = Some id →
  verified_call w req2 user body2 →
  action body2 = "status" → truthy (botId body2) = Some id →
  verifyBotOwnership w user id = true →
  write_error o1 = None →
  let w1 := (bot_manager w o1 req1).1 in
  (bot_manager w o1 req1).2 = ok (BStopped "stopped") ∧
  (∀ b, b ∈ bots w1 → b_id b = id → b_user_id b = u_id user →
        b_status b = stopped ∧
        b_cpu_usage b = Some 0%Q ∧ b_memory_usage b = Some 0%Q) ∧
  (∃ b, (bot_manager w1 o2 req2).2 = ok (BStatus (Some b)) ∧
        b ∈ bots w1 ∧ b_id b = id ∧ b_status b = stopped ∧
        b_cpu_usage b = Some 0%Q ∧ b_memory_usage b = Some 0%Q) ∧
  (bot_manager w1 o2 req2).1 = w1.
Proof.
  intros Hv1 Ha1 Hid1 Hv2 Ha2 Hid2 Hown Hw. cbv zeta.
  set (w0 := set_containerStates w (delete id (containerStates w))).
  set (p := mkPatch (Some stopped) None None (Some 0%Q) (Some 0%Q) None).
  destruct (update_bots (as_user (u_id user)) (now o1) None id p (bots w0))
    as [msg|tbl] eqn:E; [done|].
  injection E as Et.
  assert (E : update_bots (as_user (u_id user)) (now o1) None id p (bots w0)
              = inr tbl) by (by rewrite <- Et).
  set (w1 := addLog (now o1) id "info" "Container terminated gracefully"
               (addLog (now o1) id "info" "Bot stopped" (set_bots w0 tbl))).
  assert (E1 : bot_manager w o1 req1 = (w1, ok (BStopped "stopped"))).
  { rewrite (bot_manager_verified _ _ _ _ _ Hv1). unfold dispatch.
    rewrite Ha1. simpl. unfold stop. rewrite Hid1, Hown, Hw.
    unfold w1. by rewrite <- Et. }
  rewrite E1. simpl.
  destruct (verifyBotOwnership_true _ _ _ Hown) as [b Hb].
  assert (Hrows1 : own_rows w1 user id = [update_row (now o1) p b])
    by exact (update_bots_own_rows w0 user _ _ _ _ b E Hb).
  assert (Hv2' : verified_call w1 req2 user body2)
    by (by apply (verified_call_sessions w)).
  assert (E2 : bot_manager w1 o2 req2
               = (w1, ok (BStatus (Some (update_row (now o1) p b))))).
  { rewrite (bot_manager_verified _ _ _ _ _ Hv2'). unfold dispatch.
    rewrite Ha2. simpl. unfold status. rewrite Hid2.
    rewrite (verifyBotOwnership_single _ _ _ _ Hrows1).
    fold (own_rows w1 user id). by rewrite Hrows1. }
  rewrite E2. simpl.
  split; [done|]. split; [|split; [|done]].
  - intros b' Hb' Hi Hu.
    destruct (update_bots_owned_row w0 user _ _ _ _ b' E Hb' Hi Hu)
      as (b0 & _ & ->). done.
  - eexists. split; [reflexivity|].
    assert (Hin : update_row (now o1) p b ∈ own_rows w1 user id)
      by (rewrite Hrows1; apply list_elem_of_here).
    apply elem_of_own_rows in Hin as (Hin & Hi & _). done.
Qed.

Lemma stop_then_status_witness :
  (bot_manager example_world example_oracle
     (request_of "Bearer alice" "stop" (Some "a1"))).2
  = ok (BStopped "stopped") ∧
  ∃ b, (bot_manager
          (bot_manager example_world example_oracle
             (request_of "Bearer alice" "stop" (Some "a1"))).1
          example_oracle (request_of "Bearer alice" "status" (Some "a1"))).2
       = ok (BStatus (Some b)) ∧
       b_cpu_usage b = Some 0%Q ∧ b_memory_usage b = Some 0%Q.
Proof.
  pose proof (λ act, alice_verified_call example_world act (Some "a1")
                       eq_refl) as Hv.
  destruct (stop_then_status example_world example_oracle example_oracle
              _ _ alice _ _ "a1" (Hv "stop") eq_refl eq_refl
              (Hv "status") eq_refl eq_refl eq_refl eq_refl)
    as (H1 & _ & (b & H2 & _ & _ & _ & Hc & Hm) & _).
  split; [exact H1|]. exists b. split; [exact H2|]. split; [exact Hc|exact Hm].
Defined.

(** ** C7 and C10: the heartbeat sweep *)

Lemma select_bots_service_role (tbl : list BotRow) :
  select_bots service_role tbl = tbl.
Proof.
  unfold select_bots. induction tbl as [|b tbl IH]; [done|].
  rewrite filter_cons_True by done. by rewrite IH.
Qed.

Lemma beat_one_effect t draw w ups bot :
  let r := beat_one t draw (w, ups) bot in
  (update_succeeded draw bot →
     r.2 = ups ++ [beat_update t draw bot] ∧
     resource_history r.1 = resource_history w ++ [beat_sample t draw bot]) ∧
  (¬ update_succeeded draw bot →
     r.2 = ups ∧ resource_history r.1 = resource_history w).
Proof.
  unfold beat_one, update_succeeded, update_bots. cbv zeta.
  destruct (beat_update_error (draw (b_id bot))) as [msg|].
  - split; [done|]. intros _.
    destruct (Qgtb _ _); [|done]. by destruct (_ !! _).
  - split; [|done]. intros _.
    destruct (Qgtb _ _); [|done]. by destruct (_ !! _).
Qed.

Lemma sweep_effect t draw l acc :
  (foldl (beat_one t draw) acc l).2 =
    acc.2 ++ map (beat_update t draw) (filter (update_succeeded draw) l) ∧
  resource_history (foldl (beat_one t draw) acc l).1 =
    resource_history acc.1 ++
    map (beat_sample t draw) (filter (update_succeeded draw) l).
Proof.
  revert acc. induction l as [|bot l IH]; intros [w ups].
  - simpl. by rewrite !app_nil_r.
  - change (foldl (beat_one t draw) (w, ups) (bot :: l))
      with (foldl (beat_one t draw) (beat_one t draw (w, ups) bot) l).
    destruct (IH (beat_one t draw (w, ups) bot)) as [IH1 IH2].
    rewrite IH1, IH2. clear IH IH1 IH2.
    destruct (beat_one_effect t draw w ups bot) as [Hok Hko].
    rewrite filter_cons. destruct (decide (update_succeeded draw bot)) as [H|H].
    + destruct (Hok H) as [-> ->]. simpl. by rewrite <- !app_assoc.
    + by destruct (Hko H) as [-> ->].
Qed.

Lemma bot_heartbeat_sweep w t draw req :
  String.eqb (method req) "OPTIONS" = false →
  (bot_heartbeat w t false draw req).2 =
    mkHeartbeatResponse 200
      (HSwept
         (Z.of_nat (length (filter (update_succeeded draw)
                              (filter (λ b, b_status b = online) (bots w)))))
         (map (beat_update t draw)
            (filter (update_succeeded draw)
               (filter (λ b, b_status b = online) (bots w))))) ∧
  resource_history (bot_heartbeat w t false draw req).1 =
    resource_history w ++
    map (beat_sample t draw)
      (filter (update_succeeded draw)
         (filter (λ b, b_status b = online) (bots w))).
Proof.
  intros Hm. unfold bot_heartbeat. rewrite Hm, select_bots_service_role.
  destruct (sweep_effect t draw
              (filter (λ b, b_status b = online) (bots w)) (w, []))
    as [H1 H2].
  destruct (foldl _ _ _) as [w' ups]. simpl in *. subst ups.
  by rewrite length_map.
Qed.

(** C7.  A sweep over the bots in status online (the first query
    answering): the response is a success whatever updates failed; its
    [updates] has one entry, and [resource_history] gets one sample, for
    each online bot whose update succeeded, those after a failed one
    included, and none for a bot whose update failed; [botsUpdated] is the
    number of bots whose update succeeded. *)
Theorem sweep_counts_successful_updates w t draw req :
  String.eqb (method req) "OPTIONS" = false →
  let running := filter (λ b, b_status b = online) (bots w) in
  let succeeded := filter (update_succeeded draw) running in
  (bot_heartbeat w t false draw req).2 =
    mkHeartbeatResponse 200
      (HSwept (Z.of_nat (length succeeded))
              (map (beat_update t draw) succeeded)) ∧
  resource_history (bot_heartbeat w t false draw req).1 =
    resource_history w ++ map (beat_sample t draw) succeeded.
Proof. intros Hm. cbv zeta. by apply bot_heartbeat_sweep. Qed.

Lemma sweep_counts_successful_updates_witness :
  (bot_heartbeat example_world 1766710000000 false example_beat
     (mkRequest "POST" None None)).2 =
    mkHeartbeatResponse 200
      (HSwept 1 [mkUpdate "a1" "bot a1" (18 # 10) (365 # 10) 10000]) ∧
  resource_history (bot_heartbeat example_world 1766710000000 false
                      example_beat (mkRequest "POST" None None)).1 =
    resource_history example_world ++
    [mkSample "a1" (18 # 10) (365 # 10) 1766710000000].
Proof.
  exact (sweep_counts_successful_updates example_world 1766710000000
           example_beat (mkRequest "POST" None None) eq_refl).
Defined.

(** C10.  The heartbeat handler never looks at the caller: two requests
    with the same method, whatever their Authorization headers and
    bodies, get the same response and have the same effect; and a sweep
    (any method but OPTIONS, the first query answering) covers the online
    bots of every user: each one whose update succeeds, whoever owns it,
    gets its sample and is reported. *)
Theorem heartbeat_ignores_caller w t fetch_error draw req1 req2 :
  method req1 = method req2 →
  bot_heartbeat w t fetch_error draw req1 =
  bot_heartbeat w t fetch_error draw req2 ∧
  (String.eqb (method req1) "OPTIONS" = false → fetch_error = false →
   ∀ b, b ∈ bots w → b_status b = online → update_succeeded draw b →
        beat_sample t draw b
          ∈ resource_history (bot_heartbeat w t fetch_error draw req1).1 ∧
        ∃ n ups, (bot_heartbeat w t fetch_error draw req1).2 =
                   mkHeartbeatResponse 200 (HSwept n ups) ∧
                 beat_update t draw b ∈ ups).
Proof.
  intros Hm. split.
  - unfold bot_heartbeat. by rewrite Hm.
  - intros Ho -> b Hb Hon Hok.
    destruct (bot_heartbeat_sweep w t draw req1 Ho) as [H1 H2].
    assert (Hin : b ∈ filter (update_succeeded draw)
                        (filter (λ b, b_status b = online) (bots w))).
    { apply list_elem_of_filter. split; [done|].
      by apply list_elem_of_filter. }
    split.
    + rewrite H2. apply elem_of_app. right. by apply list_elem_of_fmap_2.
    + eexists _, _. split; [exact H1|]. by apply list_elem_of_fmap_2.
Qed.

Lemma heartbeat_ignores_caller_witness :
  bot_heartbeat example_world 1766710000000 false example_beat
    (mkRequest "POST" None None) =
  bot_heartbeat example_world 1766710000000 false example_beat
    (request_of "Bearer bob" "status" (Some "a1")).
Proof.
  exact (proj1 (heartbeat_ignores_caller example_world 1766710000000 false
                  example_beat (mkRequest "POST" None None)
                  (request_of "Bearer bob" "status" (Some "a1")) eq_refl)).
Defined.

(** ** C4: metrics of a caller without bots *)

(** C4, what the handler does.  For an authenticated caller who owns no
    bot the answer is a success (status 200, [success: true], never an
    error), but its body is [{success, metrics: []}]: it has neither a
    [chartData] nor a [stats] property, where the interface
    [MetricsResult] and the hook that reads the response expect both. *)
Theorem metrics_of_caller_without_bots w o req user :
  String.eqb (m_method req) "OPTIONS" = false →
  authenticated w (m_authorization req) user →
  count_user_bots (bots w) (u_id user) = 0 →
  resource_metrics w o req = mkMetricsResponse 200 (MMetrics []) ∧
  success_of (m_body (resource_metrics w o req)) = Some true ∧
  error_of (m_body (resource_metrics w o req)) = None ∧
  chartData_of (m_body (resource_metrics w o req)) = None ∧
  stats_of (m_body (resource_metrics w o req)) = None.
Proof.
  intros Hm (h & Ha & Hu) Hc.
  assert (E : resource_metrics w o req = mkMetricsResponse 200 (MMetrics [])).
  { unfold resource_metrics. rewrite Hm, Ha, Hu. cbv zeta.
    destruct (userBots_error o); [done|]. rewrite select_own_bots.
    unfold count_user_bots in Hc.
    destruct (filter _ (bots w)); [done|]. simpl in Hc. lia. }
  by rewrite E.
Qed.

Lemma metrics_of_caller_without_bots_witness :
  resource_metrics example_world example_metrics_oracle
    (mkMetricsRequest "GET" (Some "Bearer carol") None (Some (integer 24)))
  = mkMetricsResponse 200 (MMetrics []) ∧
  chartData_of (m_body (resource_metrics example_world example_metrics_oracle
    (mkMetricsRequest "GET" (Some "Bearer carol") None (Some (integer 24))))) = None ∧
  stats_of (m_body (resource_metrics example_world example_metrics_oracle
    (mkMetricsRequest "GET" (Some "Bearer carol") None (Some (integer 24))))) = None.
Proof.
  destruct (metrics_of_caller_without_bots example_world
              example_metrics_oracle
              (mkMetricsRequest "GET" (Some "Bearer carol") None (Some (integer 24)))
              carol eq_refl) as (H1 & _ & _ & H2 & H3).
  - exists "Bearer carol". split; reflexivity.
  - reflexivity.
  - split; [exact H1|]. split; [exact H2 | exact H3].
Defined.

(** ** C9: hourly aggregation *)

(** *** The aggregation loop, closed form *)

Lemma hours_seen_snoc l x :
  hours_seen (l ++ [x]) =
  if decide (record_hour x ∈ hours_seen l) then hours_seen l
  else hours_seen l ++ [record_hour x].
Proof. unfold hours_seen. by rewrite foldl_snoc. Qed.

Lemma aggregate_snoc l x :
  aggregate (l ++ [x]) =
  push_record (record_hour x) (Number.of_Q (rh_cpu_usage x))
              (Number.of_Q (rh_memory_usage x)) (aggregate l).
Proof. unfold aggregate. by rewrite foldl_snoc. Qed.

Lemma elem_of_hours_seen l h :
  h ∈ hours_seen l ↔ ∃ s, s ∈ l ∧ record_hour s = h.
Proof.
  induction l as [|x l IH] using rev_ind.
  - split; [by intros ?%elem_of_nil | by intros (s & ?%elem_of_nil & _)].
  - rewrite hours_seen_snoc. destruct (decide _) as [Hin|Hin].
    + rewrite IH. split.
      * intros (s & Hs & E). exists s. split; [|done].
        apply elem_of_app. by left.
      * intros (s & Hs & E). apply elem_of_app in Hs as [Hs|Hs]; [by eauto|].
        apply list_elem_of_singleton in Hs as ->. apply IH. by rewrite <- E.
    + rewrite elem_of_app, IH, list_elem_of_singleton. split.
      * intros [(s & Hs & E)| ->].
        -- exists s. split; [|done]. apply elem_of_app. by left.
        -- exists x. split; [|done]. apply elem_of_app. right.
           by apply list_elem_of_singleton.
      * intros (s & Hs & E). apply elem_of_app in Hs as [Hs|Hs]; [by eauto|].
        apply list_elem_of_singleton in Hs as ->. by right.
Qed.

Lemma NoDup_hours_seen l : NoDup (hours_seen l).
Proof.
  induction l as [|x l IH] using rev_ind; [constructor|].
  rewrite hours_seen_snoc. destruct (decide _) as [Hin|Hin]; [done|].
  apply NoDup_app. split; [done|]. split; [|apply NoDup_singleton].
  intros h Hh Hx%list_elem_of_singleton. by subst.
Qed.

Lemma bucket_of_snoc_other h l x :
  record_hour x ≠ h → bucket_of h (l ++ [x]) = bucket_of h l.
Proof.
  intros Hne. unfold bucket_of. cbv zeta. rewrite filter_app.
  rewrite (filter_cons_False _ x []) by done. by rewrite filter_nil, app_nil_r.
Qed.

Lemma bucket_of_snoc_same l x :
  bucket_of (record_hour x) (l ++ [x]) =
  mkBucket (bk_cpu (bucket_of (record_hour x) l)
            ++ [Number.of_Q (rh_cpu_usage x)])
           (bk_memory (bucket_of (record_hour x) l)
            ++ [Number.of_Q (rh_memory_usage x)])
           (bk_count (bucket_of (record_hour x) l) + 1).
Proof.
  unfold bucket_of. cbv zeta. rewrite filter_app.
  rewrite (filter_cons_True _ x []) by done. rewrite filter_nil. simpl.
  rewrite !map_app, length_app. simpl. f_equal. lia.
Qed.

Lemma push_record_closed_form l x ks :
  NoDup ks →
  (record_hour x ∉ ks → filter (λ s, record_hour s = record_hour x) l = []) →
  push_record (record_hour x) (Number.of_Q (rh_cpu_usage x))
              (Number.of_Q (rh_memory_usage x))
              (map (λ h, (h, bucket_of h l)) ks) =
  map (λ h, (h, bucket_of h (l ++ [x])))
      (if decide (record_hour x ∈ ks) then ks else ks ++ [record_hour x]).
Proof.
  intros Hnd Hfresh. induction ks as [|k ks IH].
  - rewrite decide_False by apply not_elem_of_nil. simpl.
    rewrite bucket_of_snoc_same. unfold bucket_of. cbv zeta.
    rewrite Hfresh by apply not_elem_of_nil. done.
  - apply NoDup_cons in Hnd as [Hk Hnd]. simpl.
    case_bool_decide as Hkx.
    + subst k. rewrite decide_True by apply list_elem_of_here. simpl.
      rewrite bucket_of_snoc_same. f_equal.
      apply list_fmap_ext. intros i h Hh. f_equal.
      rewrite bucket_of_snoc_other; [done|]. intros E. apply Hk. rewrite E.
      by eapply list_elem_of_lookup_2.
    + rewrite IH; [|done|].
      * destruct (decide (record_hour x ∈ ks)) as [Hin|Hin].
        -- rewrite decide_True by by apply list_elem_of_further.
           simpl. by rewrite (bucket_of_snoc_other k) by done.
        -- rewrite decide_False by (intros [?|?]%elem_of_cons; congruence).
           simpl. by rewrite (bucket_of_snoc_other k) by done.
      * intros Hin. apply Hfresh. intros [?|?]%elem_of_cons; congruence.
Qed.

Lemma aggregate_closed_form l :
  aggregate l = map (λ h, (h, bucket_of h l)) (hours_seen l).
Proof.
  induction l as [|x l IH] using rev_ind; [done|].
  rewrite aggregate_snoc, IH, hours_seen_snoc.
  apply push_record_closed_form; [apply NoDup_hours_seen|].
  intros Hin. destruct (filter _ l) as [|s f] eqn:E; [done|].
  exfalso. apply Hin, elem_of_hours_seen. exists s.
  assert (Hs : s ∈ filter (λ s, record_hour s = record_hour x) l)
    by (rewrite E; apply list_elem_of_here).
  by apply list_elem_of_filter in Hs as [? ?].
Qed.

Global Instance recorded_le_trans : Transitive recorded_le.
Proof. intros a b c. unfold recorded_le. lia. Qed.
Global Instance recorded_le_total : Total recorded_le.
Proof. intros a b. unfold recorded_le. lia. Qed.



(** *** The handler's chart is the specified one *)



Global Instance hour_start_inj : Inj (=) (=) (λ h : Z, h * 3600000).
Proof. intros a b H. lia. Qed.







(** The window of a request in range: the cutoff is now minus the window. *)
Lemma cutoffTime_of_in_range (now n : Z) :
  Z.abs (now - n * 3600000) ≤ 8640000000000000 →
  cutoffTime_of now (integer n) = Some (now - n * 3600000).
Proof.
  intros H. unfold cutoffTime_of. cbv zeta.
  replace (now - n * 60 * 60 * 1000) with (now - n * 3600000) by lia.
  by rewrite bool_decide_eq_true_2.
Qed.




(** * Further properties of the handlers *)

(** ** Requests that never reach the switch *)

Lemma bot_manager_reaches_switch w o req :
  (bot_manager w o req).1 = w ∨ ∃ user body, verified_call w req user body.
Proof.
  unfold bot_manager, verified_call, authenticated.
  destruct (String.eqb _ _) eqn:Hm; [by left|].
  destruct (truthy _) as [h|] eqn:Ha; [|by left].
  destruct (getUser _ _) as [user|] eqn:Hu; [|by left].
  destruct (email_confirmed_at user) as [t|] eqn:He; [|by left].
  destruct (json req) as [body|] eqn:Hj; [|by left].
  right. exists user, body. rewrite He. eauto 10.
Qed.

Lemma authenticated_unique w auth user1 user2 :
  authenticated w auth user1 → authenticated w auth user2 → user1 = user2.
Proof. intros (h1 & H1 & G1) (h2 & H2 & G2). congruence. Qed.

(** X1.  A request without an Authorization header (or with an empty one),
    or with one the identity provider does not know, is answered 401 by
    bot-manager and by resource-metrics, "Missing authorization header"
    in the first case and "Invalid or expired token" in the second, and
    bot-manager writes nothing. *)
Theorem unauthenticated_is_refused w (auth : option string) :
  (∀ user, ¬ authenticated w auth user) →
  (∀ o req, authorization req = auth →
     String.eqb (method req) "OPTIONS" = false →
     bot_manager w o req =
       (w, mkResponse 401
             (BError (match truthy auth with
                      | Some _ => "Invalid or expired token"
                      | None => "Missing authorization header"
                      end)))) ∧
  (∀ o req, m_authorization req = auth →
     String.eqb (m_method req) "OPTIONS" = false →
     resource_metrics w o req =
       mkMetricsResponse 401
         (MError (match truthy auth with
                  | Some _ => "Invalid or expired token"
                  | None => "Missing authorization header"
                  end))).
Proof.
  intros Hno. split; intros o req <- Hm.
  - unfold bot_manager. rewrite Hm.
    destruct (truthy _) as [h|] eqn:Ha; [|done].
    destruct (getUser w h) as [user|] eqn:Hu; [|done].
    destruct (Hno user). by exists h.
  - unfold resource_metrics. rewrite Hm.
    destruct (truthy _) as [h|] eqn:Ha; [|done].
    destruct (getUser w h) as [user|] eqn:Hu; [|done].
    destruct (Hno user). by exists h.
Qed.

Lemma unauthenticated_is_refused_witness :
  bot_manager example_world example_oracle
    (mkRequest "POST" (Some "Bearer mallory")
       (Some (mkAction "delete" (Some "a1") None None None None None)))
  = (example_world, mkResponse 401 (BError "Invalid or expired token")).
Proof.
  assert (H : ∀ user, ¬ authenticated example_world (Some "Bearer mallory") user).
  { intros user (h & Ha & Hu). injection Ha as <-. discriminate Hu. }
  exact (proj1 (unauthenticated_is_refused example_world
                  (Some "Bearer mallory") H) example_oracle
           (mkRequest "POST" (Some "Bearer mallory")
              (Some (mkAction "delete" (Some "a1") None None None None None)))
           eq_refl eq_refl).
Defined.

(** X2.  A deploy request of a verified caller that lacks a name (absent
    or empty), a platform or a runtime is answered 400 "Missing required
    fields" before the quota is looked at, and writes nothing. *)
Theorem deploy_requires_fields w o req user body :
  verified_call w req user body →
  action body = "deploy" →
  truthy (name body) = None ∨ platform body = None ∨ runtime body = None →
  bot_manager w o req =
    (w, mkResponse 400
          (BError "Missing required fields: name, platform, runtime")).
Proof.
  intros Hv Ha Hmiss. rewrite (bot_manager_verified _ _ _ _ _ Hv).
  unfold dispatch. rewrite Ha. simpl. unfold deploy.
  destruct (truthy (name body)); [|done].
  destruct (platform body); [|done].
  destruct (runtime body); [|done].
  by destruct Hmiss as [?|[?|?]].
Qed.

Lemma deploy_requires_fields_witness :
  bot_manager example_world example_oracle
    (mkRequest "POST" (Some "Bearer carol")
       (Some (mkAction "deploy" None (Some "") (Some discord) (Some php)
                       None None)))
  = (example_world,
     mkResponse 400 (BError "Missing required fields: name, platform, runtime")).
Proof.
  apply (deploy_requires_fields example_world example_oracle _ carol
           (mkAction "deploy" None (Some "") (Some discord) (Some php)
                     None None)).
  - split; [reflexivity|]. split; [|split; [by eexists | reflexivity]].
    exists "Bearer carol". split; reflexivity.
  - reflexivity.
  - left. reflexivity.
Defined.

(** X3.  For a verified caller, start, stop, restart, delete and status
    without a bot id (absent or empty) are answered 400 "Missing botId",
    and an action outside the six is answered 400 "Invalid action";
    neither writes anything. *)
Theorem malformed_action_is_refused w o req user body :
  verified_call w req user body →
  action body ≠ "deploy" →
  truthy (botId body) = None ∨ action body ∉ bot_id_actions →
  (bot_manager w o req).1 = w ∧
  (bot_manager w o req).2 =
    mkResponse 400 (BError (if bool_decide (action body ∈ bot_id_actions)
                            then "Missing botId" else "Invalid action")).
Proof.
  intros Hv Hnd Hbad. rewrite (bot_manager_verified _ _ _ _ _ Hv).
  unfold dispatch.
  destruct (String.eqb_spec (action body) "deploy") as [?|_]; [done|].
  unfold bot_id_actions in *.
  destruct (String.eqb_spec (action body) "start") as [E|N1].
  { rewrite E in *. destruct Hbad as [Hb|Hb]; [|destruct Hb; repeat constructor].
    unfold start. by rewrite Hb. }
  destruct (String.eqb_spec (action body) "stop") as [E|N2].
  { rewrite E in *. destruct Hbad as [Hb|Hb]; [|destruct Hb; repeat constructor].
    unfold stop. by rewrite Hb. }
  destruct (String.eqb_spec (action body) "restart") as [E|N3].
  { rewrite E in *. destruct Hbad as [Hb|Hb]; [|destruct Hb; repeat constructor].
    unfold restart. by rewrite Hb. }
  destruct (String.eqb_spec (action body) "delete") as [E|N4].
  { rewrite E in *. destruct Hbad as [Hb|Hb]; [|destruct Hb; repeat constructor].
    unfold delete_bot. by rewrite Hb. }
  destruct (String.eqb_spec (action body) "status") as [E|N5].
  { rewrite E in *. destruct Hbad as [Hb|Hb]; [|destruct Hb; repeat constructor].
    unfold status. by rewrite Hb. }
  rewrite bool_decide_false; [done|].
  rewrite !elem_of_cons, elem_of_nil. tauto.
Qed.

Lemma malformed_action_is_refused_witness :
  bot_manager example_world example_oracle
    (request_of "Bearer alice" "pause" (Some "a1"))
  = (example_world, mkResponse 400 (BError "Invalid action")).
Proof.
  destruct (malformed_action_is_refused example_world example_oracle
              (request_of "Bearer alice" "pause" (Some "a1")) alice _
              (alice_verified_call example_world "pause" (Some "a1") eq_refl))
    as [H1 H2].
  - discriminate.
  - right. unfold bot_id_actions. simpl.
    rewrite !elem_of_cons, elem_of_nil. intros [?|[?|[?|[?|[?|?]]]]]; done.
  - rewrite (surjective_pairing (bot_manager _ _ _)), H1, H2. reflexivity.
Defined.

(** ** What a request can do to the table of bots *)

Lemma dispatch_bots_change w o user body :
  bots_change (u_id user) (bots w) (bots (dispatch w o user body).1).
Proof.
  unfold dispatch.
  destruct (String.eqb (action body) "deploy").
  { unfold deploy.
    destruct (truthy (name body)) as [n|]; [|by constructor].
    destruct (platform body) as [pf|]; [|by constructor].
    destruct (runtime body) as [rt|]; [|by constructor].
    cbv zeta. destruct (match _ with Some n0 => _ | None => false end);
      [by constructor|].
    destruct (insert_bot _ _ _ _) as [msg|[tbl bot]] eqn:E; [by constructor|].
    apply insert_bot_inv in E as (_ & Hlt & -> & Hrow). simpl in Hlt.
    assert (Hu : b_user_id bot = u_id user) by (by injection Hrow as <-).
    apply (change_insert _ _ _ bot Hu Hlt).
    destruct (envVars body) as [evs|]; simpl; [|done].
    by repeat case_bool_decide. }
  destruct (String.eqb (action body) "start").
  { unfold start. destruct (truthy (botId body)); [|by constructor].
    destruct (negb _); [by constructor|]. cbv zeta.
    destruct (update_bots _ _ _ _ _ _) as [msg|tbl] eqn:E; [by constructor|].
    unfold update_bots in E. destruct (write_error o); [done|].
    injection E as <-. by eapply change_update. }
  destruct (String.eqb (action body) "stop").
  { unfold stop. destruct (truthy (botId body)); [|by constructor].
    destruct (negb _); [by constructor|]. cbv zeta.
    destruct (update_bots _ _ _ _ _ _) as [msg|tbl] eqn:E; [by constructor|].
    unfold update_bots in E. destruct (write_error o); [done|].
    injection E as <-. by eapply change_update. }
  destruct (String.eqb (action body) "restart").
  { unfold restart. destruct (truthy (botId body)); [|by constructor].
    destruct (negb _); [by constructor|]. cbv zeta.
    destruct (update_bots _ _ _ _ _ _) as [msg|tbl] eqn:E; [by constructor|].
    unfold update_bots in E. destruct (write_error o); [done|].
    injection E as <-. by eapply change_update. }
  destruct (String.eqb (action body) "delete").
  { unfold delete_bot. destruct (truthy (botId body)); [|by constructor].
    destruct (negb _); [by constructor|]. cbv zeta. unfold delete_bots.
    destruct (write_error o); [by constructor|]. by eapply change_delete. }
  destruct (String.eqb (action body) "status"); [|by constructor].
  unfold status. destruct (truthy (botId body)); [|by constructor].
  destruct (negb _); [by constructor|].
  destruct (single _) as [b|]; [|by constructor].
  case_bool_decide; [|by constructor]. cbv zeta.
  unfold update_bots. destruct (write_error o); [by constructor|].
  by eapply change_update.
Qed.

Lemma count_user_bots_fmap (f : BotRow → BotRow) tbl uid :
  (∀ b, b_user_id (f b) = b_user_id b) →
  count_user_bots (map f tbl) uid = count_user_bots tbl uid.
Proof.
  intros Hf. unfold count_user_bots. f_equal.
  induction tbl as [|b tbl IH]; [done|]. simpl.
  rewrite !filter_cons, Hf. destruct (decide _); simpl; by rewrite IH.
Qed.

Lemma count_user_bots_app tbl1 tbl2 uid :
  count_user_bots (tbl1 ++ tbl2) uid =
  count_user_bots tbl1 uid + count_user_bots tbl2 uid.
Proof. unfold count_user_bots. rewrite filter_app, length_app. lia. Qed.

Lemma count_user_bots_filter (P : BotRow → Prop) `{∀ b, Decision (P b)}
  tbl uid :
  count_user_bots (filter P tbl) uid ≤ count_user_bots tbl uid.
Proof.
  unfold count_user_bots. apply inj_le.
  induction tbl as [|b tbl IH]; [done|]. rewrite !filter_cons.
  destruct (decide (P b)); rewrite ?filter_cons;
    destruct (decide (b_user_id b = uid)); simpl; lia.
Qed.

Lemma filter_map_unchanged {A} (P : A → Prop) `{∀ x, Decision (P x)}
  (f : A → A) (l : list A) :
  (∀ x, P (f x) ↔ P x) → (∀ x, P x → f x = x) →
  filter P (map f l) = filter P l.
Proof.
  intros Hiff Hfix. induction l as [|x l IH]; [done|]. cbn [map].
  rewrite !filter_cons. destruct (decide (P x)) as [Hx|Hx].
  - rewrite decide_True by by apply Hiff. by rewrite IH, Hfix.
  - rewrite decide_False by by rewrite Hiff. done.
Qed.

Lemma conditional_update_user_id (c : bool) t p b :
  b_user_id (if c then update_row t p b else b) = b_user_id b.
Proof. by destruct c. Qed.

Lemma bots_change_count uid tbl tbl' u :
  bots_change uid tbl tbl' →
  (∀ v, count_user_bots tbl v ≤ 3) → count_user_bots tbl' u ≤ 3.
Proof.
  intros [-> | id t p -> | id -> | row Hu Hlt ->] Hq; [apply Hq| | |].
  - rewrite count_user_bots_fmap; [apply Hq|].
    intros b. apply conditional_update_user_id.
  - etrans; [|apply (Hq u)]. apply count_user_bots_filter.
  - rewrite count_user_bots_app. unfold count_user_bots at 2.
    rewrite filter_cons, filter_nil. destruct (decide _) as [E|E]; simpl.
    + rewrite <- E, Hu. lia.
    + pose proof (Hq u). lia.
Qed.

Lemma bots_change_others uid tbl tbl' u :
  bots_change uid tbl tbl' → u ≠ uid →
  filter (λ b, b_user_id b = u) tbl' = filter (λ b, b_user_id b = u) tbl.
Proof.
  intros [-> | id t p -> | id -> | row Hu Hlt ->] Hne; [done| | |].
  - apply filter_map_unchanged.
    + intros b. by rewrite conditional_update_user_id.
    + intros b E. simpl. rewrite bool_decide_eq_false_2; [done|]. congruence.
  - rewrite list_filter_filter. apply list_filter_iff. intros b.
    unfold bot_deleted. simpl. split; [tauto|]. intros E. split; [done|].
    rewrite bool_decide_eq_false_2; [tauto|]. congruence.
  - rewrite filter_app, filter_cons_False, filter_nil, app_nil_r; [done|].
    congruence.
Qed.

Lemma beat_one_bots t draw w ups bot :
  bots (beat_one t draw (w, ups) bot).1 = bots w ∨
  ∃ p, bots (beat_one t draw (w, ups) bot).1 =
       map (λ b, if bot_visible service_role b && bool_decide (b_id b = b_id bot)
                 then update_row t p b else b) (bots w).
Proof.
  unfold beat_one, update_bots. cbv zeta.
  destruct (beat_update_error _).
  - left. destruct (Qgtb _ _); [|done]. by destruct (_ !! _).
  - right. eexists. destruct (Qgtb _ _); [|done]. by destruct (_ !! _).
Qed.

Lemma sweep_count t draw l acc uid :
  count_user_bots (bots (foldl (beat_one t draw) acc l).1) uid =
  count_user_bots (bots acc.1) uid.
Proof.
  revert acc. induction l as [|bot l IH]; intros [w ups]; [done|].
  change (foldl (beat_one t draw) (w, ups) (bot :: l))
    with (foldl (beat_one t draw) (beat_one t draw (w, ups) bot) l).
  rewrite IH. destruct (beat_one_bots t draw w ups bot) as [->|[p ->]]; [done|].
  apply count_user_bots_fmap. intros b. apply conditional_update_user_id.
Qed.

(** X5.  The quota is an invariant of the system: if no user owns more
    than three bots, then after any run of bot-manager, whatever the
    request and the outcome of its queries, and after any heartbeat sweep,
    no user owns more than three bots. *)
Theorem quota_is_invariant w :
  quota_ok w →
  (∀ o req, quota_ok (bot_manager w o req).1) ∧
  (∀ t fetch_error draw req,
     quota_ok (bot_heartbeat w t fetch_error draw req).1).
Proof.
  intros Hq. split.
  - intros o req uid.
    destruct (bot_manager_reaches_switch w o req) as [->|(user & body & Hv)];
      [apply Hq|].
    rewrite (bot_manager_verified _ _ _ _ _ Hv).
    eapply bots_change_count; [apply dispatch_bots_change | apply Hq].
  - intros t fe draw req uid. unfold bot_heartbeat.
    destruct (String.eqb _ _); [apply Hq|]. destruct fe; [apply Hq|].
    cbv zeta.
    pose proof (sweep_count t draw
      (filter (λ b, b_status b = online) (select_bots service_role (bots w)))
      (w, []) uid) as H.
    destruct (foldl _ _ _) as [w' ups]. simpl in *. rewrite H. apply Hq.
Qed.

Lemma example_world_quota_ok : quota_ok example_world.
Proof.
  intros uid. unfold count_user_bots. simpl.
  repeat (rewrite filter_cons; simpl; destruct (decide _));
    rewrite ?filter_nil; simpl; (lia || congruence).
Qed.

Lemma quota_is_invariant_witness :
  quota_ok (bot_manager example_world example_oracle
              (deploy_request "Bearer carol")).1.
Proof.
  exact (proj1 (quota_is_invariant example_world example_world_quota_ok)
           example_oracle (deploy_request "Bearer carol")).
Defined.

(** X6.  A request touches no row of another user: for every user other
    than the authenticated caller, the rows of [bots] that user owns are
    the same, in the same order, after the run of bot-manager. *)
Theorem other_users_rows_untouched w o req uid :
  (∀ user, authenticated w (authorization req) user → u_id user ≠ uid) →
  filter (λ b, b_user_id b = uid) (bots (bot_manager w o req).1) =
  filter (λ b, b_user_id b = uid) (bots w).
Proof.
  intros Hother.
  destruct (bot_manager_reaches_switch w o req) as [->|(user & body & Hv)];
    [done|].
  rewrite (bot_manager_verified _ _ _ _ _ Hv).
  eapply bots_change_others; [apply dispatch_bots_change|].
  intros ->. destruct Hv as (_ & Ha & _). by apply (Hother user).
Qed.

Lemma other_users_rows_untouched_witness :
  filter (λ b, b_user_id b = "bob")
    (bots (bot_manager example_world example_oracle
             (request_of "Bearer alice" "stop" (Some "b1"))).1) =
  filter (λ b, b_user_id b = "bob") (bots example_world).
Proof.
  apply other_users_rows_untouched.
  intros user Ha.
  rewrite (authenticated_unique _ _ _ _ Ha
             (ex_intro _ "Bearer alice" (conj eq_refl eq_refl))).
  discriminate.
Defined.

(** ** Effects of the actions *)

Lemma update_row_usage t p b (c m : Q) :
  p_cpu_usage p = Some c → p_memory_usage p = Some m →
  (c <= 10)%Q → (m <= 50)%Q →
  b_cpu_usage (update_row t p b) = Some c ∧
  b_memory_usage (update_row t p b) = Some m.
Proof.
  intros Hc Hm H10 H50. rewrite update_row_fields. unfold apply_patch.
  cbn [b_cpu_usage b_memory_usage]. rewrite Hc, Hm.
  by rewrite !clamp_above_under by done.
Qed.

(** X4.  A deploy of a verified caller who owns fewer than three bots,
    with its required fields and a storage layer that answers: the
    response carries the new row, which is appended to [bots] with status
    offline, usage 0 and 0, a container id, no start time, the caller as
    owner; exactly two info log entries are appended; the env vars stored
    are the pairs with a non-empty key and a non-empty value, in the order
    given; no resource sample is recorded. *)
Theorem deploy_effects w o req user body n pf rt :
  verified_call w req user body →
  action body = "deploy" →
  truthy (name body) = Some n → platform body = Some pf →
  runtime body = Some rt →
  count_user_bots (bots w) (u_id user) < 3 →
  write_error o = None →
  let w' := (bot_manager w o req).1 in
  let containerId := generateContainerId (randomUUID o) in
  let bot := mkBot (gen_random_uuid o) (u_id user) n pf rt offline
                   (Some containerId) (scriptContent body)
                   (Some 0%Q) (Some 0%Q) (Some 0) None (now o) (now o) in
  (bot_manager w o req).2 =
    ok (BDeployed bot ("Bot " +:+ dquote +:+ n +:+ dquote +:+
                       " deployed successfully")) ∧
  bots w' = bots w ++ [bot] ∧
  bot_logs w' =
    bot_logs w ++
    [ mkLog (b_id bot) "info"
            ("Bot " +:+ dquote +:+ n +:+ dquote +:+
             " created with container " +:+ containerId) (now o);
      mkLog (b_id bot) "info"
            ("Runtime: " +:+ runtime_name rt +:+ ", Platform: " +:+
             platform_name pf) (now o) ] ∧
  bot_env_vars w' =
    bot_env_vars w ++
    map (λ ev, mkEnvVar (b_id bot) ev.1 ev.2 (now o))
        (filter (λ ev : string * string, ev.1 ≠ "" ∧ ev.2 ≠ "")
                (default [] (envVars body))) ∧
  resource_history w' = resource_history w.
Proof.
  intros Hv Ha Hn Hpf Hrt Hc Hw. cbv zeta.
  rewrite (bot_manager_verified _ _ _ _ _ Hv). unfold dispatch.
  rewrite Ha. simpl. unfold deploy. rewrite Hn, Hpf, Hrt. cbv zeta.
  rewrite select_own_bots. fold (count_user_bots (bots w) (u_id user)).
  assert (Hno : match (if count_error o then None
                       else Some (count_user_bots (bots w) (u_id user))) with
                | Some n0 => bool_decide (n0 >= 3)
                | None => false
                end = false).
  { destruct (count_error o); [done|]. apply bool_decide_eq_false. lia. }
  rewrite Hno, Hw. unfold insert_bot, before_insert, check_bot_limit.
  simpl. rewrite bool_decide_eq_false_2 by lia. simpl.
  rewrite bool_decide_eq_true_2 by done.
  destruct (envVars body) as [evs|]; simpl.
  - case_bool_decide as Hl0.
    + case_bool_decide as Hl; simpl.
      * by rewrite <- app_assoc.
      * destruct (filter _ evs) as [|e l]; simpl in *; [|lia].
        by rewrite app_nil_r, <- app_assoc.
    + destruct evs as [|ev evs]; [|simpl in Hl0; lia].
      simpl. by rewrite app_nil_r, <- app_assoc.
  - by rewrite app_nil_r, <- app_assoc.
Qed.

Lemma deploy_effects_witness :
  length (bots (bot_manager example_world example_oracle
                  (deploy_request "Bearer carol")).1) = 5%nat ∧
  map l_level (bot_logs (bot_manager example_world example_oracle
                           (deploy_request "Bearer carol")).1)
  = ["info"; "info"].
Proof.
  assert (Hv : verified_call example_world (deploy_request "Bearer carol") carol
                 (mkAction "deploy" None (Some "Echo") (Some telegram)
                           (Some python) None None)).
  { split; [reflexivity|]. split; [|split; [by eexists | reflexivity]].
    exists "Bearer carol". split; reflexivity. }
  destruct (deploy_effects example_world example_oracle _ carol _
              "Echo" telegram python Hv eq_refl eq_refl eq_refl eq_refl)
    as (_ & Hb & Hl & _).
  - vm_compute. reflexivity.
  - reflexivity.
  - rewrite Hb, Hl. split; reflexivity.
Defined.

(** X7.  A start by the owner, with an update the storage layer accepts
    and [Math.random] in its range: the response says online and carries
    resources with cpu in [1,9] and memory in [5,40]; the row gets status
    online, the new container id, the start time and exactly the sampled
    usage (the trigger has nothing to clamp); three log entries (info,
    info, debug) and one resource sample with the same usage are appended;
    and the unit is registered in [containerStates]. *)
Theorem start_effects w o req user body id :
  verified_call w req user body →
  action body = "start" →
  truthy (botId body) = Some id →
  verifyBotOwnership w user id = true →
  write_error o = None →
  Math_random (random_cpu o) → Math_random (random_memory o) →
  let w' := (bot_manager w o req).1 in
  let resources := simulateResourceUsage (random_cpu o) (random_memory o) in
  let containerId := generateContainerId (randomUUID o) in
  (bot_manager w o req).2 = ok (BRunning "online" containerId resources) ∧
  ((1 <= cpu resources)%Q ∧ (cpu resources <= 9)%Q ∧
   (5 <= memory resources)%Q ∧ (memory resources <= 40)%Q) ∧
  (∃ b', b' ∈ bots w' ∧ b_id b' = id ∧ b_user_id b' = u_id user) ∧
  (∀ b', b' ∈ bots w' → b_id b' = id → b_user_id b' = u_id user →
         b_status b' = online ∧
         b_container_id b' = Some containerId ∧
         b_last_started_at b' = Some (now o) ∧
         b_cpu_usage b' = Some (cpu resources) ∧
         b_memory_usage b' = Some (memory resources)) ∧
  map l_level (bot_logs w') = map l_level (bot_logs w) ++ ["info"; "info"; "debug"] ∧
  resource_history w' =
    resource_history w ++
    [ mkSample id (cpu resources) (memory resources) (now o) ] ∧
  containerStates w' !! id =
    Some (mkContainerState containerId "running" (now o)
                           (cpu resources) (memory resources)).
Proof.
  intros Hv Ha Hid Hown Hw H1 H2. cbv zeta.
  destruct (simulateResourceUsage_range _ _ H1 H2)
    as [[Hc1 Hc9] [Hm5 Hm40]].
  rewrite (bot_manager_verified _ _ _ _ _ Hv). unfold dispatch.
  rewrite Ha. simpl. unfold start. rewrite Hid, Hown. simpl.
  destruct (update_bots _ _ _ _ _ _) as [msg|tbl] eqn:E;
    [by rewrite Hw in E|].
  rewrite Hw in E. simpl.
  split; [done|]. split; [done|].
  destruct (verifyBotOwnership_true _ _ _ Hown) as [b Hb].
  set (w0 := set_containerStates w
         (<[id:=mkContainerState (generateContainerId (randomUUID o))
                  "running" (now o)
                  (cpu (simulateResourceUsage (random_cpu o) (random_memory o)))
                  (memory (simulateResourceUsage (random_cpu o)
                                                 (random_memory o)))]>
            (containerStates w))) in *.
  split; [|split; [|split; [|split]]].
  - pose proof (update_bots_own_rows w0 user _ _ _ _ b E Hb) as Hrows.
    match type of Hrows with
    | _ = [?r] =>
        assert (Hin : r ∈ own_rows (set_bots w0 tbl) user id)
          by (rewrite Hrows; apply list_elem_of_here)
    end.
    apply elem_of_own_rows in Hin as (Hin & Hi & Hu). eauto.
  - intros b' Hb' Hi Hu.
    destruct (update_bots_owned_row w0 user _ _ _ _ b' E Hb' Hi Hu)
      as (b0 & _ & ->).
    assert (H10 : (cpu (simulateResourceUsage (random_cpu o)
                     (random_memory o)) <= 10)%Q)
      by (eapply Qle_trans; [exact Hc9|done]).
    assert (H50 : (memory (simulateResourceUsage (random_cpu o)
                     (random_memory o)) <= 50)%Q)
      by (eapply Qle_trans; [exact Hm40|done]).
    destruct (update_row_usage (now o)
                (mkPatch (Some online)
                   (Some (generateContainerId (randomUUID o))) (Some (now o))
                   (Some (cpu (simulateResourceUsage (random_cpu o)
                                                     (random_memory o))))
                   (Some (memory (simulateResourceUsage (random_cpu o)
                                                        (random_memory o))))
                   None) b0 _ _ eq_refl eq_refl H10 H50)
      as [Hcu Hmu].
    split; [done|]. split; [done|]. split; [done|].
    split; [exact Hcu | exact Hmu].
  - rewrite !map_app. simpl. by rewrite <- !app_assoc.
  - done.
  - apply lookup_insert_eq.
Qed.

Lemma start_effects_witness :
  (bot_manager example_world example_oracle
     (request_of "Bearer alice" "start" (Some "a3"))).2
  = ok (BRunning "online" "nexus-0123456789ab" (mkResources (50 # 10) (167 # 10))).
Proof.
  destruct (start_effects example_world example_oracle
              (request_of "Bearer alice" "start" (Some "a3")) alice _ "a3"
              (alice_verified_call example_world "start" (Some "a3") eq_refl)
              eq_refl eq_refl eq_refl eq_refl) as (H & _).
  - split; [discriminate | reflexivity].
  - split; [discriminate | reflexivity].
  - rewrite H. reflexivity.
Defined.

Lemma own_rows_ids w user id b : b ∈ own_rows w user id → b_id b = id.
Proof. by intros (_ & ? & _)%elem_of_own_rows. Qed.

Lemma deleted_rows_eq w user id :
  filter (λ b, bot_deleted (as_user (u_id user)) id b) (bots w)
  = own_rows w user id.
Proof.
  unfold own_rows, select_bots. rewrite list_filter_filter.
  apply list_filter_iff. intros b. unfold bot_deleted. simpl.
  rewrite andb_True, !bool_decide_spec. tauto.
Qed.

(** X8.  A delete by the owner that the storage layer accepts removes the
    caller's row with that id from [bots] and, by the cascade, exactly the
    env vars, log entries and resource samples of that bot id; every
    other row of the four tables stays, in order; the unit is dropped from
    [containerStates]. *)
Theorem delete_cascades w o req user body id :
  verified_call w req user body →
  action body = "delete" →
  truthy (botId body) = Some id →
  verifyBotOwnership w user id = true →
  write_error o = None →
  let w' := (bot_manager w o req).1 in
  (bot_manager w o req).2 = ok (BDeleted "Bot deleted successfully") ∧
  bots w' =
    filter (λ b, ¬ (b_user_id b = u_id user ∧ b_id b = id)) (bots w) ∧
  bot_env_vars w' = filter (λ e, ev_bot_id e ≠ id) (bot_env_vars w) ∧
  bot_logs w' = filter (λ l, l_bot_id l ≠ id) (bot_logs w) ∧
  resource_history w' = filter (λ s, rh_bot_id s ≠ id) (resource_history w) ∧
  containerStates w' !! id = None.
Proof.
  intros Hv Ha Hid Hown Hw. cbv zeta.
  rewrite (bot_manager_verified _ _ _ _ _ Hv). unfold dispatch.
  rewrite Ha. simpl. unfold delete_bot. rewrite Hid, Hown. simpl.
  unfold delete_bots. rewrite Hw. simpl.
  destruct (verifyBotOwnership_true _ _ _ Hown) as [b Hb].
  rewrite deleted_rows_eq, Hb. simpl.
  assert (Hbid : b_id b = id).
  { apply (own_rows_ids w user). rewrite Hb. apply list_elem_of_here. }
  rewrite Hbid.
  split; [done|]. split; [|split; [|split; [|split]]].
  - apply list_filter_iff. intros b0. unfold bot_deleted. simpl.
    rewrite andb_True, !bool_decide_spec. tauto.
  - apply list_filter_iff. intros e. by rewrite list_elem_of_singleton.
  - apply list_filter_iff. intros l. by rewrite list_elem_of_singleton.
  - apply list_filter_iff. intros s. by rewrite list_elem_of_singleton.
  - apply lookup_delete_eq.
Qed.

Lemma delete_cascades_witness :
  map b_id (bots (bot_manager example_world example_oracle
                    (request_of "Bearer alice" "delete" (Some "a1"))).1)
  = ["a2"; "b1"; "a3"] ∧
  map rh_bot_id (resource_history
                   (bot_manager example_world example_oracle
                      (request_of "Bearer alice" "delete" (Some "a1"))).1)
  = ["b1"].
Proof.
  destruct (delete_cascades example_world example_oracle
              (request_of "Bearer alice" "delete" (Some "a1")) alice _ "a1"
              (alice_verified_call example_world "delete" (Some "a1") eq_refl)
              eq_refl eq_refl eq_refl eq_refl) as (_ & Hb & _ & _ & Hr & _).
  rewrite Hb, Hr. split; reflexivity.
Defined.

(** X9.  A status request by the owner returns the stored row unchanged
    and writes nothing when the bot is not online; when it is online (and
    the update is accepted, [Math.random] in its range) it returns the row
    with a fresh usage, cpu in [1,9] and memory in [5,40], stores that
    usage on the row, appends one resource sample carrying it and no log
    entry. *)
Theorem status_resamples_online_only w o req user body id b :
  verified_call w req user body →
  action body = "status" →
  truthy (botId body) = Some id →
  own_rows w user id = [b] →
  (b_status b ≠ online →
     bot_manager w o req = (w, ok (BStatus (Some b)))) ∧
  (b_status b = online → write_error o = None →
   Math_random (random_cpu o) → Math_random (random_memory o) →
   let w' := (bot_manager w o req).1 in
   let resources := simulateResourceUsage (random_cpu o) (random_memory o) in
   (∃ b', (bot_manager w o req).2 = ok (BStatus (Some b')) ∧
          b_id b' = id ∧ b_status b' = online ∧
          b_cpu_usage b' = Some (cpu resources) ∧
          b_memory_usage b' = Some (memory resources)) ∧
   ((1 <= cpu resources)%Q ∧ (cpu resources <= 9)%Q ∧
    (5 <= memory resources)%Q ∧ (memory resources <= 40)%Q) ∧
   (∀ b', b' ∈ bots w' → b_id b' = id → b_user_id b' = u_id user →
          b_status b' = online ∧
          b_cpu_usage b' = Some (cpu resources) ∧
          b_memory_usage b' = Some (memory resources)) ∧
   resource_history w' =
     resource_history w ++
     [ mkSample id (cpu resources) (memory resources) (now o) ] ∧
   bot_logs w' = bot_logs w).
Proof.
  intros Hv Ha Hid Hb.
  assert (Hbid : b_id b = id).
  { apply (own_rows_ids w user). rewrite Hb. apply list_elem_of_here. }
  rewrite (bot_manager_verified _ _ _ _ _ Hv). unfold dispatch.
  rewrite Ha. simpl. unfold status.
  rewrite Hid, (verifyBotOwnership_single _ _ _ _ Hb).
  fold (own_rows w user id). rewrite Hb. cbn [negb single]. cbv iota.
  split.
  - intros Hoff. by rewrite bool_decide_eq_false_2.
  - intros Hon Hw H1 H2. rewrite bool_decide_eq_true_2 by done. cbv zeta.
    destruct (simulateResourceUsage_range _ _ H1 H2)
      as [[Hc1 Hc9] [Hm5 Hm40]].
    rewrite Hw.
    destruct (update_bots _ _ None _ _ _) as [msg|tbl] eqn:E; [done|].
    split; [|split; [done|split; [|done]]].
    + eexists. split; [reflexivity|]. by rewrite Hon.
    + intros b' Hb' Hi Hu.
      destruct (update_bots_owned_row w user _ _ _ _ b' E Hb' Hi Hu)
        as (b0 & Hb0 & ->).
      assert (b0 ∈ own_rows w user id) as Hin by (by apply elem_of_own_rows).
      rewrite Hb in Hin. apply list_elem_of_singleton in Hin as ->.
      destruct (update_row_usage (now o)
                  (mkPatch None None None
                     (Some (cpu (simulateResourceUsage (random_cpu o)
                                                       (random_memory o))))
                     (Some (memory (simulateResourceUsage (random_cpu o)
                                                          (random_memory o))))
                     None) b _ _ eq_refl eq_refl)
        as [Hcu Hmu].
      * eapply Qle_trans; [exact Hc9|done].
      * eapply Qle_trans; [exact Hm40|done].
      * split; [exact Hon|]. split; [exact Hcu | exact Hmu].
Qed.

Lemma status_resamples_online_only_witness :
  resource_history
    (bot_manager example_world example_oracle
       (request_of "Bearer alice" "status" (Some "a1"))).1
  = resource_history example_world ++
    [ mkSample "a1" (50 # 10) (167 # 10) 1766710000000 ] ∧
  bot_manager example_world example_oracle
    (request_of "Bearer alice" "status" (Some "a2"))
  = (example_world,
     ok (BStatus (Some (example_bot "a2" "alice" stopped 0 0)))).
Proof.
  destruct (status_resamples_online_only example_world example_oracle
              (request_of "Bearer alice" "status" (Some "a1")) alice _ "a1"
              (example_bot "a1" "alice" online (21 # 10) (123 # 10))
              (alice_verified_call example_world "status" (Some "a1") eq_refl)
              eq_refl eq_refl eq_refl) as [_ Hon].
  destruct (Hon eq_refl eq_refl) as (_ & _ & _ & Hr & _).
  { split; [discriminate | reflexivity]. }
  { split; [discriminate | reflexivity]. }
  destruct (status_resamples_online_only example_world example_oracle
              (request_of "Bearer alice" "status" (Some "a2")) alice _ "a2"
              (example_bot "a2" "alice" stopped 0 0)
              (alice_verified_call example_world "status" (Some "a2") eq_refl)
              eq_refl eq_refl eq_refl) as [Hoff _].
  split; [exact Hr | apply Hoff; discriminate].
Defined.

(** X10.  When the storage layer refuses the write of start, stop, restart
    or delete by the owner, the answer is 500 with the error's message;
    [bots], [bot_env_vars] and [resource_history] are left as they were;
    no log entry is written, except the "Restarting bot..." entry of
    restart, which is written before the update is tried. *)
Theorem refused_write_is_reported w o req user body id msg :
  verified_call w req user body →
  action body ∈ ["start"; "stop"; "restart"; "delete"] →
  truthy (botId body) = Some id →
  verifyBotOwnership w user id = true →
  write_error o = Some msg →
  let w' := (bot_manager w o req).1 in
  (bot_manager w o req).2 = mkResponse 500 (BError msg) ∧
  bots w' = bots w ∧
  bot_env_vars w' = bot_env_vars w ∧
  resource_history w' = resource_history w ∧
  bot_logs w' =
    bot_logs w ++
    (if bool_decide (action body = "restart")
     then [mkLog id "info" "Restarting bot..." (now o)] else []).
Proof.
  intros Hv Ha Hid Hown Hw. cbv zeta.
  rewrite (bot_manager_verified _ _ _ _ _ Hv). unfold dispatch.
  repeat (apply elem_of_cons in Ha as [->|Ha]);
    [..|by apply elem_of_nil in Ha]; simpl;
    unfold start, stop, restart, delete_bot, delete_bots, update_bots;
    rewrite Hid, Hown, Hw; simpl; by rewrite ?app_nil_r.
Qed.

Lemma refused_write_is_reported_witness :
  bot_logs
    (bot_manager example_world
       (mkOracle (1 # 2) (1 # 3) "0123456789abcdef0123" "c1" 1766710000000
                 false (Some "connection lost"))
       (request_of "Bearer alice" "restart" (Some "a1"))).1
  = [mkLog "a1" "info" "Restarting bot..." 1766710000000] ∧
  (bot_manager example_world
     (mkOracle (1 # 2) (1 # 3) "0123456789abcdef0123" "c1" 1766710000000
               false (Some "connection lost"))
     (request_of "Bearer alice" "restart" (Some "a1"))).2
  = mkResponse 500 (BError "connection lost").
Proof.
  destruct (refused_write_is_reported example_world
              (mkOracle (1 # 2) (1 # 3) "0123456789abcdef0123" "c1"
                        1766710000000 false (Some "connection lost"))
              (request_of "Bearer alice" "restart" (Some "a1")) alice _ "a1"
              "connection lost"
              (alice_verified_call example_world "restart" (Some "a1") eq_refl))
    as (H1 & _ & _ & _ & H2).
  - repeat constructor.
  - reflexivity.
  - reflexivity.
  - reflexivity.
  - rewrite H2. split; [reflexivity | exact H1].
Defined.

(** ** Ownership and the primary key *)

Lemma at_most_one_row_per_id (tbl : list BotRow) (id : string) :
  NoDup (map b_id tbl) → (length (filter (λ b, b_id b = id) tbl) ≤ 1)%nat.
Proof.
  induction tbl as [|b tbl IH]; [simpl; lia|]. cbn [map].
  intros [Hnotin Hnd]%NoDup_cons. rewrite filter_cons.
  destruct (decide (b_id b = id)) as [E|E]; [|by apply IH].
  destruct (filter (λ b, b_id b = id) tbl) as [|b2 l] eqn:Ef; [simpl; lia|].
  exfalso. apply Hnotin.
  assert (Hin : b2 ∈ filter (λ b, b_id b = id) tbl)
    by (rewrite Ef; apply list_elem_of_here).
  apply list_elem_of_filter in Hin as [Hid Hin]. rewrite E, <- Hid.
  by apply list_elem_of_fmap_2.
Qed.

(** X11.  With ids unique in [bots], [verifyBotOwnership] answers true
    exactly when the table holds a row with that id owned by the caller. *)
Theorem verifyBotOwnership_iff w user id :
  unique_ids w →
  verifyBotOwnership w user id = true ↔
  ∃ b, b ∈ bots w ∧ b_id b = id ∧ b_user_id b = u_id user.
Proof.
  intros Hnd. split.
  - intros [b Hb]%verifyBotOwnership_true. exists b.
    apply elem_of_own_rows. rewrite Hb. apply list_elem_of_here.
  - intros (b & Hb & Hid & Hu).
    assert (Hin : b ∈ own_rows w user id) by (by apply elem_of_own_rows).
    assert (Hlen : (length (own_rows w user id) ≤ 1)%nat).
    { unfold own_rows, select_bots. rewrite list_filter_filter.
      etrans; [|apply (at_most_one_row_per_id (bots w) id Hnd)].
      rewrite <- (list_filter_filter_l (λ b, b_id b = id ∧ _)
                    (λ b, b_id b = id)) by tauto.
      apply length_filter. }
    destruct (own_rows w user id) as [|b1 [|b2 l]] eqn:E.
    + by apply elem_of_nil in Hin.
    + by apply (verifyBotOwnership_single _ _ _ b1).
    + simpl in Hlen. lia.
Qed.

Lemma example_world_unique_ids : unique_ids example_world.
Proof.
  unfold unique_ids. apply (bool_decide_unpack _). by vm_compute.
Qed.

Lemma verifyBotOwnership_iff_witness :
  verifyBotOwnership example_world alice "b1" = true ↔
  ∃ b, b ∈ bots example_world ∧ b_id b = "b1" ∧ b_user_id b = u_id alice.
Proof.
  exact (verifyBotOwnership_iff example_world alice "b1"
           example_world_unique_ids).
Defined.

(** ** Repeating an update *)

Lemma clamp_above_idem (limit : Q) (v : option Q) :
  clamp_above limit (clamp_above limit v) = clamp_above limit v.
Proof.
  destruct v as [x|]; [|done]. unfold clamp_above.
  destruct (Qgtb x limit) eqn:E; [|by rewrite E].
  by rewrite (proj2 (Qgtb_false limit limit) (Qle_refl limit)).
Qed.

Lemma update_row_twice t1 t2 p b :
  update_row t2 p (update_row t1 p b) = update_row t2 p b.
Proof.
  rewrite !update_row_fields. unfold apply_patch. simpl.
  destruct (p_status p), (p_container_id p), (p_cpu_usage p),
    (p_memory_usage p), (p_uptime_seconds p), (p_last_started_at p);
    simpl; by rewrite ?clamp_above_idem.
Qed.

Lemma update_bots_twice c t1 t2 id p tbl tbl1 :
  update_bots c t1 None id p tbl = inr tbl1 →
  update_bots c t2 None id p tbl1 = update_bots c t2 None id p tbl.
Proof.
  unfold update_bots. intros [= <-]. f_equal. rewrite map_map.
  apply map_ext. intros b.
  destruct (bot_visible c b && bool_decide (b_id b = id)) eqn:E; [|by rewrite E].
  assert (E' : bot_visible c (update_row t1 p b)
               && bool_decide (b_id (update_row t1 p b) = id) = true)
    by (by destruct c).
  rewrite E'. apply update_row_twice.
Qed.

Lemma stop_succeeds w o req user body id :
  verified_call w req user body →
  action body = "stop" →
  truthy (botId body) = Some id →
  verifyBotOwnership w user id = true →
  write_error o = None →
  ∃ tbl,
    update_bots (as_user (u_id user)) (now o) None id
      (mkPatch (Some stopped) None None (Some 0%Q) (Some 0%Q) None) (bots w)
      = inr tbl ∧
    bot_manager w o req =
      (addLog (now o) id "info" "Container terminated gracefully"
         (addLog (now o) id "info" "Bot stopped"
            (set_bots (set_containerStates w (delete id (containerStates w)))
                      tbl)),
       ok (BStopped "stopped")).
Proof.
  intros Hv Ha Hid Hown Hw. eexists. split; [reflexivity|].
  rewrite (bot_manager_verified _ _ _ _ _ Hv). unfold dispatch.
  rewrite Ha. simpl. unfold stop. by rewrite Hid, Hown, Hw.
Qed.

(** X12.  Stop can be repeated: a second stop by the owner right after a
    first one succeeds again and leaves [bots] as a single stop at the
    later time would have left it (status stopped, usage 0 and 0); what
    is not idempotent is the log, which gets two entries per stop. *)
Theorem stop_twice w o1 o2 req user body id :
  verified_call w req user body →
  action body = "stop" →
  truthy (botId body) = Some id →
  verifyBotOwnership w user id = true →
  write_error o1 = None → write_error o2 = None →
  let w1 := (bot_manager w o1 req).1 in
  let w2 := (bot_manager w1 o2 req).1 in
  (bot_manager w1 o2 req).2 = ok (BStopped "stopped") ∧
  bots w2 = bots (bot_manager w o2 req).1 ∧
  length (bot_logs w2) = (length (bot_logs w) + 4)%nat.
Proof.
  intros Hv Ha Hid Hown Hw1 Hw2. cbv zeta.
  destruct (stop_succeeds w o1 req user body id Hv Ha Hid Hown Hw1)
    as (tbl1 & E1 & ->).
  destruct (stop_succeeds w o2 req user body id Hv Ha Hid Hown Hw2)
    as (tbl2 & E2 & ->).
  cbn [fst snd].
  set (w1 := addLog (now o1) id "info" "Container terminated gracefully" _).
  assert (Hv1 : verified_call w1 req user body)
    by (by apply (verified_call_sessions w)).
  destruct (verifyBotOwnership_true _ _ _ Hown) as [b Hb].
  assert (Hown1 : verifyBotOwnership w1 user id = true).
  { eapply verifyBotOwnership_single.
    exact (update_bots_own_rows
             (set_containerStates w (delete id (containerStates w)))
             user _ _ _ _ b E1 Hb). }
  destruct (stop_succeeds w1 o2 req user body id Hv1 Ha Hid Hown1 Hw2)
    as (tbl3 & E3 & ->).
  cbn [fst snd]. split; [done|].
  change (bots w1) with tbl1 in E3.
  rewrite (update_bots_twice _ _ _ _ _ _ _ E1), E2 in E3.
  injection E3 as <-. split; [done|].
  simpl. rewrite !length_app. simpl. lia.
Qed.

Lemma stop_twice_witness :
  (bot_manager
     (bot_manager example_world example_oracle
        (request_of "Bearer alice" "stop" (Some "a1"))).1
     example_oracle (request_of "Bearer alice" "stop" (Some "a1"))).2
  = ok (BStopped "stopped").
Proof.
  exact (proj1 (stop_twice example_world example_oracle example_oracle
                  (request_of "Bearer alice" "stop" (Some "a1")) alice _ "a1"
                  (alice_verified_call example_world "stop" (Some "a1") eq_refl)
                  eq_refl eq_refl eq_refl eq_refl eq_refl)).
Defined.

(** ** More on the heartbeat sweep *)

Lemma beat_one_table t draw w ups bot :
  bots (beat_one t draw (w, ups) bot).1 = bots w ∨
  ∃ c m u,
    bots (beat_one t draw (w, ups) bot).1 =
    map (λ b, if bool_decide (b_id b = b_id bot)
              then update_row t (mkPatch None None None (Some c) (Some m)
                                         (Some u)) b
              else b) (bots w).
Proof.
  unfold beat_one, update_bots. cbv zeta.
  destruct (beat_update_error _).
  - left. destruct (Qgtb _ _); [|done]. by destruct (_ !! _).
  - right. eexists _, _, _. destruct (Qgtb _ _); [|done]. by destruct (_ !! _).
Qed.

Lemma sweep_identity t draw l acc :
  map identity_of (bots (foldl (beat_one t draw) acc l).1) =
  map identity_of (bots acc.1).
Proof.
  revert acc. induction l as [|bot l IH]; intros [w ups]; [done|].
  change (foldl (beat_one t draw) (w, ups) (bot :: l))
    with (foldl (beat_one t draw) (beat_one t draw (w, ups) bot) l).
  rewrite IH.
  destruct (beat_one_table t draw w ups bot) as [->|(c & m & u & ->)]; [done|].
  rewrite map_map. apply map_ext. intros b. by destruct (bool_decide _).
Qed.

Lemma sweep_skips_other_ids t draw l acc b :
  b ∈ bots acc.1 → b_id b ∉ map b_id l →
  b ∈ bots (foldl (beat_one t draw) acc l).1.
Proof.
  revert acc. induction l as [|bot l IH]; intros [w ups] Hb Hid; [done|].
  change (foldl (beat_one t draw) (w, ups) (bot :: l))
    with (foldl (beat_one t draw) (beat_one t draw (w, ups) bot) l).
  cbn [map] in Hid. apply not_elem_of_cons in Hid as [Hne Hid].
  apply IH; [|done].
  destruct (beat_one_table t draw w ups bot) as [->|(c & m & u & ->)]; [done|].
  apply list_elem_of_fmap. exists b. split; [|done].
  by rewrite bool_decide_eq_false_2.
Qed.

Lemma unique_id_same_row (tbl : list BotRow) (b1 b2 : BotRow) :
  NoDup (map b_id tbl) → b1 ∈ tbl → b2 ∈ tbl → b_id b1 = b_id b2 → b1 = b2.
Proof.
  induction tbl as [|b tbl IH]; [by intros _ ?%elem_of_nil|]. cbn [map].
  intros [Hnotin Hnd]%NoDup_cons [->|H1]%elem_of_cons [->|H2]%elem_of_cons E;
    [done| | |by apply IH].
  - destruct Hnotin. rewrite E. by apply list_elem_of_fmap_2.
  - destruct Hnotin. rewrite <- E. by apply list_elem_of_fmap_2.
Qed.

(** X13.  With ids unique in [bots], a heartbeat sweep changes no bot's
    id, owner, name, platform, runtime, status, container id, script,
    start time or creation time, and it keeps the rows and their order:
    it only writes usage, uptime and the update stamp; a bot that is not
    online is not written at all. *)
Theorem sweep_writes_usage_only w t fetch_error draw req :
  unique_ids w →
  map identity_of (bots (bot_heartbeat w t fetch_error draw req).1) =
  map identity_of (bots w) ∧
  ∀ b, b ∈ bots w → b_status b ≠ online →
       b ∈ bots (bot_heartbeat w t fetch_error draw req).1.
Proof.
  intros Hnd. unfold bot_heartbeat.
  destruct (String.eqb _ _); [done|]. destruct fetch_error; [done|].
  cbv zeta. rewrite select_bots_service_role.
  pose proof (sweep_identity t draw
                (filter (λ b, b_status b = online) (bots w)) (w, [])) as Hi.
  pose proof (sweep_skips_other_ids t draw
                (filter (λ b, b_status b = online) (bots w)) (w, [])) as Hs.
  destruct (foldl _ _ _) as [w' ups]. simpl in *. split; [done|].
  intros b Hb Hoff. apply Hs; [done|].
  intros (b' & E & [Hon Hb']%list_elem_of_filter)%list_elem_of_fmap.
  apply Hoff. by rewrite (unique_id_same_row _ _ _ Hnd Hb Hb' E).
Qed.

Lemma sweep_writes_usage_only_witness :
  map b_status (bots (bot_heartbeat example_world 1766710000000 false
                        example_beat (mkRequest "POST" None None)).1)
  = [online; stopped; online; offline].
Proof.
  pose proof (proj1 (sweep_writes_usage_only example_world 1766710000000
                       false example_beat (mkRequest "POST" None None)
                       example_world_unique_ids)) as H.
  apply (f_equal (map (λ i, i.1.1.1.1.2))) in H.
  rewrite !map_map in H. exact H.
Defined.

(** X14.  When every online bot was started at or before the time of the
    sweep (or has no start time), every uptime the sweep reports is the
    whole number of seconds since the start, never negative, and 0 for a
    bot without start time. *)
Theorem sweep_uptime_nonnegative w t draw req :
  String.eqb (method req) "OPTIONS" = false →
  (∀ b s, b ∈ bots w → b_status b = online →
          b_last_started_at b = Some s → s ≤ t) →
  ∃ n ups,
    (bot_heartbeat w t false draw req).2 =
      mkHeartbeatResponse 200 (HSwept n ups) ∧
    ∀ u, u ∈ ups →
      0 ≤ upd_uptime u ∧
      ∃ b, b ∈ bots w ∧ b_status b = online ∧ upd_botId u = b_id b ∧
           upd_uptime u = match b_last_started_at b with
                          | Some s => (t - s) / 1000
                          | None => 0
                          end.
Proof.
  intros Hm Hstart.
  destruct (bot_heartbeat_sweep w t draw req Hm) as [-> _].
  eexists _, _. split; [reflexivity|].
  intros u (b & -> & [Hok [Hon Hb]%list_elem_of_filter]%list_elem_of_filter)
    %list_elem_of_fmap.
  unfold beat_update, beat_uptime. simpl.
  destruct (b_last_started_at b) as [s|] eqn:Es; simpl.
  - split; [apply Z.div_pos; [|lia]; pose proof (Hstart b s Hb Hon Es); lia|].
    exists b. by rewrite Es.
  - rewrite Z.sub_diag. split; [done|]. exists b. by rewrite Es.
Qed.

Lemma sweep_uptime_nonnegative_witness :
  ∃ n ups,
    (bot_heartbeat example_world 1766710000000 false example_beat
       (mkRequest "POST" None None)).2 =
      mkHeartbeatResponse 200 (HSwept n ups) ∧
    ∀ u, u ∈ ups → 0 ≤ upd_uptime u.
Proof.
  destruct (sweep_uptime_nonnegative example_world 1766710000000 example_beat
              (mkRequest "POST" None None) eq_refl) as (n & ups & H & Hu).
  - intros b s Hb _ Hs. simpl in Hb.
    repeat (apply elem_of_cons in Hb as [->|Hb]);
      [..|by apply elem_of_nil in Hb]; injection Hs as <-; lia.
  - exists n, ups. split; [exact H|]. intros u Hin. exact (proj1 (Hu u Hin)).
Defined.

Lemma logMessages_levels (m : Q) (i : nat) (entry : string * string) :
  logMessages m !! i = Some entry → entry.1 = "info" ∨ entry.1 = "debug".
Proof.
  unfold logMessages.
  do 5 (destruct i as [|i]; [intros [= <-]; simpl; auto|]).
  done.
Qed.

Lemma beat_one_logs t draw w ups bot :
  bot_logs (beat_one t draw (w, ups) bot).1 = bot_logs w ∨
  ∃ level message,
    (level = "info" ∨ level = "debug") ∧
    bot_logs (beat_one t draw (w, ups) bot).1 =
    bot_logs w ++ [mkLog (b_id bot) level message t].
Proof.
  unfold beat_one. cbv zeta.
  destruct (update_bots _ _ _ _ _ _); (destruct (Qgtb _ _); [|by left]);
    (destruct (_ !! _) as [entry|] eqn:E; [|by left]);
    right; exists entry.1, entry.2;
    (split; [by eapply logMessages_levels|done]).
Qed.

Lemma sweep_logs t draw l acc :
  ∃ extra,
    bot_logs (foldl (beat_one t draw) acc l).1 = bot_logs acc.1 ++ extra ∧
    (length extra ≤ length l)%nat ∧
    ∀ e, e ∈ extra →
         (l_level e = "info" ∨ l_level e = "debug") ∧ l_created_at e = t ∧
         l_bot_id e ∈ map b_id l.
Proof.
  revert acc. induction l as [|bot l IH]; intros [w ups].
  - exists []. simpl. rewrite app_nil_r. split; [done|]. split; [done|].
    by intros e ?%elem_of_nil.
  - change (foldl (beat_one t draw) (w, ups) (bot :: l))
      with (foldl (beat_one t draw) (beat_one t draw (w, ups) bot) l).
    destruct (IH (beat_one t draw (w, ups) bot)) as (extra & -> & Hlen & Hall).
    destruct (beat_one_logs t draw w ups bot)
      as [->|(level & message & Hlv & ->)].
    + exists extra. split; [done|]. split; [simpl; lia|].
      intros e He. destruct (Hall e He) as (? & ? & ?).
      split; [done|]. split; [done|]. cbn [map]. by apply list_elem_of_further.
    + exists (mkLog (b_id bot) level message t :: extra).
      split; [by rewrite <- app_assoc|]. split; [simpl; lia|].
      intros e [->|He]%elem_of_cons.
      * split; [done|]. split; [done|]. cbn [map]. apply list_elem_of_here.
      * destruct (Hall e He) as (? & ? & ?).
        split; [done|]. split; [done|]. cbn [map].
        by apply list_elem_of_further.
Qed.

(** X15.  A sweep only appends to [bot_logs]: at most one entry per online
    bot, each of level info or debug, stamped with the time of the sweep
    and carrying the id of an online bot; it never writes an env var. *)
Theorem sweep_log_entries w t fetch_error draw req :
  String.eqb (method req) "OPTIONS" = false →
  ∃ extra,
    bot_logs (bot_heartbeat w t fetch_error draw req).1 = bot_logs w ++ extra ∧
    (length extra ≤
     length (filter (λ b, b_status b = online) (bots w)))%nat ∧
    (∀ e, e ∈ extra →
          (l_level e = "info" ∨ l_level e = "debug") ∧ l_created_at e = t ∧
          ∃ b, b ∈ bots w ∧ b_status b = online ∧ l_bot_id e = b_id b) ∧
    bot_env_vars (bot_heartbeat w t fetch_error draw req).1 = bot_env_vars w.
Proof.
  intros Hm. unfold bot_heartbeat. rewrite Hm.
  destruct fetch_error.
  { exists []. simpl. rewrite app_nil_r. split; [done|]. split; [lia|].
    split; [|done]. by intros e ?%elem_of_nil. }
  cbv zeta. rewrite select_bots_service_role.
  destruct (sweep_logs t draw
              (filter (λ b, b_status b = online) (bots w)) (w, []))
    as (extra & Hl & Hlen & Hall).
  assert (Henv : ∀ l acc,
            bot_env_vars (foldl (beat_one t draw) acc l).1
            = bot_env_vars acc.1).
  { induction l as [|bot l IH]; intros [w0 ups]; [done|].
    change (foldl (beat_one t draw) (w0, ups) (bot :: l))
      with (foldl (beat_one t draw) (beat_one t draw (w0, ups) bot) l).
    rewrite IH. unfold beat_one. cbv zeta.
    destruct (update_bots _ _ _ _ _ _); (destruct (Qgtb _ _); [|done]);
      by destruct (_ !! _). }
  specialize (Henv (filter (λ b, b_status b = online) (bots w)) (w, [])).
  destruct (foldl _ _ _) as [w' ups]. simpl in *.
  exists extra. split; [done|]. split; [done|]. split; [|done].
  intros e He. destruct (Hall e He) as (Hlv & Ht & Hid).
  split; [done|]. split; [done|].
  apply list_elem_of_fmap in Hid as (b & -> & [Hon Hb]%list_elem_of_filter).
  by exists b.
Qed.

Lemma sweep_log_entries_witness :
  bot_logs (bot_heartbeat example_world 1766710000000 false
              (λ _, mkBeat (1 # 10) (9 # 10) None (8 # 10) (1 # 2))
              (mkRequest "POST" None None)).1
  = [ mkLog "a1" "info" "Webhook delivered successfully" 1766710000000;
      mkLog "b1" "info" "Webhook delivered successfully" 1766710000000 ] ∧
  ∃ extra,
    bot_logs (bot_heartbeat example_world 1766710000000 false
                (λ _, mkBeat (1 # 10) (9 # 10) None (8 # 10) (1 # 2))
                (mkRequest "POST" None None)).1
    = bot_logs example_world ++ extra ∧ (length extra ≤ 2)%nat.
Proof.
  split; [reflexivity|].
  destruct (sweep_log_entries example_world 1766710000000 false
              (λ _, mkBeat (1 # 10) (9 # 10) None (8 # 10) (1 # 2))
              (mkRequest "POST" None None) eq_refl)
    as (extra & H & Hlen & _).
  exists extra. split; [exact H | exact Hlen].
Defined.

(** ** More on resource-metrics *)

Lemma list_filter_ext_in {A} (P Q : A → Prop) `{∀ x, Decision (P x)}
  `{∀ x, Decision (Q x)} (l : list A) :
  (∀ x, x ∈ l → P x ↔ Q x) → filter P l = filter Q l.
Proof.
  induction l as [|x l IH]; intros Hext; [done|]. rewrite !filter_cons.
  assert (IH' : filter P l = filter Q l).
  { apply IH. intros y Hy. apply Hext. by apply list_elem_of_further. }
  pose proof (Hext x (list_elem_of_here _ _)) as Hx.
  destruct (decide (P x)), (decide (Q x)); rewrite ?IH'; tauto || done.
Qed.

Lemma resource_metrics_data w o req user n :
  String.eqb (m_method req) "OPTIONS" = false →
  authenticated w (m_authorization req) user →
  userBots_error o = false →
  history_error o = None →
  0 < count_user_bots (bots w) (u_id user) →
  (∀ id, truthy (q_botId req) = Some id →
         ∃ b, b ∈ bots w ∧ b_id b = id ∧ b_user_id b = u_id user) →
  default (integer 24) (q_hours req) = integer n →
  Z.abs (Date_now o - n * 3600000) ≤ 8640000000000000 →
  let botIds := spec_selected_bots w user (truthy (q_botId req)) in
  let currentBots :=
    if currentBots_error o then None
    else Some (filter (λ b, b_id b ∈ botIds)
                 (select_bots (as_user (u_id user)) (bots w))) in
  resource_metrics w o req =
    mkMetricsResponse 200
      (MData (chartData
                (select_history (as_user (u_id user)) w botIds
                   (Date_now o - n * 3600000)))
             (current_stats currentBots) currentBots).
Proof.
  intros Hm (hd & Ha & Hu) Hub Hhe Hc Hown Hn Hrange. cbv zeta.
  unfold resource_metrics. rewrite Hm, Ha, Hu, Hub, Hn. cbv zeta.
  rewrite (cutoffTime_of_in_range _ _ Hrange), Hhe.
  rewrite select_own_bots. unfold count_user_bots in Hc.
  unfold spec_selected_bots.
  destruct (filter (λ b, b_user_id b = u_id user) (bots w))
    as [|b0 rest] eqn:Eown; [simpl in Hc; lia|].
  destruct (truthy (q_botId req)) as [id0|]; [|done].
  rewrite bool_decide_eq_true_2; [done|].
  destruct (Hown id0 eq_refl) as (b & Hb & <- & Hbu).
  apply list_elem_of_fmap. exists b. split; [done|].
  rewrite <- Eown. by apply list_elem_of_filter.
Qed.

(** X16.  A caller who owns at least one bot and asks for the metrics of
    a bot id that is not among the caller's own, whether it belongs to
    someone else or to nobody, is answered 403 "Bot not found or access
    denied". *)
Theorem metrics_of_foreign_bot_denied w o req user id :
  String.eqb (m_method req) "OPTIONS" = false →
  authenticated w (m_authorization req) user →
  userBots_error o = false →
  0 < count_user_bots (bots w) (u_id user) →
  truthy (q_botId req) = Some id →
  (∀ b, b ∈ bots w → b_id b = id → b_user_id b ≠ u_id user) →
  resource_metrics w o req =
    mkMetricsResponse 403 (MError "Bot not found or access denied").
Proof.
  intros Hm (hd & Ha & Hu) Hub Hc Hid Hno.
  unfold resource_metrics. rewrite Hm, Ha, Hu, Hub, Hid. cbv zeta.
  rewrite select_own_bots. unfold count_user_bots in Hc.
  destruct (filter (λ b, b_user_id b = u_id user) (bots w))
    as [|b0 rest] eqn:Eown; [simpl in Hc; lia|].
  rewrite bool_decide_eq_false_2; [done|].
  intros (b & E & Hb)%list_elem_of_fmap. rewrite <- Eown in Hb.
  apply list_elem_of_filter in Hb as [Hbu Hb]. by apply (Hno b).
Qed.

Lemma metrics_of_foreign_bot_denied_witness :
  resource_metrics example_world example_metrics_oracle
    (mkMetricsRequest "GET" (Some "Bearer alice") (Some "b1") None)
  = mkMetricsResponse 403 (MError "Bot not found or access denied").
Proof.
  apply (metrics_of_foreign_bot_denied example_world example_metrics_oracle
           _ alice "b1"); try reflexivity.
  - exists "Bearer alice". split; reflexivity.
  - intros b Hb Hid. simpl in Hb.
    repeat (apply elem_of_cons in Hb as [->|Hb]);
      [..|by apply elem_of_nil in Hb]; discriminate.
Defined.

(** ** The arithmetic of resource-metrics *)

(** *** Binary digits *)

Lemma digits2_pos_size (p : positive) : digits2_pos p = Pos.size p.
Proof. induction p; simpl; by rewrite ?IHp. Qed.

Lemma Zdigits2_pos (p : positive) : Zdigits2 (Zpos p) = Zpos (Pos.size p).
Proof. simpl. by rewrite digits2_pos_size. Qed.

Lemma size_upper (p : positive) : Zpos p < 2 ^ Zpos (Pos.size p).
Proof.
  pose proof (Pos.size_gt p) as H.
  change 2 with (Zpos 2). rewrite <- Pos2Z.inj_pow. lia.
Qed.

Lemma size_lower (p : positive) : 2 ^ (Zpos (Pos.size p) - 1) ≤ Zpos p.
Proof.
  pose proof (Pos.size_le p) as H.
  assert (H2 : 2 ^ Zpos (Pos.size p) ≤ 2 * Zpos p).
  { change 2 with (Zpos 2) at 1. rewrite <- Pos2Z.inj_pow. lia. }
  replace (Zpos (Pos.size p)) with (Zpos (Pos.size p) - 1 + 1) in H2 by lia.
  rewrite Z.pow_add_r in H2 by lia. lia.
Qed.

(** The number of binary digits of a positive number is determined by the
    powers of two around it. *)
Lemma size_unique (p : positive) (k : Z) :
  2 ^ (k - 1) ≤ Zpos p < 2 ^ k → Zpos (Pos.size p) = k.
Proof.
  intros [Hlo Hhi]. pose proof (size_upper p). pose proof (size_lower p).
  assert (0 < k).
  { destruct (decide (0 < k)); [done|]. rewrite Z.pow_neg_r in Hlo by lia.
    assert (k = 0 ∨ k < 0) as [->|?] by lia; [simpl in Hhi; lia|].
    rewrite Z.pow_neg_r in Hhi; lia. }
  destruct (Z.lt_trichotomy (Zpos (Pos.size p)) k) as [Hlt|[?|Hgt]]; [|done|].
  - assert (2 ^ Zpos (Pos.size p) ≤ 2 ^ (k - 1)) by (apply Z.pow_le_mono_r; lia).
    lia.
  - assert (2 ^ k ≤ 2 ^ (Zpos (Pos.size p) - 1)) by (apply Z.pow_le_mono_r; lia).
    lia.
Qed.

Lemma size_le_of_lt (p : positive) (k : Z) :
  0 ≤ k → Zpos p < 2 ^ k → Zpos (Pos.size p) ≤ k.
Proof.
  intros Hk Hlt. pose proof (size_lower p).
  destruct (decide (Zpos (Pos.size p) ≤ k)); [done|].
  assert (2 ^ k ≤ 2 ^ (Zpos (Pos.size p) - 1)) by (apply Z.pow_le_mono_r; lia).
  lia.
Qed.

Lemma size_ge_of_le (p : positive) (k : Z) :
  2 ^ (k - 1) ≤ Zpos p → k ≤ Zpos (Pos.size p).
Proof.
  intros Hle. pose proof (size_upper p).
  destruct (decide (k ≤ Zpos (Pos.size p))); [done|].
  assert (2 ^ Zpos (Pos.size p) ≤ 2 ^ (k - 1)) by (apply Z.pow_le_mono_r; lia).
  lia.
Qed.

(** *** Shifting right *)

Lemma iter_pos_iter {A} (f : A → A) (p : positive) (x : A) :
  SpecFloat.iter_pos f p x = Pos.iter f x p.
Proof.
  revert x. induction p as [p IH|p IH|]; intros x; simpl.
  - by rewrite !IH, <- !Pos.iter_swap.
  - by rewrite !IH.
  - done.
Qed.

Lemma shr_1_spec (mrs : shr_record) :
  0 ≤ shr_m mrs →
  shr_m (shr_1 mrs) = shr_m mrs / 2 ∧
  inexact (shr_1 mrs) = Z.odd (shr_m mrs) || inexact mrs.
Proof.
  destruct mrs as [m r s]. unfold inexact. cbn [shr_m shr_r shr_s].
  intros Hm. destruct m as [|[p|p|]|p]; [| | | |lia];
    cbn [shr_1 shr_m shr_r shr_s].
  - done.
  - split; [|done]. rewrite Pos2Z.inj_xI.
    apply (Z.div_unique _ _ _ 1); lia.
  - split; [|done]. rewrite Pos2Z.inj_xO.
    apply (Z.div_unique _ _ _ 0); lia.
  - done.
Qed.

Lemma shr_iter_spec (p : positive) (mrs : shr_record) :
  0 ≤ shr_m mrs →
  shr_m (Pos.iter shr_1 mrs p) = shr_m mrs / 2 ^ Zpos p ∧
  (inexact (Pos.iter shr_1 mrs p) = true →
   inexact mrs = true ∨ shr_m mrs mod 2 ^ Zpos p ≠ 0).
Proof.
  intros Hm. induction p as [|p IH] using Pos.peano_ind.
  - simpl Pos.iter. destruct (shr_1_spec mrs Hm) as [H1 H2].
    split; [by rewrite H1|]. rewrite H2. intros [Ho|Hi]%orb_true_iff; [|by left].
    right. change (2 ^ 1) with 2. rewrite Zmod_odd, Ho. done.
  - rewrite Pos.iter_succ. destruct IH as [IHm IHi].
    assert (Hk : 0 ≤ shr_m (Pos.iter shr_1 mrs p)).
    { rewrite IHm. apply Z.div_pos; lia. }
    destruct (shr_1_spec _ Hk) as [H1 H2].
    rewrite Pos2Z.inj_succ, Z.pow_succ_r by lia. split.
    + rewrite H1, IHm, Z.div_div by lia. f_equal. lia.
    + rewrite H2. intros [Ho|Hi]%orb_true_iff.
      * right. intros Hmod. rewrite IHm in Ho.
        apply Z.mod_divide in Hmod as [c Hc]; [|lia].
        rewrite Hc in Ho.
        replace (c * (2 * 2 ^ Zpos p)) with (2 * c * 2 ^ Zpos p) in Ho by lia.
        rewrite Z.div_mul in Ho by lia.
        by rewrite Z.odd_mul in Ho.
      * destruct (IHi Hi) as [?|Hmod]; [by left|]. right. intros Hmod2.
        apply Hmod. apply Z.mod_divide in Hmod2 as [c Hc]; [|lia].
        apply Z.mod_divide; [lia|]. exists (c * 2). lia.
Qed.

Lemma inexact_of_loc (m : Z) (l : location) :
  shr_m (shr_record_of_loc m l) = m ∧
  (inexact (shr_record_of_loc m l) = true → l ≠ loc_Exact).
Proof. by destruct l as [|[]]. Qed.

Lemma round_nearest_even_spec (mrs : shr_record) :
  round_nearest_even (shr_m mrs) (loc_of_shr_record mrs) = shr_m mrs ∨
  (round_nearest_even (shr_m mrs) (loc_of_shr_record mrs) = shr_m mrs + 1 ∧
   inexact mrs = true).
Proof.
  destruct mrs as [m [] []]; unfold inexact; simpl; auto.
  destruct (Z.even m); auto.
Qed.

(** What [shr_fexp] yields for a non-negative mantissa: a truncated
    mantissa, and if anything was lost then the record says so. *)
Lemma shr_spec (m e n : Z) (l : location) :
  0 ≤ m → 0 ≤ n →
  ∃ mrs, shr (shr_record_of_loc m l) e n = (mrs, e + n) ∧
         shr_m mrs = m / 2 ^ n ∧
         (inexact mrs = true → l ≠ loc_Exact ∨ m mod 2 ^ n ≠ 0).
Proof.
  intros Hm Hn. destruct (inexact_of_loc m l) as [Hm0 Hl].
  destruct n as [|p|p]; [| |lia].
  - exists (shr_record_of_loc m l). simpl. rewrite Z.add_0_r, Z.div_1_r.
    split; [done|]. split; [done|]. intros Hi. left. by apply Hl.
  - exists (Pos.iter shr_1 (shr_record_of_loc m l) p). unfold shr.
    rewrite iter_pos_iter. split; [done|].
    destruct (shr_iter_spec p (shr_record_of_loc m l)) as [H1 H2];
      [by rewrite Hm0|].
    rewrite Hm0 in H1, H2. split; [done|].
    intros Hi. destruct (H2 Hi) as [?|?]; [left; by apply Hl | by right].
Qed.

(** *** Rounding never passes an integer bound *)

Lemma fexp_eq (e : Z) :
  fexp Number.prec Number.emax e = Z.max (e - 53) (-1074).
Proof. reflexivity. Qed.

Lemma digits_le (m k : Z) : 0 ≤ m → 0 ≤ k → m < 2 ^ k → Zdigits2 m ≤ k.
Proof.
  intros Hm Hk Hlt. destruct m as [|p|p]; [done| |lia].
  rewrite Zdigits2_pos. by apply size_le_of_lt.
Qed.

Lemma pow2_split (a b : Z) : 0 ≤ a → 0 ≤ b → 2 ^ (a + b) = 2 ^ a * 2 ^ b.
Proof. intros. by rewrite Z.pow_add_r. Qed.

Lemma scaled_lt_pow (m B e : Z) :
  e ≤ 0 → 0 < B < 2 ^ 53 → m ≤ B * 2 ^ (- e) → m < 2 ^ (53 - e).
Proof.
  intros He HB Hm. replace (53 - e) with (53 + - e) by lia.
  rewrite pow2_split by lia.
  assert (0 < 2 ^ (- e)) by (apply Z.pow_pos_nonneg; lia). nia.
Qed.

(** Truncating the mantissa by [n] bits keeps it under the bound. *)
Lemma truncated_le (m B e n : Z) :
  0 ≤ n → e + n ≤ 0 → m ≤ B * 2 ^ (- e) →
  m / 2 ^ n ≤ B * 2 ^ (- (e + n)).
Proof.
  intros Hn He Hm. assert (0 < 2 ^ n) by (apply Z.pow_pos_nonneg; lia).
  apply Z.div_le_upper_bound; [done|].
  replace (- e) with (n + - (e + n)) in Hm by lia.
  rewrite pow2_split in Hm by lia. lia.
Qed.

Lemma truncated_lt (m B e n : Z) :
  0 ≤ n → e + n ≤ 0 → m ≤ B * 2 ^ (- e) →
  m < B * 2 ^ (- e) ∨ m mod 2 ^ n ≠ 0 →
  m / 2 ^ n < B * 2 ^ (- (e + n)).
Proof.
  intros Hn He Hm Hs. assert (0 < 2 ^ n) by (apply Z.pow_pos_nonneg; lia).
  replace (- e) with (n + - (e + n)) in Hm, Hs by lia.
  rewrite pow2_split in Hm, Hs by lia.
  apply Z.div_lt_upper_bound; [done|].
  destruct Hs as [?|Hmod]; [lia|].
  destruct (decide (m = 2 ^ n * (B * 2 ^ (- (e + n))))) as [E|?]; [|lia].
  exfalso. apply Hmod. rewrite E, Z.mul_comm. by apply Z.mod_mul, Z.neq_sym, Z.lt_neq.
Qed.

Lemma round_aux_bound (mx ex : Z) (lx : location) (B : Z) :
  0 ≤ mx → ex ≤ 0 → 0 < B < 2 ^ 53 →
  ex ≤ fexp Number.prec Number.emax (Zdigits2 mx + ex) →
  mx ≤ B * 2 ^ (- ex) →
  (lx ≠ loc_Exact → mx < B * 2 ^ (- ex)) →
  at_most (binary_round_aux Number.prec Number.emax false mx ex lx) B.
Proof.
  intros Hmx Hex HB Hpre Hle Hlt. unfold binary_round_aux, shr_fexp.
  set (n := fexp Number.prec Number.emax (Zdigits2 mx + ex) - ex).
  assert (Hn : 0 ≤ n) by (unfold n; lia).
  assert (Hd : Zdigits2 mx + ex ≤ 53).
  { pose proof (digits_le mx (53 - ex) Hmx ltac:(lia)
                  (scaled_lt_pow _ _ _ Hex HB Hle)). lia. }
  assert (He1 : ex + n ≤ 0) by (unfold n; rewrite fexp_eq; lia).
  destruct (shr_spec mx ex n lx Hmx Hn) as (mrs1 & -> & Hm1 & Hi1).
  set (m2 := round_nearest_even (shr_m mrs1) (loc_of_shr_record mrs1)).
  assert (Hm1pos : 0 ≤ shr_m mrs1)
    by (rewrite Hm1; apply Z.div_pos; [done|apply Z.pow_pos_nonneg; lia]).
  assert (Hm2 : 0 ≤ m2 ∧ m2 ≤ B * 2 ^ (- (ex + n))).
  { pose proof (truncated_le mx B ex n Hn He1 Hle) as Hle1.
    destruct (round_nearest_even_spec mrs1) as [E|[E Hi]]; fold m2 in E;
      rewrite E, Hm1.
    - rewrite Hm1 in Hm1pos. lia.
    - rewrite Hm1 in Hm1pos. split; [lia|].
      assert (mx / 2 ^ n < B * 2 ^ (- (ex + n))); [|lia].
      apply truncated_lt; [done..|].
      destruct (Hi1 Hi) as [Hl|Hmod]; [left; by apply Hlt | by right]. }
  destruct Hm2 as [Hm2pos Hm2le].
  set (e1 := ex + n) in *.
  set (n2 := fexp Number.prec Number.emax (Zdigits2 m2 + e1) - e1).
  assert (Hd2 : Zdigits2 m2 + e1 ≤ 53).
  { pose proof (digits_le m2 (53 - e1) Hm2pos ltac:(lia)
                  (scaled_lt_pow _ _ _ He1 HB Hm2le)). lia. }
  assert (Hfinal : ∀ m3 e3, 0 ≤ m3 → e3 ≤ 0 → m3 ≤ B * 2 ^ (- e3) →
            at_most match m3 with
                    | 0 => S754_zero false
                    | Zpos m =>
                        if e3 <=? Number.emax - Number.prec
                        then S754_finite false m e3
                        else S754_infinity false
                    | Zneg _ => S754_nan
                    end B).
  { intros m3 e3 H0 He3 H3. destruct m3 as [|m|m]; [by left| |lia].
    rewrite (proj2 (Z.leb_le _ _)) by (unfold Number.emax, Number.prec; lia).
    right. by exists m, e3. }
  destruct (Z.le_gt_cases 0 n2) as [Hn2|Hn2].
  - destruct (shr_spec m2 e1 n2 loc_Exact Hm2pos Hn2) as (mrs2 & -> & Hm3 & _).
    apply Hfinal.
    + rewrite Hm3. apply Z.div_pos; [done|apply Z.pow_pos_nonneg; lia].
    + unfold n2. rewrite fexp_eq. lia.
    + rewrite Hm3. apply truncated_le; [done| |done].
      unfold n2. rewrite fexp_eq. lia.
  - destruct n2 as [|p|p] eqn:En2; [lia|lia|]. cbn [shr shr_record_of_loc shr_m].
    by apply Hfinal.
Qed.

(** *** Shifting left *)

Lemma iter_xO (m d : positive) :
  Zpos (Pos.iter xO m d) = Zpos m * 2 ^ Zpos d ∧
  Pos.size (Pos.iter xO m d) = (Pos.size m + d)%positive.
Proof.
  induction d as [|d [IH1 IH2]] using Pos.peano_ind.
  - simpl. split; lia.
  - rewrite Pos.iter_succ, Pos2Z.inj_succ, Z.pow_succ_r by lia.
    rewrite Pos2Z.inj_xO, IH1. cbn [Pos.size]. rewrite IH2. split; lia.
Qed.

(** [shl_align] towards a lower exponent keeps the value and makes the
    mantissa longer by the difference. *)
Lemma shl_align_spec (m : positive) (e e' : Z) :
  ∃ mz ez, shl_align m e e' = (mz, ez) ∧
           ez = Z.min e e' ∧
           Zpos mz = Zpos m * 2 ^ (e - ez) ∧
           Zpos (Pos.size mz) = Zpos (Pos.size m) + (e - ez).
Proof.
  unfold shl_align. destruct (e' - e) as [|d|d] eqn:Ed.
  - exists m, e. replace (Z.min e e') with e by lia.
    rewrite Z.sub_diag. split; [done|]. split; [done|]. split; simpl; lia.
  - exists m, e. replace (Z.min e e') with e by lia.
    rewrite Z.sub_diag. split; [done|]. split; [done|]. split; simpl; lia.
  - exists (Pos.iter xO m d), e'. replace (Z.min e e') with e' by lia.
    destruct (iter_xO m d) as [H1 H2]. replace (e - e') with (Zpos d) by lia.
    split; [done|]. split; [done|]. split; [done|]. rewrite H2. lia.
Qed.

Lemma binary_round_bound (m : positive) (e B : Z) :
  e ≤ 0 → 0 < B < 2 ^ 53 → Zpos m ≤ B * 2 ^ (- e) →
  at_most (binary_round Number.prec Number.emax false m e) B.
Proof.
  intros He HB Hm. unfold binary_round.
  destruct (shl_align_spec m e
              (fexp Number.prec Number.emax (Zpos (digits2_pos m) + e)))
    as (mz & ez & -> & Hez & Hmz & Hsz).
  rewrite digits2_pos_size in Hez.
  assert (0 ≤ e - ez) by lia.
  apply round_aux_bound; [lia|lia|done| | |done].
  - rewrite Zdigits2_pos, Hsz.
    replace (Zpos (Pos.size m) + (e - ez) + ez) with (Zpos (Pos.size m) + e)
      by lia.
    lia.
  - rewrite Hmz. replace (- ez) with (- e + (e - ez)) by lia.
    rewrite pow2_split by lia.
    assert (0 < 2 ^ (e - ez)) by (apply Z.pow_pos_nonneg; lia). nia.
Qed.

(** *** Integers *)

(** A positive integer below 2^53 is a Number, with no rounding. *)
Lemma of_Z_exact (k : Z) :
  0 < k < 2 ^ 53 →
  ∃ m e, Number.of_Z k = S754_finite false m e ∧
         e ≤ 0 ∧ Zpos m = k * 2 ^ (- e) ∧ Zpos (Pos.size m) = 53.
Proof.
  intros [Hk0 Hk]. destruct k as [|p|p]; [lia| |lia].
  unfold Number.of_Z, binary_normalize, binary_round.
  pose proof (size_le_of_lt p 53 ltac:(lia) Hk) as Hs.
  destruct (shl_align_spec p 0
              (fexp Number.prec Number.emax (Zpos (digits2_pos p) + 0)))
    as (mz & ez & -> & Hez & Hmz & Hsz).
  rewrite digits2_pos_size, fexp_eq in Hez.
  assert (Eez : ez = Zpos (Pos.size p) - 53) by lia.
  exists mz, ez. split.
  - unfold binary_round_aux, shr_fexp.
    rewrite Zdigits2_pos, Hsz, fexp_eq.
    replace (Z.max (Zpos (Pos.size p) + (0 - ez) + ez - 53) (-1074) - ez)
      with 0 by lia.
    cbn [shr shr_record_of_loc shr_m loc_of_shr_record round_nearest_even].
    rewrite Zdigits2_pos, Hsz, fexp_eq.
    replace (Z.max (Zpos (Pos.size p) + (0 - ez) + ez - 53) (-1074) - ez)
      with 0 by lia.
    cbn [shr shr_record_of_loc shr_m].
    by rewrite (proj2 (Z.leb_le _ _))
      by (unfold Number.emax, Number.prec; lia).
  - split; [lia|]. split; [|lia]. rewrite Hmz. by rewrite Z.sub_0_l.
Qed.

Lemma of_Z_at_most (k B : Z) : 0 < k ≤ B → B < 2 ^ 53 → at_most (Number.of_Z k) B.
Proof.
  intros Hk HB. destruct (of_Z_exact k) as (m & e & -> & He & Hm & _); [lia|].
  right. exists m, e. split; [done|]. split; [done|]. rewrite Hm.
  assert (0 < 2 ^ (- e)) by (apply Z.pow_pos_nonneg; lia). nia.
Qed.

Lemma at_most_mono (x : Number.t) (A B : Z) : at_most x A → A ≤ B → at_most x B.
Proof.
  intros [->|(m & e & -> & He & Hm)] HAB; [by left|]. right.
  exists m, e. split; [done|]. split; [done|].
  assert (0 < 2 ^ (- e)) by (apply Z.pow_pos_nonneg; lia). nia.
Qed.

(** *** Addition *)

Lemma add_at_most (x y : Number.t) (A B : Z) :
  at_most x A → at_most y B → 0 ≤ A → 0 ≤ B → A + B < 2 ^ 53 →
  at_most (Number.add x y) (A + B).
Proof.
  intros [->|(mx & ex & -> & Hex & Hmx)] [->|(my & ey & -> & Hey & Hmy)]
         HA HB HAB.
  - by left.
  - right. exists my, ey. split; [done|]. split; [done|].
    assert (0 < 2 ^ (- ey)) by (apply Z.pow_pos_nonneg; lia). nia.
  - right. exists mx, ex. split; [done|]. split; [done|].
    assert (0 < 2 ^ (- ex)) by (apply Z.pow_pos_nonneg; lia). nia.
  - unfold Number.add, SFadd. cbv zeta.
    destruct (shl_align_spec mx ex (Z.min ex ey))
      as (mx' & ex' & -> & Hex' & Hmx' & _).
    destruct (shl_align_spec my ey (Z.min ex ey))
      as (my' & ey' & -> & Hey' & Hmy' & _).
    cbn [fst cond_Zopp].
    assert (ex' = Z.min ex ey) as -> by lia.
    assert (ey' = Z.min ex ey) as -> by lia. clear Hex' Hey'.
    set (ez := Z.min ex ey) in *.
    change (Zpos mx' + Zpos my') with (Zpos (mx' + my')).
    assert (0 < 2 ^ (- ex)) by (apply Z.pow_pos_nonneg; lia).
    assert (0 < 2 ^ (- ey)) by (apply Z.pow_pos_nonneg; lia).
    assert (0 < A) by nia.
    unfold binary_normalize. apply binary_round_bound; [lia|lia|].
    assert (0 < 2 ^ (ex - ez)) by (apply Z.pow_pos_nonneg; lia).
    assert (0 < 2 ^ (ey - ez)) by (apply Z.pow_pos_nonneg; lia).
    assert (E1 : 2 ^ (- ez) = 2 ^ (- ex) * 2 ^ (ex - ez)).
    { rewrite <- pow2_split by lia. f_equal. lia. }
    assert (E2 : 2 ^ (- ez) = 2 ^ (- ey) * 2 ^ (ey - ez)).
    { rewrite <- pow2_split by lia. f_equal. lia. }
    rewrite Pos2Z.inj_add, Hmx', Hmy', Z.mul_add_distr_r.
    apply Z.add_le_mono; [rewrite E1 | rewrite E2];
      rewrite Z.mul_assoc; apply Z.mul_le_mono_nonneg_r; lia.
Qed.

(** *** Multiplication by an integer *)

Lemma mul_at_most (x : Number.t) (A k : Z) :
  at_most x A → 0 ≤ A → 0 < k → k < 2 ^ 53 → A * k < 2 ^ 53 →
  at_most (Number.mul x (Number.of_Z k)) (A * k).
Proof.
  intros Hx HA Hk Hk53 HAk.
  destruct (of_Z_exact k) as (my & ey & -> & Hey & Hmy & Hsy); [lia|].
  destruct Hx as [->|(mx & ex & -> & Hex & Hmx)]; [by left|].
  unfold Number.mul, SFmul. cbn [xorb].
  assert (0 < 2 ^ (- ex)) by (apply Z.pow_pos_nonneg; lia).
  assert (0 < 2 ^ (- ey)) by (apply Z.pow_pos_nonneg; lia).
  assert (0 < A) by nia.
  apply round_aux_bound; [lia|lia|nia| | |done].
  - change (Zpos (mx * my)) with (Zpos mx * Zpos my).
    assert (Hs : Zpos (Pos.size mx) + 52 ≤ Zpos (Pos.size (mx * my))).
    { apply size_ge_of_le. pose proof (size_lower mx). pose proof (size_lower my).
      rewrite Hsy in *. rewrite Pos2Z.inj_mul.
      replace (Zpos (Pos.size mx) + 52 - 1) with (Zpos (Pos.size mx) - 1 + 52)
        by lia.
      rewrite pow2_split by lia. change (53 - 1) with 52 in *.
      apply Z.mul_le_mono_nonneg; lia. }
    change (Zpos mx * Zpos my) with (Zpos (mx * my)).
    rewrite Zdigits2_pos, fexp_eq. lia.
  - rewrite Pos2Z.inj_mul, Hmy.
    replace (- (ex + ey)) with (- ex + - ey) by lia.
    rewrite pow2_split by lia.
    replace (A * k * (2 ^ (- ex) * 2 ^ (- ey)))
      with (A * 2 ^ (- ex) * (k * 2 ^ (- ey))) by lia.
    apply Z.mul_le_mono_nonneg_r; [nia|done].
Qed.

(** *** Division *)

Lemma new_location_exact (n k : Z) : new_location n k ≠ loc_Exact → k ≠ 0.
Proof.
  intros H ->. apply H. unfold new_location, new_location_even,
    new_location_odd. by destruct (Z.even n).
Qed.

Lemma div_at_most (mx my : positive) (ex ey B : Z) :
  0 < B < 2 ^ 53 →
  Zpos mx * 2 ^ Z.max 0 (ex - ey) ≤ B * Zpos my * 2 ^ Z.max 0 (ey - ex) →
  at_most (Number.div (S754_finite false mx ex) (S754_finite false my ey)) B.
Proof.
  intros HB Hle. unfold Number.div, SFdiv, SFdiv_core_binary. cbv zeta.
  cbn [xorb]. rewrite !Zdigits2_pos.
  set (d1 := Zpos (Pos.size mx)). set (d2 := Zpos (Pos.size my)).
  set (D := d1 + ex - (d2 + ey)).
  set (e' := Z.min (fexp Number.prec Number.emax D) (ex - ey)).
  set (s := ex - ey - e').
  assert (Hs : 0 ≤ s) by (unfold s, e'; lia).
  pose proof (size_lower mx) as Hx1. pose proof (size_upper mx) as Hx2.
  pose proof (size_lower my) as Hy1. pose proof (size_upper my) as Hy2.
  fold d1 in Hx1, Hx2. fold d2 in Hy1, Hy2.
  assert (Hd1 : 0 < d1) by (unfold d1; lia).
  assert (Hd2 : 0 < d2) by (unfold d2; lia).
  set (a := Z.max 0 (ex - ey)) in *. set (b := Z.max 0 (ey - ex)) in *.
  assert (Hpa : 0 < 2 ^ a) by (apply Z.pow_pos_nonneg; lia).
  assert (Hpb : 0 < 2 ^ b) by (apply Z.pow_pos_nonneg; lia).
  (* the quotient is below 2^53 *)
  assert (HD : D ≤ 53).
  { assert (H1 : 2 ^ (d1 - 1 + a) < 2 ^ (53 + d2 + b)).
    { rewrite !pow2_split by lia.
      assert (2 ^ (d1 - 1) * 2 ^ a ≤ Zpos mx * 2 ^ a) by nia.
      assert (B * Zpos my * 2 ^ b < 2 ^ 53 * 2 ^ d2 * 2 ^ b).
      { apply Z.mul_lt_mono_pos_r; [done|]. nia. }
      lia. }
    apply Z.pow_lt_mono_r_iff in H1; [|lia|lia]. unfold D, a, b in *. lia. }
  assert (He' : e' ≤ 0) by (unfold e'; rewrite fexp_eq; lia).
  assert (Es : s = ex - ey - e') by reflexivity.
  assert (ED : D = d1 + ex - (d2 + ey)) by reflexivity.
  assert (Ee' : e' ≤ Z.max (D - 53) (-1074))
    by (unfold e'; rewrite fexp_eq; lia).
  (* the shifted numerator *)
  set (m' := match s with
             | 0 => Zpos mx
             | Zpos _ => Z.shiftl (Zpos mx) s
             | Zneg _ => 0
             end).
  assert (Hm' : m' = Zpos mx * 2 ^ s).
  { unfold m'. destruct s as [|p|p] eqn:Es'; [simpl; lia| |lia].
    by rewrite Z.shiftl_mul_pow2. }
  assert (Hps : 0 < 2 ^ s) by (apply Z.pow_pos_nonneg; lia).
  assert (Hpe : 0 < 2 ^ (- e')) by (apply Z.pow_pos_nonneg; lia).
  assert (Hnum : m' ≤ B * 2 ^ (- e') * Zpos my).
  { rewrite Hm'. destruct (Z.le_gt_cases ey ex).
    - replace a with (ex - ey) in * by (unfold a; lia).
      replace b with 0 in * by (unfold b; lia).
      replace s with (ex - ey + - e') by (unfold s; lia).
      rewrite pow2_split by lia. change (2 ^ 0) with 1 in Hle. nia.
    - replace a with 0 in * by (unfold a; lia).
      replace b with (ey - ex) in * by (unfold b; lia).
      replace (- e') with (ey - ex + s) by (unfold s; lia).
      rewrite pow2_split by lia. change (2 ^ 0) with 1 in Hle. nia. }
  pose proof (Z_div_mod m' (Zpos my) ltac:(lia)) as Hdm.
  destruct (Z.div_eucl m' (Zpos my)) as [q r]. destruct Hdm as [Hq Hr].
  assert (Hq0 : 0 ≤ q) by nia.
  apply round_aux_bound; [done|done|done| | |].
  - (* enough digits *)
    destruct q as [|q|q]; [| |lia].
    + cbn [Zdigits2]. rewrite fexp_eq.
      assert (d1 - 1 + s < d2).
      { assert (2 ^ (d1 - 1 + s) < 2 ^ d2); [|
          by apply Z.pow_lt_mono_r_iff in H; lia].
        rewrite pow2_split by lia. nia. }
      lia.
    + rewrite Zdigits2_pos.
      pose proof (size_upper q) as Hq2. set (dq := Zpos (Pos.size q)) in *.
      assert (d1 + s - d2 ≤ dq).
      { assert (2 ^ (d1 - 1 + s) < 2 ^ (dq + d2)); [|
          by apply Z.pow_lt_mono_r_iff in H; lia].
        rewrite !pow2_split by (unfold dq; lia).
        assert (2 ^ (d1 - 1) * 2 ^ s ≤ m') by nia.
        assert (m' < (Zpos q + 1) * Zpos my) by nia.
        assert ((Zpos q + 1) * Zpos my < 2 ^ dq * 2 ^ d2); [|lia].
        assert (0 < 2 ^ d2) by lia. nia. }
      rewrite fexp_eq. lia.
  - nia.
  - intros Hl%new_location_exact. nia.
Qed.

(** Division of a bounded Number by a positive integer. *)
Lemma div_int_at_most (x : Number.t) (B k : Z) :
  0 < B < 2 ^ 53 → 0 < k < 2 ^ 53 → at_most x (B * k) →
  at_most (Number.div x (Number.of_Z k)) B.
Proof.
  intros HB Hk Hx.
  destruct (of_Z_exact k Hk) as (my & ey & -> & Hey & Hmy & _).
  destruct Hx as [->|(mx & ex & -> & Hex & Hmx)]; [by left|].
  apply div_at_most; [done|].
  assert (0 < 2 ^ (- ex)) by (apply Z.pow_pos_nonneg; lia).
  assert (0 < 2 ^ (- ey)) by (apply Z.pow_pos_nonneg; lia).
  rewrite Hmy. destruct (Z.le_gt_cases ey ex).
  - replace (Z.max 0 (ex - ey)) with (ex - ey) by lia.
    replace (Z.max 0 (ey - ex)) with 0 by lia.
    replace (- ey) with (- ex + (ex - ey)) by lia.
    rewrite pow2_split by lia.
    assert (0 < 2 ^ (ex - ey)) by (apply Z.pow_pos_nonneg; lia).
    change (2 ^ 0) with 1. nia.
  - replace (Z.max 0 (ex - ey)) with 0 by lia.
    replace (Z.max 0 (ey - ex)) with (ey - ex) by lia.
    replace (- ex) with (- ey + (ey - ex)) in Hmx by lia.
    rewrite pow2_split in Hmx by lia.
    assert (0 < 2 ^ (ey - ex)) by (apply Z.pow_pos_nonneg; lia).
    change (2 ^ 0) with 1. nia.
Qed.

(** The Number a rational between 0 and [B] denotes. *)
Lemma of_Q_at_most (q : Q) (B : Z) :
  0 < B < 2 ^ 53 → (0 <= q)%Q → (q <= inject_Z B)%Q →
  at_most (Number.of_Q q) B.
Proof.
  intros HB H0 HqB. destruct q as [n d]. unfold Number.of_Q. cbn [Qnum Qden].
  unfold Qle in *. cbn in H0, HqB.
  destruct n as [|n|n]; [by left| |lia].
  apply div_at_most; [done|]. rewrite Z.sub_diag. change (2 ^ Z.max 0 0) with 1.
  lia.
Qed.

(** *** Math.round *)

Lemma Math_round_at_most (x : Number.t) (B : Z) :
  0 < B < 2 ^ 53 → at_most x B → at_most (Number.Math_round x) B.
Proof.
  intros HB [->|(m & e & -> & He & Hm)]; [by left|].
  unfold Number.Math_round. cbv zeta. cbn [cond_Zopp].
  assert (Hp : 0 < 2 ^ (- e)) by (apply Z.pow_pos_nonneg; lia).
  set (n := if 0 <=? e then Zpos m * 2 ^ e
            else (2 * Zpos m + 2 ^ (- e)) / 2 ^ (1 - e)).
  assert (Hn : 0 ≤ n ≤ B).
  { unfold n. destruct (Z.leb_spec 0 e).
    - replace e with 0 in * by lia. simpl in *. lia.
    - replace (1 - e) with (1 + - e) by lia. rewrite pow2_split by lia.
      change (2 ^ 1) with 2. split.
      + apply Z.div_pos; lia.
      + assert ((2 * Zpos m + 2 ^ (- e)) / (2 * 2 ^ (- e)) < B + 1); [|lia].
        apply Z.div_lt_upper_bound; [lia|]. nia. }
  destruct (Z.eqb_spec n 0); [by left|].
  apply of_Z_at_most; lia.
Qed.

(** *** Sums and means *)

Lemma at_most_within (x : Number.t) (B : Z) :
  0 ≤ B → at_most x B → Number_within 0 B x.
Proof.
  intros HB [->|(m & e & -> & He & Hm)].
  - exists 0%Q. split; [done|]. split; [apply Qle_refl|].
    change 0%Q with (inject_Z 0). by rewrite <- Zle_Qle.
  - unfold Number_within. cbn [Number.value cond_Zopp]. eexists.
    split; [reflexivity|]. destruct e as [|p|p]; [| lia |].
    + rewrite Z.mul_1_r. simpl in Hm. rewrite Z.mul_1_r in Hm.
      rewrite <- !Zle_Qle. lia.
    + change (- Zneg p) with (Zpos p) in Hm.
      change 2 with (Zpos 2) in Hm. rewrite <- Pos2Z.inj_pow in Hm.
      unfold Qle. cbn [Qnum Qden inject_Z]. lia.
Qed.

Lemma sum_at_most {A} (get : A → Number.t) (hi : Z) (xs : list A)
  (acc : Number.t) (a : Z) :
  0 ≤ a → 0 ≤ hi → at_most acc a →
  (∀ x, x ∈ xs → at_most (get x) hi) →
  a + hi * Z.of_nat (length xs) < 2 ^ 53 →
  at_most (foldl (λ sum x, Number.add sum (get x)) acc xs)
          (a + hi * Z.of_nat (length xs)).
Proof.
  intros Ha Hhi. revert acc a Ha.
  induction xs as [|x xs IH]; intros acc a Ha Hacc Hall Hlt.
  - simpl. by rewrite Z.mul_0_r, Z.add_0_r.
  - cbn [foldl length] in *. rewrite Nat2Z.inj_succ in *.
    replace (a + hi * Z.succ (Z.of_nat (length xs)))
      with (a + hi + hi * Z.of_nat (length xs)) in * by lia.
    apply IH; [lia| | |done].
    + apply add_at_most; [done| |done|done|nia].
      apply Hall, list_elem_of_here.
    + intros y Hy. by apply Hall, list_elem_of_further.
Qed.

Lemma rounded_mean_at_most (sum : Number.t) (count hi : Z) :
  0 < count < 2 ^ 53 → 0 < hi → hi * 10 < 2 ^ 53 →
  at_most sum (hi * count) →
  at_most (rounded_mean sum count) hi.
Proof.
  intros Hc Hhi Hhi10 Hsum. unfold rounded_mean.
  apply div_int_at_most; [lia|done|].
  apply Math_round_at_most; [lia|].
  apply mul_at_most; [|lia|done|done|done].
  by apply div_int_at_most; [lia|done|].
Qed.

Lemma hours_seen_length l : (length (hours_seen l) ≤ length l)%nat.
Proof.
  induction l as [|x l IH] using rev_ind; [done|].
  rewrite hours_seen_snoc, length_app. simpl.
  destruct (decide _); rewrite ?length_app; simpl; lia.
Qed.

Lemma chartData_bounds (history : list SampleRow) :
  Z.of_nat (length history) ≤ 1000000000000 →
  (∀ s, s ∈ history →
        ((0 <= rh_cpu_usage s)%Q ∧ (rh_cpu_usage s <= 10)%Q) ∧
        ((0 <= rh_memory_usage s)%Q ∧ (rh_memory_usage s <= 50)%Q)) →
  (length (chartData history) ≤ length history)%nat ∧
  ∀ pt, pt ∈ chartData history →
        Number_within 0 10 (pt_cpu pt) ∧ Number_within 0 50 (pt_memory pt).
Proof.
  intros Hlen Hall. unfold chartData. rewrite aggregate_closed_form. split.
  { rewrite !length_map. apply hours_seen_length. }
  intros pt (e & -> & (h & -> & Hh)%list_elem_of_fmap)%list_elem_of_fmap.
  apply elem_of_hours_seen in Hh as (s0 & Hs0 & Hh0).
  unfold point_of, bucket_of. cbv zeta.
  cbn [pt_cpu pt_memory bk_cpu bk_memory bk_count].
  set (bucket := filter (λ s, record_hour s = h) history).
  assert (Hne : (0 < length bucket)%nat).
  { assert (s0 ∈ bucket) as Hin by (by apply list_elem_of_filter).
    destruct bucket; [by apply elem_of_nil in Hin | simpl; lia]. }
  assert (Hle : (length bucket ≤ length history)%nat)
    by apply length_filter.
  assert (Hb : ∀ s, s ∈ bucket → s ∈ history)
    by (by intros s [_ ?]%list_elem_of_filter).
  assert (Hsum : ∀ (get : SampleRow → Q) (hi : Z),
            0 < hi ≤ 50 →
            (∀ s, s ∈ history → (0 <= get s)%Q ∧ (get s <= inject_Z hi)%Q) →
            Number_within 0 hi
              (rounded_mean (reduce_sum (map (λ s, Number.of_Q (get s)) bucket))
                            (Z.of_nat (length bucket)))).
  { intros get hi Hhi Hget. apply at_most_within; [lia|].
    apply rounded_mean_at_most; [lia|lia|lia|].
    pose proof (sum_at_most (λ x : Number.t, x) hi
                  (map (λ s, Number.of_Q (get s)) bucket) Number.zero 0)
      as Hs.
    rewrite length_map, Z.add_0_l in Hs. apply Hs; [done|lia|by left| |nia].
    intros x (s & -> & Hs')%list_elem_of_fmap.
    destruct (Hget s (Hb s Hs')) as [H0 H1].
    apply of_Q_at_most; [lia|done|done]. }
  split.
  - apply (Hsum rh_cpu_usage 10); [lia|]. intros s Hs. apply (Hall s Hs).
  - apply (Hsum rh_memory_usage 50); [lia|]. intros s Hs. apply (Hall s Hs).
Qed.

Lemma usage_or_zero_at_most (v : option Q) (hi : Z) :
  0 < hi < 2 ^ 53 → within 0 (inject_Z hi) v →
  at_most (usage_or_zero v) hi.
Proof.
  intros Hhi (x & -> & H0 & H1). unfold usage_or_zero.
  destruct (of_Q_at_most x hi Hhi H0 H1) as [->|(m & e & -> & H)];
    [by left|].
  right. by exists m, e.
Qed.

Lemma or_else_zero_at_most (x : Number.t) (B : Z) :
  at_most x B → at_most (Number.or_else x Number.zero) B.
Proof.
  intros [->|(m & e & -> & H)]; [by left|]. right. by exists m, e.
Qed.

(** X17.  The stats of a metrics response without bot filter, for a
    window that gives a valid date and a caller whose rows are inside the
    limits (and fewer than a million million): [totalBots] is the number
    of the caller's bots, [runningBots] lies between 0 and [totalBots],
    [totalCpu], a binary64 sum, is a finite number between 0 and 10 times
    [totalBots], [totalMemory] one between 0 and 50 times [totalBots],
    and the three maxima are 3, 10 and 50. *)
Theorem metrics_stats_bounds w o req user n :
  String.eqb (m_method req) "OPTIONS" = false →
  authenticated w (m_authorization req) user →
  userBots_error o = false → history_error o = None →
  currentBots_error o = false →
  truthy (q_botId req) = None →
  default (integer 24) (q_hours req) = integer n →
  Z.abs (Date_now o - n * 3600000) ≤ 8640000000000000 →
  0 < count_user_bots (bots w) (u_id user) ≤ 1000000000000 →
  (∀ b, b ∈ bots w → b_user_id b = u_id user → resource_ok b) →
  ∃ st,
    stats_of (m_body (resource_metrics w o req)) = Some st ∧
    totalBots st = count_user_bots (bots w) (u_id user) ∧
    0 ≤ runningBots st ≤ totalBots st ∧
    Number_within 0 (maxCpuPerBot st * totalBots st) (totalCpu st) ∧
    Number_within 0 (maxMemoryPerBot st * totalBots st) (totalMemory st) ∧
    maxBots st = 3 ∧ maxCpuPerBot st = 10 ∧ maxMemoryPerBot st = 50.
Proof.
  intros Hm Ha Hub Hhe Hcb Hno Hn Hrange [Hc Hcap] Hok.
  rewrite (resource_metrics_data w o req user n Hm Ha Hub Hhe Hc)
    by (done || intros id Hid; congruence).
  rewrite Hcb, Hno. cbn [spec_selected_bots m_body stats_of].
  eexists. split; [reflexivity|].
  assert (Erows : filter (λ b, b_id b ∈ map b_id
                     (filter (λ b, b_user_id b = u_id user) (bots w)))
                    (select_bots (as_user (u_id user)) (bots w))
                  = filter (λ b, b_user_id b = u_id user) (bots w)).
  { unfold select_bots. rewrite list_filter_filter. apply list_filter_ext_in.
    intros b Hin. simpl. rewrite bool_decide_spec. split; [tauto|].
    intros Hu. split; [|done]. apply list_elem_of_fmap.
    exists b. split; [done|]. by apply list_elem_of_filter. }
  rewrite Erows. unfold current_stats. cbn [default totalBots runningBots
    totalCpu totalMemory maxBots maxCpuPerBot maxMemoryPerBot].
  unfold count_user_bots in *.
  set (rows := filter (λ b, b_user_id b = u_id user) (bots w)) in *.
  assert (Hrows : ∀ b, b ∈ rows → resource_ok b).
  { intros b [Hu Hb]%list_elem_of_filter. by apply Hok. }
  assert (Hsum : ∀ (get : BotRow → option Q) (hi : Z),
            0 < hi ≤ 50 →
            (∀ b, b ∈ rows → within 0 (inject_Z hi) (get b)) →
            Number_within 0 (hi * Z.of_nat (length rows))
              (Number.or_else
                 (foldl (λ sum b, Number.add sum (usage_or_zero (get b)))
                        Number.zero rows) Number.zero)).
  { intros get hi Hhi Hget. apply at_most_within; [lia|].
    apply or_else_zero_at_most.
    pose proof (sum_at_most (λ b, usage_or_zero (get b)) hi rows
                  Number.zero 0) as Hs.
    rewrite Z.add_0_l in Hs. apply Hs; [done|lia|by left| |nia].
    intros b Hb. apply usage_or_zero_at_most; [lia|]. by apply Hget. }
  split; [done|]. split.
  { split; [lia|]. apply inj_le, length_filter. }
  split; [apply (Hsum b_cpu_usage 10); [lia|]; intros b Hb; apply (Hrows b Hb)|].
  split; [apply (Hsum b_memory_usage 50); [lia|];
          intros b Hb; apply (Hrows b Hb)|].
  done.
Qed.

Lemma metrics_stats_bounds_witness :
  ∃ st,
    stats_of (m_body (resource_metrics example_world example_metrics_oracle
      (mkMetricsRequest "GET" (Some "Bearer alice") None None))) = Some st ∧
    totalBots st = 3 ∧ runningBots st = 1 ∧
    Number_within 0 30 (totalCpu st).
Proof.
  destruct (metrics_stats_bounds example_world example_metrics_oracle
              (mkMetricsRequest "GET" (Some "Bearer alice") None None) alice
              24 eq_refl) as (st & Hst & _ & _ & Hcpu & _ & _ & E10 & _);
    try reflexivity.
  - exists "Bearer alice". split; reflexivity.
  - vm_compute. discriminate.
  - vm_compute. split; [reflexivity | discriminate].
  - intros b Hb Hu. simpl in Hb.
    repeat (apply elem_of_cons in Hb as [->|Hb]);
      [..|by apply elem_of_nil in Hb]; try discriminate Hu;
      (split; eexists; (split; [reflexivity|]); split; discriminate).
  - exists st. split; [exact Hst|].
    injection Hst as <-. split; [reflexivity|]. split; [reflexivity|].
    exact Hcpu.
Defined.

(** X18.  When every stored sample is inside the limits (and there are
    fewer than a million million of them), every point of a successful
    metrics response is too: its cpu is a finite number in [0,10] and its
    memory one in [0,50], the rounding of binary64 included; and the chart
    has at most as many points as there are stored samples. *)
Theorem chart_points_within_limits w o req user n :
  String.eqb (m_method req) "OPTIONS" = false →
  authenticated w (m_authorization req) user →
  userBots_error o = false → history_error o = None →
  0 < count_user_bots (bots w) (u_id user) →
  (∀ id, truthy (q_botId req) = Some id →
         ∃ b, b ∈ bots w ∧ b_id b = id ∧ b_user_id b = u_id user) →
  default (integer 24) (q_hours req) = integer n →
  Z.abs (Date_now o - n * 3600000) ≤ 8640000000000000 →
  Z.of_nat (length (resource_history w)) ≤ 1000000000000 →
  (∀ s, s ∈ resource_history w →
        ((0 <= rh_cpu_usage s)%Q ∧ (rh_cpu_usage s <= 10)%Q) ∧
        ((0 <= rh_memory_usage s)%Q ∧ (rh_memory_usage s <= 50)%Q)) →
  ∃ pts,
    chartData_of (m_body (resource_metrics w o req)) = Some pts ∧
    (length pts ≤ length (resource_history w))%nat ∧
    ∀ pt, pt ∈ pts →
          Number_within 0 10 (pt_cpu pt) ∧ Number_within 0 50 (pt_memory pt).
Proof.
  intros Hm Ha Hub Hhe Hc Hown Hn Hrange Hcap Hall.
  rewrite (resource_metrics_data w o req user n Hm Ha Hub Hhe Hc Hown Hn
             Hrange).
  cbn [m_body chartData_of]. eexists. split; [reflexivity|].
  set (history := select_history _ _ _ _).
  assert (Hperm : ∃ kept, history ≡ₚ kept ∧
                    (length kept ≤ length (resource_history w))%nat ∧
                    ∀ s, s ∈ kept → s ∈ resource_history w).
  { eexists. split; [apply merge_sort_Permutation|]. split.
    - etrans; [apply length_filter|]. apply length_filter.
    - by intros s [_ [_ ?]%list_elem_of_filter]%list_elem_of_filter. }
  destruct Hperm as (kept & Hp & Hlen & Hsub).
  destruct (chartData_bounds history) as [Hl Hpts].
  { rewrite (Permutation_length Hp). lia. }
  { intros s Hs. apply Hall, Hsub. by rewrite <- Hp. }
  split; [|done]. rewrite (Permutation_length Hp) in Hl. lia.
Qed.

Lemma chart_points_within_limits_witness :
  ∃ pts,
    chartData_of (m_body (resource_metrics example_world
      example_metrics_oracle
      (mkMetricsRequest "GET" (Some "Bearer alice") (Some "a1")
                        (Some (integer 1)))))
    = Some pts ∧ (length pts ≤ 4)%nat.
Proof.
  destruct (chart_points_within_limits example_world example_metrics_oracle
              (mkMetricsRequest "GET" (Some "Bearer alice") (Some "a1")
                                (Some (integer 1))) alice 1 eq_refl)
    as (pts & H & Hl & _); try reflexivity.
  - exists "Bearer alice". split; reflexivity.
  - intros id [= <-]. eexists. split; [apply list_elem_of_here|].
    split; reflexivity.
  - vm_compute. discriminate.
  - vm_compute. discriminate.
  - intros s Hs. simpl in Hs.
    repeat (apply elem_of_cons in Hs as [->|Hs]);
      [..|by apply elem_of_nil in Hs]; repeat split; discriminate.
  - exists pts. split; [exact H | exact Hl].
Defined.

(** X27.  A window that gives no valid date is answered 500.  For an
    authenticated caller who owns at least one bot, with no bot filter or
    the id of one of the caller's bots: when the hours parameter does not
    parse to a number, or now minus the window lies more than 8.64e15
    milliseconds from the epoch, the answer is 500 "Internal server
    error", whatever the history query would have answered. *)
Theorem metrics_window_out_of_range w o req user :
  String.eqb (m_method req) "OPTIONS" = false →
  authenticated w (m_authorization req) user →
  userBots_error o = false →
  0 < count_user_bots (bots w) (u_id user) →
  (∀ id, truthy (q_botId req) = Some id →
         ∃ b, b ∈ bots w ∧ b_id b = id ∧ b_user_id b = u_id user) →
  (q_hours req = Some not_a_number ∨
   ∃ n, default (integer 24) (q_hours req) = integer n ∧
        8640000000000000 < Z.abs (Date_now o - n * 3600000)) →
  resource_metrics w o req =
    mkMetricsResponse 500 (MError "Internal server error").
Proof.
  intros Hm (hd & Ha & Hu) Hub Hc Hown Hbad.
  unfold resource_metrics. rewrite Hm, Ha, Hu, Hub. cbv zeta.
  rewrite select_own_bots. unfold count_user_bots in Hc.
  destruct (filter (λ b, b_user_id b = u_id user) (bots w))
    as [|b0 rest] eqn:Eown; [simpl in Hc; lia|].
  assert (Hchk : match truthy (q_botId req) with
                 | Some id => negb (bool_decide (id ∈ map b_id (b0 :: rest)))
                 | None => false
                 end = false).
  { destruct (truthy (q_botId req)) as [id0|]; [|done].
    apply negb_false_iff, bool_decide_eq_true.
    destruct (Hown id0 eq_refl) as (b & Hb & <- & Hbu).
    apply list_elem_of_fmap. exists b. split; [done|].
    rewrite <- Eown. by apply list_elem_of_filter. }
  rewrite Hchk.
  assert (Hcut : cutoffTime_of (Date_now o)
                   (default (integer 24) (q_hours req)) = None).
  { destruct Hbad as [->|(n & -> & Hn)]; [done|].
    unfold cutoffTime_of. cbv zeta.
    replace (Date_now o - n * 60 * 60 * 1000)
      with (Date_now o - n * 3600000) by lia.
    by rewrite bool_decide_eq_false_2 by lia. }
  by rewrite Hcut.
Qed.

Lemma metrics_window_out_of_range_witness :
  resource_metrics example_world example_metrics_oracle
    (mkMetricsRequest "GET" (Some "Bearer alice") None
                      (Some (integer 3000000000)))
  = mkMetricsResponse 500 (MError "Internal server error").
Proof.
  apply (metrics_window_out_of_range example_world example_metrics_oracle
           _ alice); try reflexivity.
  - exists "Bearer alice". split; reflexivity.
  - intros id Hid. discriminate Hid.
  - right. exists 3000000000. split; [reflexivity|]. vm_compute. reflexivity.
Defined.

(** ** bot-logs *)

Lemma select_logs_sound uid w (wanted : string → bool) level limit :
  (length (select_logs (as_user uid) w wanted level limit) ≤ limit)%nat ∧
  StronglySorted newer_first (select_logs (as_user uid) w wanted level limit) ∧
  ∀ l, l ∈ select_logs (as_user uid) w wanted level limit →
       l ∈ bot_logs w ∧ log_of_user w uid l ∧
       wanted (l_bot_id l) = true ∧ level_matches level l = true.
Proof.
  unfold select_logs.
  set (matching := filter (λ l, wanted (l_bot_id l) ∧ level_matches level l)
                     (filter (λ l, log_visible (as_user uid) (bots w) l)
                             (bot_logs w))).
  assert (Hsorted : StronglySorted newer_first (merge_sort newer_first matching)).
  { apply StronglySorted_merge_sort.
    - intros a b c. unfold newer_first. lia.
    - intros a b. unfold newer_first. lia. }
  split; [rewrite length_take; lia|]. split.
  - rewrite <- (take_drop limit (merge_sort newer_first matching)) in Hsorted.
    by apply StronglySorted_app_1_l in Hsorted.
  - intros l Hl. apply subseteq_take in Hl.
    rewrite merge_sort_Permutation in Hl. unfold matching in Hl.
    apply list_elem_of_filter in Hl as [[Hw Hlv] Hl].
    apply list_elem_of_filter in Hl as [Hvis Hl]. simpl in Hvis.
    apply bool_decide_unpack, Exists_exists in Hvis as (b & Hb & Hid & Hu).
    split; [done|]. split; [by exists b|].
    split; by apply Is_true_true.
Qed.

(** X19.  Whatever the request of an authenticated caller, the logs a
    bot-logs response carries are rows of [bot_logs] that belong to bots
    of the caller, pass the bot filter and the level filter of the
    request, come newest first, and are at most [limit] (50 when no limit
    is given). *)
Theorem logs_belong_to_caller w o req user logs :
  String.eqb (lr_method req) "OPTIONS" = false →
  authenticated w (lr_authorization req) user →
  lr_body (bot_logs_handler w o req) = LLogs logs →
  (length logs ≤ default 50%nat (lq_limit req))%nat ∧
  StronglySorted newer_first (map entry logs) ∧
  ∀ e, e ∈ logs →
       entry e ∈ bot_logs w ∧ log_of_user w (u_id user) (entry e) ∧
       log_wanted req (entry e).
Proof.
  intros Hm (hd & Ha & Hu). unfold bot_logs_handler.
  rewrite Hm, Ha, Hu. cbv zeta.
  assert (Hlevel : ∀ l, level_matches (truthy (lq_level req)) l = true →
            ∀ lv, truthy (lq_level req) = Some lv → l_level l = lv).
  { intros l Hl lv E. rewrite E in Hl. simpl in Hl.
    by apply bool_decide_eq_true in Hl. }
  assert (Hempty : (0 ≤ default 50 (lq_limit req))%nat ∧
            StronglySorted newer_first (map entry []) ∧
            ∀ e, e ∈ @nil LogEntry →
                 entry e ∈ bot_logs w ∧ log_of_user w (u_id user) (entry e) ∧
                 log_wanted req (entry e)).
  { split; [lia|]. split; [constructor|]. by intros e ?%elem_of_nil. }
  destruct (truthy (lq_botId req)) as [botId|] eqn:Eb.
  - destruct (match single _ with Some b => _ | None => true end); [done|].
    destruct (logsError o); [done|]. intros [= <-].
    destruct (select_logs_sound (u_id user) w
                (λ id, bool_decide (id = botId)) (truthy (lq_level req))
                (default 50%nat (lq_limit req))) as (Hlen & Hs & Hall).
    rewrite length_map, map_map, map_id. split; [done|]. split; [done|].
    intros e (l & -> & Hl)%list_elem_of_fmap. simpl.
    destruct (Hall l Hl) as (Hin & Hown & Hw & Hlv).
    split; [done|]. split; [done|]. split.
    + intros id E. rewrite Eb in E. injection E as <-.
      by apply bool_decide_eq_true in Hw.
    + by apply Hlevel.
  - destruct (logs_userBots_error o); [by intros [= <-]|].
    destruct (filter _ (select_bots _ _)) as [|b0 rest];
      [by intros [= <-]|].
    destruct (logsError o); [done|]. intros [= <-].
    destruct (select_logs_sound (u_id user) w
                (λ id, bool_decide (id ∈ map b_id (b0 :: rest)))
                (truthy (lq_level req))
                (default 50%nat (lq_limit req))) as (Hlen & Hs & Hall).
    rewrite length_map, map_map, map_id. split; [done|]. split; [done|].
    intros e (l & -> & Hl)%list_elem_of_fmap. simpl.
    destruct (Hall l Hl) as (Hin & Hown & Hw & Hlv).
    split; [done|]. split; [done|]. split; [|by apply Hlevel].
    intros id E. by rewrite Eb in E.
Qed.

Lemma logs_belong_to_caller_witness :
  lr_body (bot_logs_handler example_world_with_logs example_logs_oracle
             (mkLogsRequest "GET" (Some "Bearer alice") None (Some 2%nat)
                            (Some "info")))
  = LLogs [ mkLogEntry (mkLog "a1" "info" "User command processed"
                              1766700060000) (Some "bot a1");
            mkLogEntry (mkLog "a2" "info" "Bot stopped" 1766700040000)
                       (Some "bot a2") ] ∧
  ∀ e, e ∈ [ mkLogEntry (mkLog "a1" "info" "User command processed"
                               1766700060000) (Some "bot a1");
             mkLogEntry (mkLog "a2" "info" "Bot stopped" 1766700040000)
                        (Some "bot a2") ] →
       log_of_user example_world_with_logs "alice" (entry e).
Proof.
  assert (H : lr_body (bot_logs_handler example_world_with_logs
                example_logs_oracle
                (mkLogsRequest "GET" (Some "Bearer alice") None (Some 2%nat)
                               (Some "info")))
              = LLogs [ mkLogEntry (mkLog "a1" "info" "User command processed"
                              1766700060000) (Some "bot a1");
                        mkLogEntry (mkLog "a2" "info" "Bot stopped"
                              1766700040000) (Some "bot a2") ])
    by reflexivity.
  split; [exact H|].
  destruct (logs_belong_to_caller example_world_with_logs example_logs_oracle
              (mkLogsRequest "GET" (Some "Bearer alice") None (Some 2%nat)
                             (Some "info")) alice _ eq_refl
              (ex_intro _ "Bearer alice" (conj eq_refl eq_refl)) H)
    as (_ & _ & Hall).
  intros e He. exact (proj1 (proj2 (Hall e He))).
Defined.

(** X20.  A bot-logs request for a bot id that is not the caller's own,
    whether it belongs to someone else or to nobody, is answered 403 "Bot
    not found or access denied", also for a caller without bots. *)
Theorem logs_of_foreign_bot_denied w o req user id :
  String.eqb (lr_method req) "OPTIONS" = false →
  authenticated w (lr_authorization req) user →
  truthy (lq_botId req) = Some id →
  (∀ b, b ∈ bots w → b_id b = id → b_user_id b ≠ u_id user) →
  bot_logs_handler w o req =
    mkLogsResponse 403 (LError "Bot not found or access denied").
Proof.
  intros Hm (hd & Ha & Hu) Hid Hno. unfold bot_logs_handler.
  rewrite Hm, Ha, Hu, Hid. cbv zeta.
  fold (own_rows w user id).
  destruct (own_rows w user id) as [|b l] eqn:E; [done|].
  assert (Hb : b ∈ own_rows w user id) by (rewrite E; apply list_elem_of_here).
  apply elem_of_own_rows in Hb as (Hb & Hbid & Hbu). by destruct (Hno b).
Qed.

Lemma logs_of_foreign_bot_denied_witness :
  bot_logs_handler example_world_with_logs example_logs_oracle
    (mkLogsRequest "GET" (Some "Bearer carol") (Some "a1") None None)
  = mkLogsResponse 403 (LError "Bot not found or access denied").
Proof.
  apply (logs_of_foreign_bot_denied example_world_with_logs
           example_logs_oracle _ carol "a1"); try reflexivity.
  - exists "Bearer carol". split; reflexivity.
  - intros b Hb Hid. simpl in Hb.
    repeat (apply elem_of_cons in Hb as [->|Hb]);
      [..|by apply elem_of_nil in Hb]; discriminate.
Defined.

Lemma select_logs_complete uid w (wanted : string → bool) level limit l :
  l ∈ bot_logs w → log_of_user w uid l →
  wanted (l_bot_id l) = true → level_matches level l = true →
  l ∈ select_logs (as_user uid) w wanted level limit ∨
  (length (select_logs (as_user uid) w wanted level limit) = limit ∧
   ∀ x, x ∈ select_logs (as_user uid) w wanted level limit →
        l_created_at l ≤ l_created_at x).
Proof.
  intros Hl (b & Hb & Hid & Hu) Hw Hlv. unfold select_logs.
  set (matching := filter (λ l, wanted (l_bot_id l) ∧ level_matches level l)
                     (filter (λ l, log_visible (as_user uid) (bots w) l)
                             (bot_logs w))).
  set (sorted := merge_sort newer_first matching).
  assert (Hin : l ∈ sorted).
  { unfold sorted. rewrite merge_sort_Permutation. unfold matching.
    apply list_elem_of_filter. split; [by rewrite Hw, Hlv|].
    apply list_elem_of_filter. split; [|done]. simpl.
    apply bool_decide_pack, Exists_exists. by exists b. }
  assert (Hsorted : StronglySorted newer_first sorted).
  { apply StronglySorted_merge_sort.
    - intros x y z. unfold newer_first. lia.
    - intros x y. unfold newer_first. lia. }
  rewrite <- (take_drop limit sorted) in Hin, Hsorted.
  apply elem_of_app in Hin as [Hin|Hin]; [by left|]. right. split.
  - apply length_take_le.
    destruct (decide (limit ≤ length sorted)%nat) as [?|Hgt]; [done|].
    rewrite drop_ge in Hin by lia. by apply elem_of_nil in Hin.
  - intros x Hx.
    exact (StronglySorted_app_1_elem_of _ _ _ _ _ Hsorted Hx Hin).
Qed.

(** X21.  The limit keeps the newest logs: in the answer to an
    authenticated caller (queries answering, the bot filter absent or the
    id of one of the caller's bots), a log of the caller's bots that
    passes the filters is left out only when the answer is full, and then
    it is not newer than any log of the answer. *)
Theorem logs_are_the_newest w o req user :
  String.eqb (lr_method req) "OPTIONS" = false →
  authenticated w (lr_authorization req) user →
  logs_userBots_error o = false → logsError o = None →
  (∀ id, truthy (lq_botId req) = Some id → ∃ b, own_rows w user id = [b]) →
  ∃ logs,
    lr_body (bot_logs_handler w o req) = LLogs logs ∧
    ∀ l, l ∈ bot_logs w → log_of_user w (u_id user) l → log_wanted req l →
         l ∈ map entry logs ∨
         (length logs = default 50%nat (lq_limit req) ∧
          ∀ e, e ∈ logs → l_created_at l ≤ l_created_at (entry e)).
Proof.
  intros Hm (hd & Ha & Hu) Hub Hle Hown. unfold bot_logs_handler.
  rewrite Hm, Ha, Hu, Hub, Hle. cbv zeta.
  assert (Hlevel : ∀ l, log_wanted req l →
            level_matches (truthy (lq_level req)) l = true).
  { intros l [_ Hlv]. unfold level_matches.
    destruct (truthy (lq_level req)) as [lv|]; [|done].
    by apply bool_decide_eq_true, Hlv. }
  destruct (truthy (lq_botId req)) as [botId|] eqn:Eb.
  - destruct (Hown botId eq_refl) as [b Hb].
    fold (own_rows w user botId). rewrite Hb. cbn [single].
    assert (Hbu : b_user_id b = u_id user).
    { assert (b ∈ own_rows w user botId) as Hin
        by (rewrite Hb; apply list_elem_of_here).
      by apply elem_of_own_rows in Hin as (_ & _ & ?). }
    rewrite (bool_decide_eq_true_2 _ Hbu). cbn [negb].
    eexists. split; [reflexivity|]. intros l Hl Hof Hwant.
    rewrite map_map, map_id, length_map.
    destruct (select_logs_complete (u_id user) w
                (λ id, bool_decide (id = botId)) (truthy (lq_level req))
                (default 50%nat (lq_limit req)) l Hl Hof) as [?|[Hlen Hall]].
    + apply bool_decide_eq_true. by apply (proj1 Hwant).
    + by apply Hlevel.
    + by left.
    + right. split; [done|].
      intros e (x & -> & Hx)%list_elem_of_fmap. by apply Hall.
  - rewrite select_own_bots.
    destruct (filter (λ b, b_user_id b = u_id user) (bots w))
      as [|b0 rest] eqn:Eown.
    + exists []. split; [done|]. intros l _ (b & Hb & _ & Hbu) _.
      exfalso. assert (b ∈ filter (λ b, b_user_id b = u_id user) (bots w))
        as Hin by (by apply list_elem_of_filter).
      rewrite Eown in Hin. by apply elem_of_nil in Hin.
    + eexists. split; [reflexivity|]. intros l Hl Hof Hwant.
      rewrite map_map, map_id, length_map.
      destruct (select_logs_complete (u_id user) w
                  (λ id, bool_decide (id ∈ map b_id (b0 :: rest)))
                  (truthy (lq_level req))
                  (default 50%nat (lq_limit req)) l Hl Hof)
        as [?|[Hlen Hall]].
      * apply bool_decide_eq_true. destruct Hof as (b & Hb & <- & Hbu).
        apply list_elem_of_fmap_2. rewrite <- Eown.
        by apply list_elem_of_filter.
      * by apply Hlevel.
      * by left.
      * right. split; [done|].
        intros e (x & -> & Hx)%list_elem_of_fmap. by apply Hall.
Qed.

Lemma logs_are_the_newest_witness :
  ∃ logs,
    lr_body (bot_logs_handler example_world_with_logs example_logs_oracle
               (mkLogsRequest "GET" (Some "Bearer alice") (Some "a1")
                              (Some 2%nat) None)) = LLogs logs ∧
    (mkLog "a1" "info" "Bot started successfully" 1766700000000
       ∈ map entry logs ∨
     (length logs = 2%nat ∧
      ∀ e, e ∈ logs → 1766700000000 ≤ l_created_at (entry e))).
Proof.
  destruct (logs_are_the_newest example_world_with_logs example_logs_oracle
              (mkLogsRequest "GET" (Some "Bearer alice") (Some "a1")
                             (Some 2%nat) None) alice eq_refl
              (ex_intro _ "Bearer alice" (conj eq_refl eq_refl))
              eq_refl eq_refl) as (logs & H & Hall).
  - intros id [= <-]. eexists. reflexivity.
  - exists logs. split; [exact H|].
    apply (Hall (mkLog "a1" "info" "Bot started successfully" 1766700000000)).
    + apply list_elem_of_here.
    + eexists. split; [apply list_elem_of_here|]. split; reflexivity.
    + split; [by intros id [= <-] | intros lv Hlv; discriminate Hlv].
Defined.

Lemma fromEntries_snoc pairs kv :
  fromEntries (pairs ++ [kv]) = <[kv.1 := kv.2]> (fromEntries pairs).
Proof. unfold fromEntries. by rewrite foldl_snoc. Qed.

Lemma fromEntries_lookup (pairs : list (string * string)) k v :
  NoDup (map fst pairs) → (k, v) ∈ pairs → fromEntries pairs !! k = Some v.
Proof.
  induction pairs as [|kv pairs IH] using rev_ind;
    [by intros _ ?%elem_of_nil|].
  rewrite map_app. intros (Hnd & Hdis & _)%NoDup_app Hin.
  rewrite fromEntries_snoc.
  apply elem_of_app in Hin as [Hin|Hin%list_elem_of_singleton].
  - rewrite lookup_insert_ne; [by apply IH|]. intros E.
    apply (Hdis k); [by apply (list_elem_of_fmap_2 fst _ (k, v))|].
    rewrite <- E. simpl. apply list_elem_of_here.
  - subst kv. apply lookup_insert_eq.
Qed.

Lemma NoDup_ids_filter (P : BotRow → Prop) `{∀ b, Decision (P b)} tbl :
  NoDup (map b_id tbl) → NoDup (map b_id (filter P tbl)).
Proof.
  induction tbl as [|b tbl IH]; [done|]. cbn [map].
  intros [Hnotin Hnd]%NoDup_cons. rewrite filter_cons.
  destruct (decide (P b)); [|by apply IH]. cbn [map].
  apply NoDup_cons. split; [|by apply IH].
  intros (b' & E & [_ Hb']%list_elem_of_filter)%list_elem_of_fmap.
  apply Hnotin. rewrite E. by apply list_elem_of_fmap_2.
Qed.

(** X22.  With ids unique in [bots], every log of an answer over all the
    caller's bots carries the name of its bot, or "Unknown" when that
    name is empty; an answer for one bot id carries no names. *)
Theorem logs_carry_bot_names w o req user logs :
  unique_ids w →
  String.eqb (lr_method req) "OPTIONS" = false →
  authenticated w (lr_authorization req) user →
  lr_body (bot_logs_handler w o req) = LLogs logs →
  ∀ e, e ∈ logs →
    match truthy (lq_botId req) with
    | Some _ => bot_name e = None
    | None =>
        ∃ b, b ∈ bots w ∧ b_id b = l_bot_id (entry e) ∧
             b_user_id b = u_id user ∧
             bot_name e = Some (if bool_decide (b_name b = "")
                                then "Unknown" else b_name b)
    end.
Proof.
  intros Hnd Hm (hd & Ha & Hu). unfold bot_logs_handler.
  rewrite Hm, Ha, Hu. cbv zeta.
  destruct (truthy (lq_botId req)) as [botId|].
  - destruct (match single _ with Some b => _ | None => true end); [done|].
    destruct (logsError o); [done|]. intros [= <-] e.
    by intros (l & -> & _)%list_elem_of_fmap.
  - destruct (logs_userBots_error o);
      [by intros [= <-] e ?%elem_of_nil|].
    rewrite select_own_bots.
    destruct (filter (λ b, b_user_id b = u_id user) (bots w))
      as [|b0 rest] eqn:Eown; [by intros [= <-] e ?%elem_of_nil|].
    destruct (logsError o); [done|]. intros [= <-] e.
    intros (l & -> & Hl)%list_elem_of_fmap. cbn [entry bot_name].
    destruct (select_logs_sound (u_id user) w
                (λ id, bool_decide (id ∈ map b_id (b0 :: rest)))
                (truthy (lq_level req)) (default 50%nat (lq_limit req)))
      as (_ & _ & Hall).
    destruct (Hall l Hl) as (_ & _ & Hw & _).
    apply bool_decide_eq_true, list_elem_of_fmap in Hw as (b & Hid & Hb).
    assert (Hb' : b ∈ filter (λ b, b_user_id b = u_id user) (bots w))
      by (by rewrite Eown).
    apply list_elem_of_filter in Hb' as [Hbu Hbw].
    exists b. split; [done|]. split; [done|]. split; [done|].
    unfold name_or_unknown. rewrite Hid.
    rewrite (fromEntries_lookup _ (b_id b) (b_name b)).
    + done.
    + change (NoDup (map fst (map (λ b, (b_id b, b_name b)) (b0 :: rest)))).
      rewrite map_map. change (NoDup (map b_id (b0 :: rest))).
      rewrite <- Eown. by apply NoDup_ids_filter.
    + exact (list_elem_of_fmap_2 (λ b, (b_id b, b_name b)) (b0 :: rest) b Hb).
Qed.

Lemma logs_carry_bot_names_witness :
  ∃ b, b ∈ bots example_world_with_logs ∧ b_id b = "a1" ∧
       b_user_id b = u_id alice ∧
       Some "bot a1" = Some (if bool_decide (b_name b = "")
                             then "Unknown" else b_name b).
Proof.
  exact (logs_carry_bot_names example_world_with_logs example_logs_oracle
           (mkLogsRequest "GET" (Some "Bearer alice") None (Some 2%nat)
                          (Some "info")) alice
           [ mkLogEntry (mkLog "a1" "info" "User command processed"
                               1766700060000) (Some "bot a1");
             mkLogEntry (mkLog "a2" "info" "Bot stopped" 1766700040000)
                        (Some "bot a2") ]
           example_world_unique_ids eq_refl
           (ex_intro _ "Bearer alice" (conj eq_refl eq_refl)) eq_refl
           (mkLogEntry (mkLog "a1" "info" "User command processed"
                              1766700060000) (Some "bot a1"))
           (list_elem_of_here _ _)).
Defined.

(** ** The dashboard's list and the table *)

Lemma select_bots_map uid (g : BotRow → BotRow) tbl :
  (∀ b, b_user_id (g b) = b_user_id b) →
  select_bots (as_user uid) (map g tbl)
  = map g (select_bots (as_user uid) tbl).
Proof.
  intros Hg. unfold select_bots.
  induction tbl as [|b tbl IH]; [done|]. cbn [map]. rewrite !filter_cons.
  destruct (decide (bot_visible (as_user uid) (g b))) as [H1|H1],
           (decide (bot_visible (as_user uid) b)) as [H2|H2];
    simpl in H1, H2; rewrite Hg in H1; try done.
  cbn [map]. by rewrite IH.
Qed.

Lemma elem_of_select_bots uid b tbl :
  b ∈ select_bots (as_user uid) tbl ↔ b_user_id b = uid ∧ b ∈ tbl.
Proof.
  unfold select_bots. rewrite list_elem_of_filter. simpl.
  by rewrite bool_decide_spec.
Qed.

(** X23.  The dashboard follows the table.  When the list held by
    [useBots] is the caller's rows of [bots] (in any order) and ids are
    unique: after an update of one of the caller's bots by id, the UPDATE
    event carrying the stored row brings the list back to the caller's
    rows, also on top of the optimistic deploying mark; after a delete by
    id the DELETE event does; after an insert the INSERT event does. *)
Theorem dashboard_follows_table w uid prev :
  unique_ids w →
  prev ≡ₚ select_bots (as_user uid) (bots w) →
  (∀ now id p b tbl',
     update_bots (as_user uid) now None id p (bots w) = inr tbl' →
     b ∈ bots w → b_id b = id → b_user_id b = uid →
     on_postgres_change (UPDATE (update_row now p b)) prev
       ≡ₚ select_bots (as_user uid) tbl' ∧
     on_postgres_change (UPDATE (update_row now p b))
                        (optimistic_update id prev)
       ≡ₚ select_bots (as_user uid) tbl') ∧
  (∀ id w',
     delete_bots (as_user uid) None id w = inr w' →
     on_postgres_change (DELETE id) prev
       ≡ₚ select_bots (as_user uid) (bots w')) ∧
  (∀ NEW tbl' row,
     insert_bot (as_user uid) None (bots w) NEW = inr (tbl', row) →
     on_postgres_change (INSERT row) prev
       ≡ₚ select_bots (as_user uid) tbl').
Proof.
  intros Hnd Hperm. split; [|split].
  - intros now id p b tbl' [= <-] Hb Hid Hu.
    rewrite select_bots_map
      by (intros x; destruct (_ && _);
          [by rewrite update_row_fields | done]).
    assert (Hidn : b_id (update_row now p b) = id)
      by (by rewrite update_row_fields).
    assert (Hrow : ∀ x, x ∈ select_bots (as_user uid) (bots w) →
              (if bool_decide (b_id x = b_id (update_row now p b))
               then update_row now p b else x)
              = (if bot_visible (as_user uid) x && bool_decide (b_id x = id)
                 then update_row now p x else x)).
    { intros x [Hxu Hx]%elem_of_select_bots.
      rewrite Hidn. cbn [bot_visible].
      rewrite (bool_decide_eq_true_2 _ Hxu). cbn [andb].
      case_bool_decide as Hxi; [|done].
      by rewrite (unique_id_same_row (bots w) x b Hnd Hx Hb)
        by (by rewrite Hid). }
    assert (Hmap :
      map (λ bot, if bool_decide (b_id bot = b_id (update_row now p b))
                  then update_row now p b else bot)
          (select_bots (as_user uid) (bots w))
      = map (λ b0, if bot_visible (as_user uid) b0 && bool_decide (b_id b0 = id)
                   then update_row now p b0 else b0)
            (select_bots (as_user uid) (bots w))).
    { apply map_ext_in. intros x Hx. apply Hrow. by apply list_elem_of_In. }
    split.
    + unfold on_postgres_change.
      etransitivity; [apply Permutation_map, Hperm|].
      apply Permutation_refl'. exact Hmap.
    + assert (Hopt :
        map (λ bot, if bool_decide (b_id bot = b_id (update_row now p b))
                    then update_row now p b else bot)
            (optimistic_update id prev)
        = map (λ bot, if bool_decide (b_id bot = b_id (update_row now p b))
                      then update_row now p b else bot) prev).
      { unfold optimistic_update. rewrite map_map.
        apply map_ext. intros x. rewrite Hidn.
        destruct (bool_decide (b_id x = id)) eqn:Hxi; [|by rewrite Hxi].
        cbn [with_status b_id]. by rewrite Hxi. }
      unfold on_postgres_change. rewrite Hopt.
      etransitivity; [apply Permutation_map, Hperm|].
      apply Permutation_refl'. exact Hmap.
  - intros id w' [= <-]. unfold on_postgres_change; cbn [bots].
    unfold select_bots at 1. rewrite list_filter_filter.
    etransitivity; [apply filter_Permutation, Hperm|].
    unfold select_bots. rewrite list_filter_filter.
    apply Permutation_refl'. apply list_filter_iff. intros x.
    unfold bot_deleted. rewrite andb_True, bool_decide_spec. tauto.
  - intros NEW tbl' row. unfold insert_bot.
    destruct (before_insert (bots w) NEW) as [r|]; [|done].
    destruct (bot_visible (as_user uid) r) eqn:Hv; [|done].
    intros [= <- <-]. unfold on_postgres_change. unfold select_bots.
    rewrite filter_app, filter_cons, filter_nil, decide_True
      by (by rewrite Hv).
    rewrite <- Permutation_cons_append. by constructor.
Qed.

Lemma dashboard_follows_table_witness :
  on_postgres_change
    (UPDATE (update_row 1766710000000
               (mkPatch (Some online) None None None None None)
               (example_bot "a3" "alice" offline 0 0)))
    (optimistic_update "a3"
       (rev (select_bots (as_user "alice") (bots example_world))))
  ≡ₚ select_bots (as_user "alice")
       (map (λ b, if bot_visible (as_user "alice") b
                     && bool_decide (b_id b = "a3")
                  then update_row 1766710000000
                         (mkPatch (Some online) None None None None None) b
                  else b) (bots example_world)).
Proof.
  destruct (dashboard_follows_table example_world "alice"
              (rev (select_bots (as_user "alice") (bots example_world)))
              example_world_unique_ids (Permutation_sym (Permutation_rev _)))
    as (Hupd & _ & _).
  refine (proj2 (Hupd 1766710000000 "a3"
                   (mkPatch (Some online) None None None None None)
                   (example_bot "a3" "alice" offline 0 0) _
                   eq_refl _ eq_refl eq_refl)).
  do 3 apply list_elem_of_further. apply list_elem_of_here.
Defined.

(** X24.  An event never makes the dashboard's list ambiguous: with ids
    unique in the list, they are unique after an UPDATE or a DELETE event,
    and after an INSERT event for an id not yet listed; an UPDATE event
    keeps the ids and their order, and after a DELETE event the id is
    gone. *)
Theorem realtime_keeps_ids_unique payload prev :
  NoDup (map b_id prev) →
  (∀ new, payload = INSERT new → b_id new ∉ map b_id prev) →
  NoDup (map b_id (on_postgres_change payload prev)) ∧
  (∀ new, payload = UPDATE new →
     map b_id (on_postgres_change payload prev) = map b_id prev) ∧
  (∀ id, payload = DELETE id →
     id ∉ map b_id (on_postgres_change payload prev)).
Proof.
  intros Hnd Hfresh.
  assert (Hupd : ∀ new,
            map b_id (on_postgres_change (UPDATE new) prev) = map b_id prev).
  { intros new. unfold on_postgres_change. rewrite map_map.
    apply map_ext. intros x. by case_bool_decide. }
  split; [|split].
  - destruct payload as [new|new|id].
    + unfold on_postgres_change; cbn [map]. apply NoDup_cons. split; [|done].
      by apply Hfresh.
    + by rewrite Hupd.
    + by apply NoDup_ids_filter.
  - by intros new ->.
  - intros id ->. unfold on_postgres_change.
    intros (b & E & [Hne _]%list_elem_of_filter)%list_elem_of_fmap.
    by apply Hne.
Qed.

Lemma realtime_keeps_ids_unique_witness :
  NoDup (map b_id (on_postgres_change
                     (INSERT (example_bot "a4" "alice" offline 0 0))
                     (select_bots (as_user "alice") (bots example_world)))).
Proof.
  refine (proj1 (realtime_keeps_ids_unique
                   (INSERT (example_bot "a4" "alice" offline 0 0))
                   (select_bots (as_user "alice") (bots example_world)) _ _)).
  - apply (bool_decide_unpack _). by vm_compute.
  - intros new [= <-]. apply (bool_decide_unpack _). by vm_compute.
Defined.

(** ** The deploy form *)







(** ** Sign-up *)

(** X26.  Signing up grants the role user and nothing more: when no
    profile and no role row refers to the new user's id, the trigger
    succeeds, the new user has the role user and not the role admin,
    nobody else's roles change, and exactly one profile is appended, with
    the new id, the email, and as full name the metadata's full_name or,
    when that is absent, its name. *)
Theorem signup_grants_user_role_only now db NEW :
  (∀ p, p ∈ Signup.profiles db → Signup.pr_id p ≠ Signup.id NEW) →
  (∀ r, r ∈ Signup.user_roles db → Signup.ur_user_id r ≠ Signup.id NEW) →
  ∃ db',
    Signup.handle_new_user now db NEW = inr db' ∧
    Signup.has_role (Signup.user_roles db') (Signup.id NEW) Signup.user = true ∧
    Signup.has_role (Signup.user_roles db') (Signup.id NEW) Signup.admin = false ∧
    (∀ uid role, uid ≠ Signup.id NEW →
       Signup.has_role (Signup.user_roles db') uid role
       = Signup.has_role (Signup.user_roles db) uid role) ∧
    ∃ p, Signup.profiles db' = Signup.profiles db ++ [p] ∧
         Signup.pr_id p = Signup.id NEW ∧
         Signup.pr_email p = Signup.email NEW ∧
         Signup.pr_full_name p =
           match Signup.raw_user_meta_data NEW !! "full_name" with
           | Some n => Some n
           | None => Signup.raw_user_meta_data NEW !! "name"
           end.
Proof.
  intros Hp Hr. unfold Signup.handle_new_user.
  rewrite bool_decide_eq_false_2.
  2:{ intros (p & Hin & E)%Exists_exists. by apply (Hp p). }
  assert (Hnone : ∀ role,
            Signup.has_role (Signup.user_roles db) (Signup.id NEW) role = false).
  { intros role. apply bool_decide_eq_false.
    intros (r & Hin & E & _)%Exists_exists. by apply (Hr r). }
  rewrite Hnone. eexists. split; [reflexivity|]. cbn [Signup.user_roles].
  split; [|split; [|split]].
  - apply bool_decide_eq_true, Exists_app. right. by constructor.
  - apply bool_decide_eq_false. intros [H|H]%Exists_app.
    + apply Exists_exists in H as (r & Hin & E & _). by apply (Hr r).
    + apply Exists_cons in H as [[_ H]|H%Exists_nil]; [discriminate H|done].
  - intros uid role Hne. apply bool_decide_ext. rewrite Exists_app.
    split; [|by left]. intros [H|H]; [done|].
    apply Exists_cons in H as [[H _]|H%Exists_nil]; [|done].
    by destruct Hne.
  - eexists. cbn [Signup.profiles]. split; [reflexivity|].
    cbn [Signup.pr_id Signup.pr_email Signup.pr_full_name].
    do 2 (split; [reflexivity|]). unfold Signup.COALESCE.
    by destruct (_ !! "full_name").
Qed.

Lemma signup_grants_user_role_only_witness :
  ∃ db',
    Signup.handle_new_user 1766710000000 example_accounts example_signup
      = inr db' ∧
    Signup.has_role (Signup.user_roles db') "dave" Signup.user = true ∧
    Signup.has_role (Signup.user_roles db') "dave" Signup.admin = false ∧
    Signup.has_role (Signup.user_roles db') "alice" Signup.admin = true.
Proof.
  destruct (signup_grants_user_role_only 1766710000000 example_accounts
              example_signup) as (db' & H & Hu & Ha & Hothers & _).
  - intros p Hin. apply list_elem_of_singleton in Hin as ->. discriminate.
  - intros r Hin. unfold example_accounts in Hin.
    cbn [Signup.user_roles] in Hin.
    rewrite !elem_of_cons, elem_of_nil in Hin.
    destruct Hin as [->|[->|[]]]; discriminate.
  - exists db'. split; [exact H|]. split; [exact Hu|]. split; [exact Ha|].
    rewrite (Hothers "alice" Signup.admin) by discriminate. reflexivity.
Defined.
